(** * NSWS approvals scraper: a shallow embedding of the crawl engine

    The repository holds two near-duplicate variants of the same engine,
    [nsws_scraper.py] (module [V1] below) and [nsws_scraper2.py] (module
    [V2]).  Helpers that are textually identical in both files
    ([clean_text], [write_to_csv], the three header lists) are embedded
    once; the functions that differ are embedded per variant.

    Python [str] values are modelled by [string], read as sequences of
    code points below 256.  Exceptions are an explicit outcome, the
    [data] dict and the sink files are finite maps, and the browser is a
    simulated site whose every driver call has a fixed outcome. *)

From Stdlib Require Import String Ascii List Bool Arith Lia.
From stdpp Require Import base strings gmap list.

(** ** Python string primitives *)

Module Py.

(** [str.isspace] on one code point below 256; the same set is matched
    by [\s] in a [str] pattern. *)
Definition is_space (c : ascii) : bool :=
  let n := nat_of_ascii c in
  ((9 <=? n) && (n <=? 13)) || ((28 <=? n) && (n <=? 32))
  || (n =? 133) || (n =? 160).

Definition is_digit (c : ascii) : bool :=
  let n := nat_of_ascii c in (48 <=? n) && (n <=? 57).

(** [str.lower] on one code point below 256. *)
Definition lower_char (c : ascii) : ascii :=
  let n := nat_of_ascii c in
  if ((65 <=? n) && (n <=? 90))
     || ((192 <=? n) && (n <=? 222) && negb (n =? 215))
  then ascii_of_nat (n + 32) else c.

Fixpoint lower (s : string) : string :=
  match s with
  | EmptyString => EmptyString
  | String c r => String (lower_char c) (lower r)
  end.

(** [needle in hay] *)
Fixpoint contains (needle hay : string) : bool :=
  String.prefix needle hay
  || match hay with
     | EmptyString => false
     | String _ r => contains needle r
     end.

(** [s.lstrip()], [s.rstrip()], [s.strip()] *)
Fixpoint lstrip (s : string) : string :=
  match s with
  | EmptyString => EmptyString
  | String c r => if is_space c then lstrip r else s
  end.

Fixpoint rstrip (s : string) : string :=
  match s with
  | EmptyString => EmptyString
  | String c r =>
      match rstrip r with
      | EmptyString => if is_space c then EmptyString else String c EmptyString
      | r' => String c r'
      end
  end.

Definition strip (s : string) : string := rstrip (lstrip s).

(** [s.replace(old, new)]: every non-overlapping occurrence, left to
    right.  [skip] counts the characters of a matched occurrence that are
    still to be dropped. *)
Fixpoint replace_from (old new : string) (skip : nat) (s : string) : string :=
  match s with
  | EmptyString => EmptyString
  | String c r =>
      match skip with
      | S k => replace_from old new k r
      | O =>
          if String.prefix old s
          then new +:+ replace_from old new (String.length old - 1) r
          else String c (replace_from old new 0 r)
      end
  end.

Fixpoint intersperse (new s : string) : string :=
  match s with
  | EmptyString => new
  | String c r => new +:+ String c (intersperse new r)
  end.

Definition replace (old new s : string) : string :=
  match old with
  | EmptyString => intersperse new s
  | _ => replace_from old new 0 s
  end.

(** [s.split(sep)] for a one-character separator. *)
Fixpoint split (sep : ascii) (s : string) : list string :=
  match s with
  | EmptyString => [EmptyString]
  | String c r =>
      if Ascii.eqb c sep then EmptyString :: split sep r
      else match split sep r with
           | [] => [String c EmptyString]
           | w :: ws => String c w :: ws
           end
  end.

(** Truthiness of a [str]. *)
Definition truthy (s : string) : bool :=
  match s with EmptyString => false | _ => true end.

(** ** The three regular expressions of the source *)

(** [re.sub(r'<[^>]+>', '', text)].  A [<] opens a match exactly when the
    next character exists and is not [>] and a [>] follows later; the
    greedy class then runs up to the first such [>]. *)
Fixpoint has_gt (s : string) : bool :=
  match s with
  | EmptyString => false
  | String c r => Ascii.eqb c ">" || has_gt r
  end.

Definition opens_tag (r : string) : bool :=
  match r with
  | EmptyString => false
  | String c r' => negb (Ascii.eqb c ">") && has_gt r'
  end.

Fixpoint sub_tags_from (inside : bool) (s : string) : string :=
  match s with
  | EmptyString => EmptyString
  | String c r =>
      if inside then sub_tags_from (negb (Ascii.eqb c ">")) r
      else if Ascii.eqb c "<" && opens_tag r then sub_tags_from true r
      else String c (sub_tags_from false r)
  end.

Definition sub_tags (s : string) : string := sub_tags_from false s.

(** [re.sub(r'\s+', ' ', text)]: [in_run] tells that the previous
    character was whitespace, already replaced by the single space. *)
Fixpoint sub_spaces_from (in_run : bool) (s : string) : string :=
  match s with
  | EmptyString => EmptyString
  | String c r =>
      if is_space c
      then if in_run then sub_spaces_from true r
           else String " " (sub_spaces_from true r)
      else String c (sub_spaces_from false r)
  end.

Definition sub_spaces (s : string) : string := sub_spaces_from false s.

(** [re.sub(r'\(\d+\)$', '', s)].  [digits_close] reads [\d*\)] and
    returns what follows; [$] accepts the end of the string or one final
    newline, which is then kept. *)
Fixpoint digits_close (seen : bool) (s : string) : option string :=
  match s with
  | EmptyString => None
  | String c r =>
      if is_digit c then digits_close true r
      else if Ascii.eqb c ")" && seen then Some r else None
  end.

Definition at_end (s : string) : bool :=
  match s with
  | EmptyString => true
  | String c EmptyString => Ascii.eqb c "010"
  | _ => false
  end.

Fixpoint sub_count (s : string) : string :=
  match s with
  | EmptyString => EmptyString
  | String c r =>
      match (if Ascii.eqb c "(" then digits_close false r else None) with
      | Some tail => if at_end tail then tail else String c (sub_count r)
      | None => String c (sub_count r)
      end
  end.

End Py.

(** ** Helpers shared by both variants *)

Definition BASE_URL : string :=
  "https://www.nsws.gov.in/portal/approvalsandregistrations".

Definition MINISTRY_HEADERS : list string :=
  [ "Approval Link"; "Approval Name"; "Ministry Name"; "About this approval";
    "Who can apply"; "Documents required"; "Approval applicability/trigger";
    "Application Fee"; "Validity"; "Average Time taken to get this";
    "Can be applied through NSWS" ].

Definition DEPT_HEADERS : list string :=
  [ "Approval Link"; "Approval Name"; "Department Name"; "About this approval";
    "Who can apply"; "Documents required"; "Approval applicability/trigger";
    "Application Fee"; "Validity"; "Average Time taken to get this";
    "Can be applied through NSWS" ].

Definition ALL_HEADERS : list string :=
  [ "Approval Link"; "Approval Name"; "Ministry Name"; "Department Name";
    "About this approval"; "Who can apply"; "Documents required";
    "Approval applicability/trigger"; "Application Fee"; "Validity";
    "Average Time taken to get this"; "Can be applied through NSWS" ].

(** [clean_text]: the emptiness test comes first, on the raw text. *)
Definition clean_text (text : string) : string :=
  if negb (Py.truthy text) then "N/A"
  else Py.strip (Py.sub_spaces (Py.sub_tags text)).

(** ** Exceptions and state *)

(** The reply of one driver call, or of a function without loops: a value
    or a Python exception. *)
Inductive result (A : Type) : Type :=
| Ok (a : A)
| Err.
Arguments Ok {A} a.
Arguments Err {A}.

(** What a computation with loops does: return, raise, or use up the loop
    budget of the model ([Diverges] is not an exception: no [except]
    clause catches it). *)
Inductive outcome (A : Type) : Type :=
| Returns (a : A)
| Raises
| Diverges.
Arguments Returns {A} a.
Arguments Raises {A}.
Arguments Diverges {A}.

(** A computation over a mutable state [S]; the state reached when an
    exception is raised is kept, as it is for a Python object mutated
    inside a [try] block. *)
Definition Try (S A : Type) : Type := S -> S * outcome A.

Definition ret {S A} (a : A) : Try S A := fun s => (s, Returns a).

Definition bind {S A B} (m : Try S A) (k : A -> Try S B) : Try S B :=
  fun s =>
    match m s with
    | (s', Returns a) => k a s'
    | (s', Raises) => (s', Raises)
    | (s', Diverges) => (s', Diverges)
    end.

Definition call {S A} (r : result A) : Try S A :=
  fun s => (s, match r with Ok a => Returns a | Err => Raises end).

Definition modify {S} (f : S -> S) : Try S unit := fun s => (f s, Returns tt).

Definition get {S} : Try S S := fun s => (s, Returns s).

(** [try: body / except: handler] *)
Definition try_except {S A} (body handler : Try S A) : Try S A :=
  fun s =>
    match body s with
    | (s', Raises) => handler s'
    | r => r
    end.

(** [try: body / finally: fin] *)
Definition try_finally {S A} (body : Try S A) (fin : Try S unit) : Try S A :=
  fun s =>
    match body s with
    | (s', Diverges) => (s', Diverges)
    | (s', o) =>
        match fin s' with
        | (s'', Returns _) => (s'', o)
        | (s'', Raises) => (s'', Raises)
        | (s'', Diverges) => (s'', Diverges)
        end
    end.

Declare Scope try_scope.
Delimit Scope try_scope with try.
Notation "x <- m ;; k" := (bind m (fun x => k))
  (at level 100, m at level 99, k at level 200, right associativity) : try_scope.
Notation "m ;; k" := (bind m (fun _ => k))
  (at level 100, k at level 200, right associativity) : try_scope.
Open Scope try_scope.

(** ** The output sink *)

(** A line of a CSV file: the header row written by [writeheader], or a
    record row written by [writerow]. *)
Inductive Line : Type :=
| Header (cols : list string)
| Row (vals : list string).

Definition is_header (l : Line) : bool :=
  match l with Header _ => true | Row _ => false end.

Definition count_headers (ls : list Line) : nat :=
  length (filter (fun l => is_header l = true) ls).

(** [csv.DictWriter.writerow(row_data)]: with the default
    [extrasaction='raise'] a key outside [fieldnames] is a [ValueError];
    a missing key is written as the default [restval=''].  Nothing is
    written when it raises. *)
Definition dict_to_list (headers : list string) (row_data : gmap string string)
  : result (list string) :=
  if forallb (fun k => bool_decide (k ∈ headers)) (map fst (map_to_list row_data))
  then Ok (map (fun k => default "" (row_data !! k)) headers)
  else Err.

(** [writer.writeheader()] and [writer.writerow(...)] on a file opened
    for appending. *)
Definition append_line (filepath : string) (l : Line)
    (fs : gmap string (list Line)) : gmap string (list Line) :=
  <[filepath := default [] (fs !! filepath) ++ [l]]> fs.

(** [write_to_csv]: opening in mode ['a'] creates a missing file and
    never truncates an existing one. *)
Definition write_to_csv (filepath : string) (headers : list string)
    (row_data : gmap string string) : Try (gmap string (list Line)) unit :=
  fs <- get;;
  let file_exists := bool_decide (is_Some (fs !! filepath)) in
  modify (fun fs => <[filepath := default [] (fs !! filepath)]> fs);;
  (if negb file_exists
   then modify (append_line filepath (Header headers))
   else ret tt);;
  vals <- call (dict_to_list headers row_data);;
  modify (append_line filepath (Row vals)).

(** The two dictionary steps of the card loop:
    [for k, v in extra_fields_map.items(): row_data[k] = v] and
    [{k: row_data.get(k, "N/A") for k in headers}]. *)
Definition overlay (extra_fields_map : option (gmap string string))
    (row_data : gmap string string) : gmap string string :=
  match extra_fields_map with
  | Some extra => if bool_decide (extra = ∅) then row_data else extra ∪ row_data
  | None => row_data
  end.

Definition safe_row (headers : list string) (row_data : gmap string string)
  : gmap string string :=
  list_to_map (map (fun k => (k, default "N/A" (row_data !! k))) headers).

(** ** The simulated detail view

    One record per URL: what each driver call of [extract_detail_page]
    replies once the view has been opened on that URL.  The replies do
    not change while the page is read.  [count()] is taken never to
    raise; every other call can. *)

Record Element : Type := {
  el_tag : string;          (* lower-case tag name *)
  el_text : string          (* rendered text *)
}.

(** The heading-like elements ([h2], [h3], [h4], [strong], [b]) whose
    text contains one keyword, with the content blocks around them. *)
Record Heading : Type := {
  hd_following_div : result string;        (* xpath + "/following::div[1]", first *)
  hd_sibling : option (result string);
    (* following-sibling div[1] | p[1], first; None: count 0 *)
  hd_parent_last_div : result string       (* xpath + "/..", then "div", last *)
}.

(** The elements whose text contains one label pattern: the last of
    them. *)
Record Label : Type := {
  lb_parent : result string;               (* "xpath=..", inner_text *)
  lb_next_sibling : option (result string) (* "following-sibling::*[1]"; None: count 0 *)
}.

Record DetailPage : Type := {
  dp_new_page : result unit;               (* context.new_page() *)
  dp_goto : result unit;                   (* page.goto(url, ...) *)
  dp_wait : result unit;                   (* wait_for_selector / wait_for_load_state *)
  dp_h1 : option (result string);          (* first h1 and its inner_text; None: count 0 *)
  dp_banners : list (result string);       (* ".banner-content, .approval-banner" *)
  dp_heading : string -> option Heading;   (* None: no heading contains the keyword *)
  dp_label : string -> option Label;       (* None: no element contains the pattern *)
  dp_elements : list Element;              (* the elements of the document *)
  dp_close : result unit                   (* page.close() *)
}.

(** [locator.inner_text()] on a locator that is not narrowed by [.first]:
    more than one match is a strict-mode violation. *)
Definition strict_inner_text (matches : list (result string)) : result string :=
  match matches with
  | [m] => m
  | _ => Err
  end.

(** [:has-text('...')]: case-insensitive substring of the element's
    text. *)
Definition has_text (needle : string) (e : Element) : bool :=
  Py.contains (Py.lower needle) (Py.lower (el_text e)).

(** "button:has-text('Apply Now'), a:has-text('Apply Now'),
     button:has-text('Login to Apply')" *)
Definition apply_btn (e : Element) : bool :=
  (String.eqb (el_tag e) "button" && has_text "Apply Now" e)
  || (String.eqb (el_tag e) "a" && has_text "Apply Now" e)
  || (String.eqb (el_tag e) "button" && has_text "Login to Apply" e).

Definition nsws_applicability (dp : DetailPage) : string :=
  if 0 <? length (filter (fun e => apply_btn e = true) (dp_elements dp))
  then "Yes" else "No (Information Only)".

(** The banner loop: every line is tested for both tokens, a later line
    overwrites an earlier one. *)
Definition banner_lines (banner_text : string) : list string :=
  map Py.strip
    (filter (fun l => Py.truthy (Py.strip l) = true) (Py.split "010" banner_text)).

Definition banner_line (data : gmap string string) (line : string)
  : gmap string string :=
  let data :=
    if Py.contains "Ministry" line then <["Ministry Name" := line]> data else data in
  if Py.contains "Department" line then <["Department Name" := line]> data else data.

(** [for k in ALL_HEADERS: if k not in data: data[k] = "Error"] *)
Definition fill_error (data : gmap string string) : gmap string string :=
  fold_left
    (fun d k => match d !! k with Some _ => d | None => <[k := "Error"]> d end)
    ALL_HEADERS data.

(** ** The simulated results view and catalog *)

(** A result card: [card.locator("a").first.get_attribute("href")]. *)
Record Card : Type := {
  card_href : result (option string)
}.

(** The anchor or button inside the "next" item: its [click()], and
    whether a response with status 200 arrives within the time-out. *)
Inductive NextButton : Type :=
| NoButton
| Button (click : result unit) (response_200 : bool).

(** The item [li.ant-pagination-next]. *)
Record NextLi : Type := {
  li_class : result (option string);     (* get_attribute("class") *)
  li_button : NextButton                 (* locator("a, button").first *)
}.

Record ResultsPage : Type := {
  rp_wait_cards : result unit;           (* wait_for_selector on the card selectors *)
  rp_cards : list Card;
    (* ".card, .common-card-container, .approval-license-info" *)
  rp_next : option NextLi                (* None: count() == 0 *)
}.

(** What the view shows past the end of a listing. *)
Definition blank_page : ResultsPage :=
  {| rp_wait_cards := Err; rp_cards := []; rp_next := None |}.

(** One [label.ant-checkbox-wrapper] of a filter block. *)
Record Checkbox : Type := {
  cb_id : nat;
  cb_text : result string;               (* inner_text() *)
  cb_scroll : result unit;               (* scroll_into_view_if_needed() *)
  cb_check : result unit;                (* click() while unchecked *)
  cb_uncheck : result unit               (* click() while checked *)
}.

Record Site : Type := {
  s_launch : result unit;                (* launch, new_context, new_page *)
  s_goto : result unit;                  (* page.goto(BASE_URL) *)
  s_reload : result unit;                (* page.reload() *)
  s_close : result unit;                 (* browser.close() *)
  s_filter_section : result unit;        (* wait_for_selector(".filter-section") *)
  s_filter_headers : list (result string * list Checkbox);
    (* ".filter-type h3, .filter-type .title, .filter-head": the text of
       each and the checkboxes under its filter-type ancestors *)
  s_filter_types : list (list Checkbox); (* ".filter-type", in document order *)
  s_listing : list nat -> list ResultsPage;
    (* the pages of results shown while these checkboxes are checked *)
  s_detail : string -> DetailPage
}.

(** The mutable world: the sink files, the state of the results view,
    and a count of the pages the walker has looked at. *)
Record World : Type := {
  w_fs : gmap string (list Line);
  w_checked : list nat;
  w_page : nat;
  w_visits : nat
}.

Definition on_fs {A} (m : Try (gmap string (list Line)) A) : Try World A :=
  fun w =>
    let '(fs, o) := m (w_fs w) in
    ({| w_fs := fs; w_checked := w_checked w; w_page := w_page w;
        w_visits := w_visits w |}, o).

Definition current_page (site : Site) (w : World) : ResultsPage :=
  nth (w_page w) (s_listing site (w_checked w)) blank_page.

Definition visit (w : World) : World :=
  {| w_fs := w_fs w; w_checked := w_checked w; w_page := w_page w;
     w_visits := S (w_visits w) |}.

Definition next_page (w : World) : World :=
  {| w_fs := w_fs w; w_checked := w_checked w; w_page := S (w_page w);
     w_visits := w_visits w |}.

(** A click on a checkbox toggles it; the listing restarts at its first
    page. *)
Definition toggle (id : nat) (w : World) : World :=
  {| w_fs := w_fs w;
     w_checked := if bool_decide (id ∈ w_checked w)
                  then filter (fun j => j ≠ id) (w_checked w)
                  else w_checked w ++ [id];
     w_page := 0;
     w_visits := w_visits w |}.

(** [page.reload()]: the catalog in its unfiltered default state. *)
Definition reloaded (w : World) : World :=
  {| w_fs := w_fs w; w_checked := []; w_page := 0; w_visits := w_visits w |}.

Definition click_checkbox (cb : Checkbox) : Try World unit :=
  w <- get;;
  (if bool_decide (cb_id cb ∈ w_checked w)
   then call (cb_uncheck cb) else call (cb_check cb));;
  modify (toggle (cb_id cb)).

Definition reload (site : Site) : Try World unit :=
  call (s_reload site);; modify reloaded.

(** [for x in xs: body(x)] *)
Fixpoint for_each {S A} (body : A -> Try S unit) (xs : list A) : Try S unit :=
  match xs with
  | [] => ret tt
  | x :: rest => body x;; for_each body rest
  end.

Definition diverge {S A} : Try S A := fun s => (s, Diverges).
Definition raise {S A} : Try S A := fun s => (s, Raises).

(** The filter label without its count:
    [re.sub(r'\(\d+\)$', '', raw).strip()] on the stripped text. *)
Definition filter_name_of (inner_text : string) : string :=
  Py.strip (Py.sub_count (Py.strip inner_text)).

(** The body of the card loop, the same in both variants up to printing
    and sleeping. *)
Section Card.
Variable urljoin : string -> string -> string.
Variable extract_detail_page : DetailPage -> string -> result (gmap string string).
Variable site : Site.

Definition process_card (csv_path : string) (headers : list string)
    (extra_fields_map : option (gmap string string)) (card : Card)
  : Try World unit :=
  try_except
    (href <- call (card_href card);;
     match href with
     | Some href =>
         if Py.truthy href
         then
           let full_url := urljoin BASE_URL href in
           row_data <- call (extract_detail_page (s_detail site full_url) full_url);;
           let row_data := overlay extra_fields_map row_data in
           let safe_row := safe_row headers row_data in
           on_fs (write_to_csv csv_path headers safe_row)
         else ret tt
     | None => ret tt
     end)
    (ret tt).
End Card.
(** ** [nsws_scraper.py]: the detail fetcher *)

Module V1.

Fixpoint get_section_text (dp : DetailPage) (header_keywords : list string) : string :=
  match header_keywords with
  | [] => "N/A"
  | keyword :: rest =>
      match dp_heading dp keyword with
      | Some header =>
          match hd_following_div header with
          | Ok content => clean_text content
          | Err => "N/A"
          end
      | None => get_section_text dp rest
      end
  end.

Fixpoint get_labeled_value (dp : DetailPage) (label_patterns : list string) : string :=
  match label_patterns with
  | [] => "N/A"
  | pattern :: rest =>
      match dp_label dp pattern with
      | Some el =>
          match lb_parent el with
          | Ok full_text => clean_text (Py.replace pattern "" full_text)
          | Err => get_labeled_value dp rest
          end
      | None => get_labeled_value dp rest
      end
  end.

(** The body of the [try] block. *)
Definition extract_body (dp : DetailPage) (url : string)
  : Try (gmap string string) unit :=
  call (dp_goto dp);;
  try_except (call (dp_wait dp)) (ret tt);;
  modify <["Approval Link" := url]>;;
  name <- match dp_h1 dp with
          | Some h1 => text <- call h1;; ret (clean_text text)
          | None => ret "N/A"
          end;;
  modify <["Approval Name" := name]>;;
  banner_text <- match dp_banners dp with
                 | [] => ret ""
                 | banners => call (strict_inner_text banners)
                 end;;
  modify <["Ministry Name" := "N/A"]>;;
  modify <["Department Name" := "N/A"]>;;
  (if Py.truthy banner_text
   then modify (fun data => fold_left banner_line (banner_lines banner_text) data)
   else ret tt);;
  modify <["About this approval" := get_section_text dp ["About"; "Brief"; "Description"]]>;;
  modify <["Who can apply" := get_section_text dp ["Who can"; "Eligibility"]]>;;
  modify <["Documents required" :=
             get_section_text dp ["Documents"; "Enclosures"; "Attachment"]]>;;
  modify <["Approval applicability/trigger" :=
             get_section_text dp ["Applicability"; "Trigger"]]>;;
  modify <["Application Fee" := get_labeled_value dp ["Fee"; "Payment"; "Cost"]]>;;
  modify <["Validity" := get_labeled_value dp ["Validity"; "Valid For"]]>;;
  modify <["Average Time taken to get this" :=
             get_labeled_value dp ["Time"; "Timeline"; "SLA"]]>;;
  modify <["Can be applied through NSWS" := nsws_applicability dp]>.

Definition extract_detail_page (dp : DetailPage) (url : string)
  : result (gmap string string) :=
  match dp_new_page dp with
  | Err => Err
  | Ok _ =>
      match try_finally
              (try_except (extract_body dp url) (modify fill_error))
              (call (dp_close dp)) ∅ with
      | (data, Returns _) => Ok data
      | (_, _) => Err
      end
  end.

(** *** The pagination walker *)

Section Engine.
Variable urljoin : string -> string -> string.
Variable site : Site.

Fixpoint handle_pagination_and_extraction (fuel : nat) (csv_path : string)
    (headers : list string) (extra_fields_map : option (gmap string string))
  : Try World unit :=
  match fuel with
  | O => diverge
  | S fuel =>
      modify visit;;
      page <- (w <- get;; ret (current_page site w));;
      for_each
        (process_card urljoin extract_detail_page site csv_path headers extra_fields_map)
        (rp_cards page);;
      match rp_next page with
      | None => ret tt
      | Some next_li =>
          class <- call (li_class next_li);;
          if Py.contains "ant-pagination-disabled" (default "" class)
          then ret tt
          else
            advance <- try_except
                         (match li_button next_li with
                          | Button click response_200 =>
                              call click;; modify next_page;;
                              if response_200 then ret true else raise
                          | NoButton => ret false
                          end)
                         (ret false);;
            if advance
            then handle_pagination_and_extraction fuel csv_path headers extra_fields_map
            else ret tt
      end
  end.

(** *** The filter iterator *)

Fixpoint find_block (section_name : string)
    (filter_headers : list (result string * list Checkbox))
  : Try World (option (list Checkbox)) :=
  match filter_headers with
  | [] => ret None
  | (inner_text, block) :: rest =>
      txt <- call inner_text;;
      if Py.contains (Py.lower section_name) (Py.lower txt)
      then ret (Some block)
      else find_block section_name rest
  end.

Definition fallback_block (section_name : string) : list Checkbox :=
  nth (if Py.contains "Ministry" section_name then 0 else 1) (s_filter_types site) [].

(** One turn of [for i in range(total_filters)]; the result is the
    value of [checkboxes] for the next turn. *)
Definition filter_turn (fuel : nat) (section_name csv_path : string)
    (headers : list string) (header_key_for_filter_name : string)
    (checkboxes : list Checkbox) (i : nat) : Try World (list Checkbox) :=
  try_except
    (current_checkbox <- call (match checkboxes !! i with
                               | Some cb => Ok cb
                               | None => Err
                               end);;
     filter_name_raw <- call (cb_text current_checkbox);;
     let filter_name := filter_name_of filter_name_raw in
     call (cb_scroll current_checkbox);;
     click_checkbox current_checkbox;;
     handle_pagination_and_extraction fuel csv_path headers
       (Some {[header_key_for_filter_name := filter_name]});;
     click_checkbox current_checkbox;;
     ret checkboxes)
    (reload site;;
     ret (fallback_block section_name)).

Fixpoint filter_loop (fuel : nat) (section_name csv_path : string)
    (headers : list string) (header_key_for_filter_name : string)
    (checkboxes : list Checkbox) (range : list nat) : Try World unit :=
  match range with
  | [] => ret tt
  | i :: rest =>
      checkboxes <- filter_turn fuel section_name csv_path headers
                      header_key_for_filter_name checkboxes i;;
      filter_loop fuel section_name csv_path headers header_key_for_filter_name
        checkboxes rest
  end.

Definition click_filter_and_process (fuel : nat) (section_name csv_path : string)
    (headers : list string) (header_key_for_filter_name : string)
  : Try World unit :=
  call (s_filter_section site);;
  target_block <- find_block section_name (s_filter_headers site);;
  let target_block :=
    match target_block with
    | Some block => block
    | None => fallback_block section_name
    end in
  let checkboxes := target_block in
  let total_filters := length checkboxes in
  filter_loop fuel section_name csv_path headers header_key_for_filter_name
    checkboxes (seq 0 total_filters).

(** *** The orchestrator *)

Definition main (fuel : nat) : Try World unit :=
  call (s_launch site);;
  call (s_goto site);;
  click_filter_and_process fuel "Ministries" "nsws_data_output/Ministries.csv"
    MINISTRY_HEADERS "Ministry Name";;
  reload site;;
  click_filter_and_process fuel "Departments" "nsws_data_output/Departments.csv"
    DEPT_HEADERS "Department Name";;
  reload site;;
  handle_pagination_and_extraction fuel "nsws_data_output/All_Approvals.csv"
    ALL_HEADERS None;;
  call (s_close site).
End Engine.

End V1.

(** ** [nsws_scraper2.py]: the detail fetcher *)

Module V2.

Definition safe_extract_text (matches : list (result string)) : string :=
  match matches with
  | Ok text :: _ => clean_text text
  | _ => "N/A"
  end.

Fixpoint get_section_text (dp : DetailPage) (header_keywords : list string) : string :=
  match header_keywords with
  | [] => "N/A"
  | keyword :: rest =>
      match dp_heading dp keyword with
      | Some header =>
          match hd_sibling header with
          | Some (Ok content) => clean_text content
          | Some Err => "N/A"
          | None =>
              match hd_parent_last_div header with
              | Ok content_parent => clean_text content_parent
              | Err => "N/A"
              end
          end
      | None => get_section_text dp rest
      end
  end.

Fixpoint get_labeled_value (dp : DetailPage) (label_patterns : list string) : string :=
  match label_patterns with
  | [] => "N/A"
  | pattern :: rest =>
      match dp_label dp pattern with
      | Some el =>
          match lb_parent el with
          | Ok full_text =>
              let cleaned := clean_text (Py.replace ":" "" (Py.replace pattern "" full_text)) in
              if String.length cleaned <? 2
              then match lb_next_sibling el with
                   | Some (Ok next_sib) => clean_text next_sib
                   | Some Err => get_labeled_value dp rest
                   | None => cleaned
                   end
              else cleaned
          | Err => get_labeled_value dp rest
          end
      | None => get_labeled_value dp rest
      end
  end.

(** The body of the [try] block; the two [time.sleep] calls have no
    effect on the model. *)
Definition extract_body (dp : DetailPage) (url : string)
  : Try (gmap string string) unit :=
  call (dp_goto dp);;
  try_except (call (dp_wait dp)) (ret tt);;
  modify <["Approval Link" := url]>;;
  name <- match dp_h1 dp with
          | Some h1 => text <- call h1;; ret (clean_text text)
          | None => ret "N/A"
          end;;
  modify <["Approval Name" := name]>;;
  banner_text <- ret (safe_extract_text (dp_banners dp));;
  modify <["Ministry Name" := "N/A"]>;;
  modify <["Department Name" := "N/A"]>;;
  (if negb (String.eqb banner_text "N/A")
   then modify (fun data => fold_left banner_line (banner_lines banner_text) data)
   else ret tt);;
  modify <["About this approval" :=
             get_section_text dp ["About"; "Brief"; "Description"; "Objective"]]>;;
  modify <["Who can apply" := get_section_text dp ["Who can"; "Eligibility"; "Beneficiary"]]>;;
  modify <["Documents required" :=
             get_section_text dp ["Documents"; "Enclosures"; "Attachment"; "Checklist"]]>;;
  modify <["Approval applicability/trigger" :=
             get_section_text dp ["Applicability"; "Trigger"; "Prerequisite"]]>;;
  modify <["Application Fee" := get_labeled_value dp ["Fee"; "Payment"; "Cost"; "Price"]]>;;
  modify <["Validity" := get_labeled_value dp ["Validity"; "Valid For"]]>;;
  modify <["Average Time taken to get this" :=
             get_labeled_value dp ["Time"; "Timeline"; "SLA"; "Duration"]]>;;
  modify <["Can be applied through NSWS" := nsws_applicability dp]>.

Definition extract_detail_page (dp : DetailPage) (url : string)
  : result (gmap string string) :=
  match dp_new_page dp with
  | Err => Err
  | Ok _ =>
      match try_finally
              (try_except (extract_body dp url) (modify fill_error))
              (call (dp_close dp)) ∅ with
      | (data, Returns _) => Ok data
      | (_, _) => Err
      end
  end.

(** *** The pagination walker *)

Section Engine.
Variable urljoin : string -> string -> string.
Variable site : Site.

Fixpoint handle_pagination_and_extraction (fuel : nat) (csv_path : string)
    (headers : list string) (extra_fields_map : option (gmap string string))
  : Try World unit :=
  match fuel with
  | O => diverge
  | S fuel =>
      modify visit;;
      page <- (w <- get;; ret (current_page site w));;
      cards_found <- try_except (call (rp_wait_cards page);; ret true) (ret false);;
      if negb cards_found
      then ret tt
      else
        for_each
          (process_card urljoin extract_detail_page site csv_path headers extra_fields_map)
          (rp_cards page);;
        match rp_next page with
        | None => ret tt
        | Some next_li =>
            class_attr <- call (li_class next_li);;
            if Py.contains "ant-pagination-disabled" (default "" class_attr)
            then ret tt
            else
              advance <- try_except
                           (match li_button next_li with
                            | Button click _ =>
                                call click;; modify next_page;; ret true
                            | NoButton => ret false
                            end)
                           (ret false);;
              if advance
              then handle_pagination_and_extraction fuel csv_path headers extra_fields_map
              else ret tt
        end
  end.

(** *** The filter iterator *)

Fixpoint find_block (section_name : string)
    (filter_headers : list (result string * list Checkbox))
  : Try World (option (list Checkbox)) :=
  match filter_headers with
  | [] => ret None
  | (inner_text, block) :: rest =>
      txt <- call inner_text;;
      if Py.contains (Py.lower section_name) (Py.lower txt)
      then ret (Some block)
      else find_block section_name rest
  end.

Definition fallback_block (section_name : string) : list Checkbox :=
  nth (if Py.contains "Ministr" section_name then 0 else 1) (s_filter_types site) [].

(** One turn of [for i in range(total_filters)]; [target_block] is a
    lazy locator, so the handler's [target_block.locator(...)] finds
    the same block again in the reloaded view. *)
Definition filter_turn (fuel : nat) (csv_path : string)
    (headers : list string) (header_key : string)
    (target_block checkboxes : list Checkbox) (i : nat)
  : Try World (list Checkbox) :=
  try_except
    (current_checkbox <- call (match checkboxes !! i with
                               | Some cb => Ok cb
                               | None => Err
                               end);;
     filter_name_raw <- call (cb_text current_checkbox);;
     let filter_name := filter_name_of filter_name_raw in
     call (cb_scroll current_checkbox);;
     click_checkbox current_checkbox;;
     handle_pagination_and_extraction fuel csv_path headers
       (Some {[header_key := filter_name]});;
     click_checkbox current_checkbox;;
     ret checkboxes)
    (reload site;;
     ret target_block).

Fixpoint filter_loop (fuel : nat) (csv_path : string)
    (headers : list string) (header_key : string)
    (target_block checkboxes : list Checkbox) (range : list nat)
  : Try World unit :=
  match range with
  | [] => ret tt
  | i :: rest =>
      checkboxes <- filter_turn fuel csv_path headers header_key
                      target_block checkboxes i;;
      filter_loop fuel csv_path headers header_key target_block checkboxes rest
  end.

Definition click_filter_and_process (fuel : nat) (section_name csv_path : string)
    (headers : list string) (header_key : string) : Try World unit :=
  call (s_filter_section site);;
  target_block <- find_block section_name (s_filter_headers site);;
  let target_block :=
    match target_block with
    | Some block => block
    | None => fallback_block section_name
    end in
  let checkboxes := target_block in
  let total_filters := length checkboxes in
  filter_loop fuel csv_path headers header_key target_block checkboxes
    (seq 0 total_filters).

(** *** The orchestrator *)

Definition main (fuel : nat) : Try World unit :=
  call (s_launch site);;
  call (s_goto site);;
  try_except
    (click_filter_and_process fuel "Ministries" "nsws_data_slowed/Ministries.csv"
       MINISTRY_HEADERS "Ministry Name")
    (ret tt);;
  reload site;;
  try_except
    (click_filter_and_process fuel "Departments" "nsws_data_slowed/Departments.csv"
       DEPT_HEADERS "Department Name")
    (ret tt);;
  reload site;;
  handle_pagination_and_extraction fuel "nsws_data_slowed/All_Approvals.csv"
    ALL_HEADERS None;;
  call (s_close site).
End Engine.

End V2.

(** * Vocabulary of the properties *)

(** The values read off a record, column by column. *)
Definition columns_of (headers : list string) (row_data : gmap string string)
  : list string :=
  map (fun k => default "N/A" (row_data !! k)) headers.

(** The lines one call of [write_to_csv] puts before the record row. *)
Definition header_if_new (fs : gmap string (list Line)) (filepath : string)
    (headers : list string) : list Line :=
  if bool_decide (is_Some (fs !! filepath)) then [] else [Header headers].

(** [fs'] extends [fs]: every file keeps its old lines as a prefix, an
    existing file stays, and the added lines hold no header when the
    file existed before and at most one when it did not. *)
Definition extends (fs fs' : gmap string (list Line)) : Prop :=
  forall filepath : string,
    exists added : list Line,
      default [] (fs' !! filepath) = default [] (fs !! filepath) ++ added
      /\ (is_Some (fs !! filepath) -> is_Some (fs' !! filepath))
      /\ count_headers added <= (if bool_decide (is_Some (fs !! filepath)) then 0 else 1).

(** [fs'] is [fs] with lines satisfying [P] appended to [filepath]. *)
Definition appends (filepath : string) (P : Line -> Prop)
    (fs fs' : gmap string (list Line)) : Prop :=
  (forall other, other ≠ filepath -> fs' !! other = fs !! other)
  /\ exists added,
      default [] (fs' !! filepath) = default [] (fs !! filepath) ++ added
      /\ Forall P added.

(** [row_data] is what the detail fetcher returns for the link of some
    card. *)
Definition extracted (urljoin : string -> string -> string)
    (extract : DetailPage -> string -> result (gmap string string))
    (site : Site) (row_data : gmap string string) : Prop :=
  exists href,
    extract (s_detail site (urljoin BASE_URL href)) (urljoin BASE_URL href)
    = Ok row_data.

(** The header of the schema, or an extracted record read column by
    column after the forced fields have been laid over it. *)
Definition walker_line (urljoin : string -> string -> string)
    (extract : DetailPage -> string -> result (gmap string string))
    (site : Site) (headers : list string)
    (extra : option (gmap string string)) (l : Line) : Prop :=
  match l with
  | Header cols => cols = headers
  | Row vals =>
      exists row_data,
        extracted urljoin extract site row_data
        /\ vals = columns_of headers (overlay extra row_data)
  end.

(** [R] holds across every write of an extracted record, projected onto
    [headers], into the file [csv_path]. *)
Definition writes_ok (R : relation (gmap string (list Line)))
    (urljoin : string -> string -> string)
    (extract : DetailPage -> string -> result (gmap string string))
    (site : Site) (csv_path : string) (headers : list string) : Prop :=
  forall extra row_data fs,
    extracted urljoin extract site row_data ->
    R fs (fst (write_to_csv csv_path headers
                 (safe_row headers (overlay extra row_data)) fs)).

(** The sink of each phase and its schema, as [main] pairs them. *)
Definition schema_v1 (filepath : string) : option (list string) :=
  if String.eqb filepath "nsws_data_output/Ministries.csv" then Some MINISTRY_HEADERS
  else if String.eqb filepath "nsws_data_output/Departments.csv" then Some DEPT_HEADERS
  else if String.eqb filepath "nsws_data_output/All_Approvals.csv" then Some ALL_HEADERS
  else None.

Definition schema_v2 (filepath : string) : option (list string) :=
  if String.eqb filepath "nsws_data_slowed/Ministries.csv" then Some MINISTRY_HEADERS
  else if String.eqb filepath "nsws_data_slowed/Departments.csv" then Some DEPT_HEADERS
  else if String.eqb filepath "nsws_data_slowed/All_Approvals.csv" then Some ALL_HEADERS
  else None.

(** [fs'] is [fs] with lines appended to the sinks only, each line
    satisfying [P] for the schema of its sink. *)
Definition run_appends (schema : string -> option (list string))
    (P : list string -> Line -> Prop) (fs fs' : gmap string (list Line)) : Prop :=
  forall filepath,
    exists added,
      default [] (fs' !! filepath) = default [] (fs !! filepath) ++ added
      /\ match schema filepath with
         | Some headers => Forall (P headers) added
         | None => added = []
         end.

(** The record restricted to the columns of a schema. *)
Definition project (headers : list string) (row_data : gmap string string)
  : gmap string string :=
  filter (fun kv => kv.1 ∈ headers) row_data.

(** A run of the orchestrator on a freshly opened browser, and a series
    of runs that each find the files the one before has left. *)
Definition fresh_world (fs : gmap string (list Line)) : World :=
  {| w_fs := fs; w_checked := []; w_page := 0; w_visits := 0 |}.

Definition run_v1 (urljoin : string -> string -> string)
    (fs : gmap string (list Line)) (run : Site * nat) : gmap string (list Line) :=
  w_fs (fst (V1.main urljoin run.1 run.2 (fresh_world fs))).

Definition run_v2 (urljoin : string -> string -> string)
    (fs : gmap string (list Line)) (run : Site * nat) : gmap string (list Line) :=
  w_fs (fst (V2.main urljoin run.1 run.2 (fresh_world fs))).

(** A relation on the sink files holds across a computation, whatever
    its outcome. *)
Definition preserves (R : relation (gmap string (list Line))) {A}
    (m : Try World A) : Prop :=
  forall w, R (w_fs w) (w_fs (fst (m w))).

(** ** The rules as the specification words them *)

(** NSWS applicability: "an actionable control (button or link) whose
    visible label is Apply Now or Login to Apply". *)
Definition spec_apply_control (e : Element) : bool :=
  (String.eqb (el_tag e) "button" || String.eqb (el_tag e) "a")
  && (String.eqb (el_text e) "Apply Now" || String.eqb (el_text e) "Login to Apply").

Definition spec_nsws_applicability (dp : DetailPage) : string :=
  if existsb spec_apply_control (dp_elements dp)
  then "Yes" else "No (Information Only)".

(** Labeled values: "strips the label token and a trailing colon,
    normalizes whitespace". *)
Fixpoint spec_strip_label (pattern s : string) : string :=
  match s with
  | EmptyString => EmptyString
  | String c r =>
      if String.prefix pattern s
      then match String.substring (String.length pattern)
                   (String.length s - String.length pattern) s with
           | String ":" rest => rest
           | rest => rest
           end
      else String c (spec_strip_label pattern r)
  end.

Definition spec_normalize (s : string) : string := Py.strip (Py.sub_spaces s).

(** "The first pattern with at least one textual match ... takes the
    last match, reads that match's immediate container's text ... and, if
    the stripped result has fewer than 2 characters, falls back to the
    text of the immediate next sibling element." *)
Fixpoint spec_labeled_value (dp : DetailPage) (label_patterns : list string) : string :=
  match label_patterns with
  | [] => "N/A"
  | pattern :: rest =>
      match dp_label dp pattern with
      | Some el =>
          match lb_parent el with
          | Ok full_text =>
              let stripped := spec_normalize (spec_strip_label pattern full_text) in
              if String.length stripped <? 2
              then match lb_next_sibling el with
                   | Some (Ok next_sib) => spec_normalize next_sib
                   | _ => stripped
                   end
              else stripped
          | Err => spec_labeled_value dp rest
          end
      | None => spec_labeled_value dp rest
      end
  end.

(** A pattern the search goes past: it matches nothing, or the text of
    its container cannot be read. *)
Definition passed_over (dp : DetailPage) (pattern : string) : Prop :=
  dp_label dp pattern = None
  \/ exists el, dp_label dp pattern = Some el /\ lb_parent el = Err.

(** Pagination: the "next" control is absent or carries the disabled
    marker; it is present and enabled. *)
Definition next_off (p : ResultsPage) : bool :=
  match rp_next p with
  | None => true
  | Some next_li =>
      match li_class next_li with
      | Ok class => Py.contains "ant-pagination-disabled" (default "" class)
      | Err => false
      end
  end.

Definition next_on (p : ResultsPage) : bool :=
  match rp_next p with
  | None => false
  | Some next_li =>
      match li_class next_li with
      | Ok class => negb (Py.contains "ant-pagination-disabled" (default "" class))
      | Err => false
      end
  end.

(** What the code needs besides: the control holds an anchor or button
    whose click succeeds (and, in the first variant, is answered by a
    response with status 200); the cards of the page show up within the
    wait (second variant). *)
Definition click_succeeds (p : ResultsPage) : bool :=
  match rp_next p with
  | Some next_li =>
      match li_button next_li with
      | Button (Ok _) _ => true
      | _ => false
      end
  | None => false
  end.

Definition click_answered (p : ResultsPage) : bool :=
  match rp_next p with
  | Some next_li =>
      match li_button next_li with
      | Button (Ok _) response_200 => response_200
      | _ => false
      end
  | None => false
  end.

Definition cards_show (p : ResultsPage) : bool :=
  match rp_wait_cards p with
  | Ok _ => true
  | Err => false
  end.

(** The value a fetched record holds in one field. *)
Definition field (r : result (gmap string string)) (k : string) : option string :=
  match r with
  | Ok data => data !! k
  | Err => None
  end.

(** Two worlds that differ in the sink files at most. *)
Definition same_view (w w' : World) : Prop :=
  w_checked w' = w_checked w /\ w_page w' = w_page w /\ w_visits w' = w_visits w.

(** The same detail page with another reply to the wait. *)
Definition with_wait (r : result unit) (dp : DetailPage) : DetailPage :=
  {| dp_new_page := dp_new_page dp; dp_goto := dp_goto dp; dp_wait := r;
     dp_h1 := dp_h1 dp; dp_banners := dp_banners dp;
     dp_heading := dp_heading dp; dp_label := dp_label dp;
     dp_elements := dp_elements dp; dp_close := dp_close dp |}.

(** ** Normal forms of text *)

(** No [<] opens a tag. *)
Fixpoint no_tag (t : string) : bool :=
  match t with
  | EmptyString => true
  | String c r => negb (Ascii.eqb c "<" && Py.opens_tag r) && no_tag r
  end.

(** Every whitespace character is a single space between two other
    characters; [after_space] tells that the previous one was a space. *)
Fixpoint single_spaced (after_space : bool) (t : string) : bool :=
  match t with
  | EmptyString => true
  | String c r =>
      if Py.is_space c
      then Ascii.eqb c " " && negb after_space && single_spaced true r
      else single_spaced false r
  end.

(** A text [clean_text] leaves as it is: not empty, and a fixed point of
    each of its three steps. *)
Definition normalized (t : string) : Prop :=
  t <> EmptyString
  /\ Py.sub_tags t = t
  /\ Py.sub_spaces t = t
  /\ Py.strip t = t.

(** The text does not start with whitespace. *)
Definition starts_clean (t : string) : bool :=
  match t with
  | EmptyString => true
  | String c _ => negb (Py.is_space c)
  end.

(** A checkbox of the catalog: one under a filter heading, or one of a
    container taken by position. *)
Definition site_box (site : Site) (cb : Checkbox) : Prop :=
  (exists heading, heading ∈ s_filter_headers site /\ cb ∈ heading.2)
  \/ (exists block, block ∈ s_filter_types site /\ cb ∈ block).

(** A row whose column [key] holds the canonical label of one of the
    checkboxes of the catalog. *)
Definition carries_filter_label (site : Site) (headers : list string)
    (key : string) (l : Line) : Prop :=
  forall vals i,
    l = Row vals -> headers !! i = Some key ->
    exists cb raw,
      site_box site cb /\ cb_text cb = Ok raw
      /\ vals !! i = Some (filter_name_of raw).

(** The header of the schema, or a row that holds, for every column of
    the schema, the value an extracted record has for it after the
    forced fields have been laid over it, or [N/A] where it has none. *)
Definition complete_line (urljoin : string -> string -> string)
    (extract : DetailPage -> string -> result (gmap string string))
    (site : Site) (headers : list string)
    (extra : option (gmap string string)) (l : Line) : Prop :=
  match l with
  | Header cols => cols = headers
  | Row vals =>
      length vals = length headers
      /\ exists row_data,
          extracted urljoin extract site row_data
          /\ forall i k, headers !! i = Some k ->
               vals !! i = Some (default "N/A" (overlay extra row_data !! k))
  end.

(** A row is an extracted record, with the forced fields laid over it,
    restricted to the schema and read column by column. *)
Definition projected_line (urljoin : string -> string -> string)
    (extract : DetailPage -> string -> result (gmap string string))
    (site : Site) (headers : list string)
    (extra : option (gmap string string)) (l : Line) : Prop :=
  forall vals,
    l = Row vals ->
    length vals = length headers
    /\ exists row_data,
        extracted urljoin extract site row_data
        /\ vals = columns_of headers (project headers (overlay extra row_data)).

(** * Concrete pages and sites *)

Definition no_heading : string -> option Heading := fun _ => None.
Definition no_label : string -> option Label := fun _ => None.

(** A detail page with a heading and a banner line naming ministry X. *)
Definition plain_page : DetailPage :=
  {| dp_new_page := Ok tt; dp_goto := Ok tt; dp_wait := Ok tt;
     dp_h1 := Some (Ok "Trade Licence");
     dp_banners := [Ok "Ministry of X"];
     dp_heading := no_heading; dp_label := no_label;
     dp_elements := [];
     dp_close := Ok tt |}.

(** The same page when navigation to it fails. *)
Definition unreachable_page : DetailPage :=
  {| dp_new_page := Ok tt; dp_goto := Err; dp_wait := Ok tt;
     dp_h1 := Some (Ok "Trade Licence");
     dp_banners := [Ok "Ministry of X"];
     dp_heading := no_heading; dp_label := no_label;
     dp_elements := [];
     dp_close := Ok tt |}.

(** A page whose only control is a link labelled "Login to Apply". *)
Definition login_link_page : DetailPage :=
  {| dp_new_page := Ok tt; dp_goto := Ok tt; dp_wait := Ok tt;
     dp_h1 := Some (Ok "Trade Licence");
     dp_banners := [];
     dp_heading := no_heading; dp_label := no_label;
     dp_elements := [ {| el_tag := "a"; el_text := "Login to Apply" |} ];
     dp_close := Ok tt |}.

(** A page with a button labelled "Apply Now". *)
Definition apply_button_page : DetailPage :=
  {| dp_new_page := Ok tt; dp_goto := Ok tt; dp_wait := Ok tt;
     dp_h1 := Some (Ok "Trade Licence");
     dp_banners := [];
     dp_heading := no_heading; dp_label := no_label;
     dp_elements := [ {| el_tag := "div"; el_text := "Apply Now" |};
                      {| el_tag := "button"; el_text := "Apply Now" |} ];
     dp_close := Ok tt |}.

(** A page whose heading holds one space, and whose fee label stands
    alone in its container, before a line break. *)
Definition blank_heading_page : DetailPage :=
  {| dp_new_page := Ok tt; dp_goto := Ok tt; dp_wait := Ok tt;
     dp_h1 := Some (Ok " ");
     dp_banners := [];
     dp_heading := no_heading;
     dp_label := fun pattern =>
       if String.eqb pattern "Fee"
       then Some {| lb_parent := Ok ("Fee" +:+ String "010" EmptyString);
                    lb_next_sibling := None |}
       else None;
     dp_elements := [];
     dp_close := Ok tt |}.

(** A page whose processing time is a time of day. *)
Definition clock_page : DetailPage :=
  {| dp_new_page := Ok tt; dp_goto := Ok tt; dp_wait := Ok tt;
     dp_h1 := Some (Ok "Trade Licence");
     dp_banners := [];
     dp_heading := no_heading;
     dp_label := fun pattern =>
       if String.eqb pattern "Time"
       then Some {| lb_parent := Ok "Time: 10:30 hrs"; lb_next_sibling := None |}
       else None;
     dp_elements := [];
     dp_close := Ok tt |}.

(** A page whose fee label has nothing but a colon beside it and the
    amount in the next sibling. *)
Definition sibling_fee_page : DetailPage :=
  {| dp_new_page := Ok tt; dp_goto := Ok tt; dp_wait := Ok tt;
     dp_h1 := Some (Ok "Trade Licence");
     dp_banners := [];
     dp_heading := no_heading;
     dp_label := fun pattern =>
       if String.eqb pattern "Payment"
       then Some {| lb_parent := Ok "Payment : "; lb_next_sibling := Some (Ok "Rs 500") |}
       else None;
     dp_elements := [];
     dp_close := Ok tt |}.

Definition card_to (href : string) : Card := {| card_href := Ok (Some href) |}.

Definition next_enabled : option NextLi :=
  Some {| li_class := Ok (Some "ant-pagination-next");
          li_button := Button (Ok tt) true |}.

Definition next_disabled : option NextLi :=
  Some {| li_class := Ok (Some "ant-pagination-next ant-pagination-disabled");
          li_button := Button (Ok tt) true |}.

Definition ministry_boxes : list Checkbox :=
  [ {| cb_id := 1; cb_text := Ok "Ministry of A (1)"; cb_scroll := Ok tt;
       cb_check := Err; cb_uncheck := Ok tt |};
    {| cb_id := 2; cb_text := Ok "Ministry of B (2)"; cb_scroll := Ok tt;
       cb_check := Ok tt; cb_uncheck := Ok tt |} ].

Definition department_boxes : list Checkbox :=
  [ {| cb_id := 3; cb_text := Ok "Department of X (3)"; cb_scroll := Ok tt;
       cb_check := Ok tt; cb_uncheck := Ok tt |};
    {| cb_id := 4; cb_text := Ok "Department of Y (4)"; cb_scroll := Ok tt;
       cb_check := Ok tt; cb_uncheck := Ok tt |} ].

(** A catalog with two filter blocks, found by their headings; the first
    ministry checkbox cannot be clicked.  Every listing is one page with
    one card. *)
Definition two_block_site : Site :=
  {| s_launch := Ok tt; s_goto := Ok tt; s_reload := Ok tt; s_close := Ok tt;
     s_filter_section := Ok tt;
     s_filter_headers := [ (Ok "Ministries", ministry_boxes);
                           (Ok "Departments", department_boxes) ];
     s_filter_types := [ ministry_boxes; department_boxes ];
     s_listing := fun _ =>
       [ {| rp_wait_cards := Ok tt; rp_cards := [card_to "/approval/1"];
            rp_next := None |} ];
     s_detail := fun _ => plain_page |}.

(** A catalog of two result pages: no card shows up on the first, whose
    "next" control is enabled; the second holds one card and its control
    is disabled. *)
Definition empty_first_page : list ResultsPage :=
  [ {| rp_wait_cards := Err; rp_cards := []; rp_next := next_enabled |};
    {| rp_wait_cards := Ok tt; rp_cards := [card_to "/approval/1"];
       rp_next := next_disabled |} ].

(** A catalog of two result pages with cards on both. *)
Definition two_full_pages : list ResultsPage :=
  [ {| rp_wait_cards := Ok tt; rp_cards := [card_to "/approval/1"; card_to "/approval/2"];
       rp_next := next_enabled |};
    {| rp_wait_cards := Ok tt; rp_cards := [card_to "/approval/3"];
       rp_next := next_disabled |} ].

Definition site_listing (pages : list ResultsPage) : Site :=
  {| s_launch := Ok tt; s_goto := Ok tt; s_reload := Ok tt; s_close := Ok tt;
     s_filter_section := Ok tt;
     s_filter_headers := [];
     s_filter_types := [];
     s_listing := fun _ => pages;
     s_detail := fun _ => plain_page |}.

(** [urljoin] on hrefs that are absolute paths of the portal's host. *)
Definition join_path (base href : string) : string :=
  "https://www.nsws.gov.in" +:+ href.

(** The record the first variant returns for the page with the button. *)
Definition apply_button_record : gmap string string :=
  match V1.extract_detail_page apply_button_page "https://www.nsws.gov.in/approval/1" with
  | Ok data => data
  | Err => ∅
  end.

(** A page whose heading cannot be read once navigation has succeeded. *)
Definition broken_heading_page : DetailPage :=
  {| dp_new_page := Ok tt; dp_goto := Ok tt; dp_wait := Ok tt;
     dp_h1 := Some Err;
     dp_banners := [Ok "Ministry of X"];
     dp_heading := no_heading; dp_label := no_label;
     dp_elements := [];
     dp_close := Ok tt |}.

(** * Vocabulary of the further properties *)

(** ** Text *)

(** A string of decimal digits. *)
Fixpoint all_digits (s : string) : bool :=
  match s with
  | EmptyString => true
  | String c r => Py.is_digit c && all_digits r
  end.

(** The character occurs in the string. *)
Fixpoint has_char (c : ascii) (s : string) : bool :=
  match s with
  | EmptyString => false
  | String c' r => Ascii.eqb c' c || has_char c r
  end.

(** ** The sink *)

(** The file at [filepath] is left as it is. *)
Definition untouched (filepath : string) (fs fs' : gmap string (list Line)) : Prop :=
  fs' !! filepath = fs !! filepath.

(** The file [filepath] with [rows] appended, after the header when the
    file is new; without rows nothing is written, and no file is made. *)
Definition write_rows (filepath : string) (headers : list string)
    (rows : list (list string)) (fs : gmap string (list Line))
  : gmap string (list Line) :=
  match rows with
  | [] => fs
  | _ => <[filepath := default [] (fs !! filepath)
                       ++ header_if_new fs filepath headers ++ map Row rows]> fs
  end.

Definition with_fs (fs : gmap string (list Line)) (w : World) : World :=
  {| w_fs := fs; w_checked := w_checked w; w_page := w_page w; w_visits := w_visits w |}.

(** ** The detail fetcher *)

(** "A record in which every field of the output schema is set to the
    literal [Error]." *)
Definition spec_error_record : gmap string string :=
  list_to_map ((fun k => (k, "Error")) <$> ALL_HEADERS).

(** The approval name of a page whose first [h1], if it has one, can be
    read. *)
Definition heading_text (dp : DetailPage) : string :=
  match dp_h1 dp with
  | Some (Ok text) => clean_text text
  | _ => "N/A"
  end.

(** The banner text of the first variant is [text]: the text of the one
    banner element, or the empty string when there is none. *)
Definition banner_reads (dp : DetailPage) (text : string) : Prop :=
  dp_banners dp = [] /\ text = "" \/ dp_banners dp = [Ok text].

(** The lines of the banner that hold [token], in order. *)
Definition naming (token : string) (lines : list string) : list string :=
  filter (fun l => Py.contains token l = true) lines.

(** The record of either variant once the body of the [try] block has
    run to its end, the banner having been read as [lines]. *)
Definition v1_fields (dp : DetailPage) (url : string) (lines : list string)
  : gmap string string :=
  <["Can be applied through NSWS" := nsws_applicability dp]>
  (<["Average Time taken to get this" := V1.get_labeled_value dp ["Time"; "Timeline"; "SLA"]]>
  (<["Validity" := V1.get_labeled_value dp ["Validity"; "Valid For"]]>
  (<["Application Fee" := V1.get_labeled_value dp ["Fee"; "Payment"; "Cost"]]>
  (<["Approval applicability/trigger" := V1.get_section_text dp ["Applicability"; "Trigger"]]>
  (<["Documents required" := V1.get_section_text dp ["Documents"; "Enclosures"; "Attachment"]]>
  (<["Who can apply" := V1.get_section_text dp ["Who can"; "Eligibility"]]>
  (<["About this approval" := V1.get_section_text dp ["About"; "Brief"; "Description"]]>
  (fold_left banner_line lines
  (<["Department Name" := "N/A"]>
  (<["Ministry Name" := "N/A"]>
  (<["Approval Name" := heading_text dp]>
  (<["Approval Link" := url]> ∅)))))))))))).

Definition v2_fields (dp : DetailPage) (url : string) (lines : list string)
  : gmap string string :=
  <["Can be applied through NSWS" := nsws_applicability dp]>
  (<["Average Time taken to get this" :=
       V2.get_labeled_value dp ["Time"; "Timeline"; "SLA"; "Duration"]]>
  (<["Validity" := V2.get_labeled_value dp ["Validity"; "Valid For"]]>
  (<["Application Fee" := V2.get_labeled_value dp ["Fee"; "Payment"; "Cost"; "Price"]]>
  (<["Approval applicability/trigger" :=
       V2.get_section_text dp ["Applicability"; "Trigger"; "Prerequisite"]]>
  (<["Documents required" :=
       V2.get_section_text dp ["Documents"; "Enclosures"; "Attachment"; "Checklist"]]>
  (<["Who can apply" := V2.get_section_text dp ["Who can"; "Eligibility"; "Beneficiary"]]>
  (<["About this approval" :=
       V2.get_section_text dp ["About"; "Brief"; "Description"; "Objective"]]>
  (fold_left banner_line lines
  (<["Department Name" := "N/A"]>
  (<["Ministry Name" := "N/A"]>
  (<["Approval Name" := heading_text dp]>
  (<["Approval Link" := url]> ∅)))))))))))).

(** A pattern the second variant gives up on: it is passed over, or the
    text left beside it is shorter than 2 characters and the sibling
    that should hold the value cannot be read. *)
Definition given_up (dp : DetailPage) (pattern : string) : Prop :=
  passed_over dp pattern
  \/ exists el full_text,
       dp_label dp pattern = Some el /\ lb_parent el = Ok full_text
       /\ String.length (clean_text (Py.replace ":" "" (Py.replace pattern "" full_text))) < 2
       /\ lb_next_sibling el = Some Err.

(** ** The pagination walker *)

(** The row a card adds to the sink, if it adds one: a card without a
    link, and a card whose record cannot be fetched, add none. *)
Definition card_row (urljoin : string -> string -> string)
    (extract : DetailPage -> string -> result (gmap string string))
    (site : Site) (headers : list string) (extra : option (gmap string string))
    (card : Card) : option (list string) :=
  match card_href card with
  | Ok (Some href) =>
      if Py.truthy href
      then match extract (s_detail site (urljoin BASE_URL href)) (urljoin BASE_URL href) with
           | Ok row_data => Some (columns_of headers (overlay extra row_data))
           | Err => None
           end
      else None
  | _ => None
  end.

Definition page_rows (urljoin : string -> string -> string)
    (extract : DetailPage -> string -> result (gmap string string))
    (site : Site) (headers : list string) (extra : option (gmap string string))
    (page : ResultsPage) : list (list string) :=
  omap (card_row urljoin extract site headers extra) (rp_cards page).

(** A listing the walker goes through to its end: every page but the
    last has an enabled "next" control whose click works (and, in the
    first variant, is answered), the last page has none or a disabled
    one; in the second variant the cards of every page show up. *)
Fixpoint walkable_v1 (pages : list ResultsPage) : bool :=
  match pages with
  | [] => false
  | p :: rest =>
      match rest with
      | [] => next_off p
      | _ => next_on p && click_answered p && walkable_v1 rest
      end
  end.

Fixpoint walkable_v2 (pages : list ResultsPage) : bool :=
  match pages with
  | [] => false
  | p :: rest =>
      cards_show p
      && match rest with
         | [] => next_off p
         | _ => next_on p && click_succeeds p && walkable_v2 rest
         end
  end.

(** The class attribute of the "next" item of the page, if the page has
    the item, can be read. *)
Definition class_readable (p : ResultsPage) : Prop :=
  match rp_next p with
  | Some next_li => li_class next_li <> Err
  | None => True
  end.

(** The world after a walk over [pages] that has left the sink files as
    [fs]. *)
Definition walked (fs : gmap string (list Line)) (pages : list ResultsPage) (w : World)
  : World :=
  {| w_fs := fs; w_checked := w_checked w;
     w_page := w_page w + (length pages - 1);
     w_visits := w_visits w + length pages |}.

(** ** The filter iterator *)

(** A checkbox every driver call on which succeeds. *)
Definition box_works (cb : Checkbox) : Prop :=
  (exists raw, cb_text cb = Ok raw)
  /\ cb_scroll cb = Ok tt /\ cb_check cb = Ok tt /\ cb_uncheck cb = Ok tt.

(** The canonical label of a checkbox. *)
Definition box_label (cb : Checkbox) : string :=
  match cb_text cb with
  | Ok raw => filter_name_of raw
  | Err => ""
  end.

(** The rows of the listing shown while [cb] alone is checked, with the
    label of [cb] forced into the column [key]. *)
Definition filter_rows (urljoin : string -> string -> string)
    (extract : DetailPage -> string -> result (gmap string string))
    (site : Site) (headers : list string) (key : string) (cb : Checkbox)
  : list (list string) :=
  concat (map (page_rows urljoin extract site headers (Some {[key := box_label cb]}))
            (s_listing site [cb_id cb])).

(** The option works and its listing can be walked within the loop
    budget. *)
Definition filter_ok (walkable : list ResultsPage -> bool) (site : Site) (fuel : nat)
    (cb : Checkbox) : Prop :=
  box_works cb
  /\ walkable (s_listing site [cb_id cb]) = true
  /\ length (s_listing site [cb_id cb]) <= fuel.

(** [section_name.lower() in txt.lower()] *)
Definition heading_matches (section_name txt : string) : bool :=
  Py.contains (Py.lower section_name) (Py.lower txt).

(** A filter heading that can be read and does not name the section. *)
Definition other_heading (section_name : string)
    (heading : result string * list Checkbox) : Prop :=
  exists txt, heading.1 = Ok txt /\ heading_matches section_name txt = false.

(** The block of checkboxes under the first filter heading that names
    the section, every heading before it being readable. *)
Definition block_of (section_name : string) (site : Site) (block : list Checkbox) : Prop :=
  exists before txt after,
    s_filter_headers site = before ++ (Ok txt, block) :: after
    /\ Forall (other_heading section_name) before
    /\ heading_matches section_name txt = true.

(** The sink files after the filters of [boxes] have been applied one
    after the other. *)
Definition phase_files (urljoin : string -> string -> string)
    (extract : DetailPage -> string -> result (gmap string string))
    (site : Site) (csv_path : string) (headers : list string) (key : string)
    (boxes : list Checkbox) (fs : gmap string (list Line)) : gmap string (list Line) :=
  fold_left
    (fun fs cb => write_rows csv_path headers
                    (filter_rows urljoin extract site headers key cb) fs)
    boxes fs.

(** ** More pages and sites *)

(** A page whose banner has three lines. *)
Definition banner_page : DetailPage :=
  {| dp_new_page := Ok tt; dp_goto := Ok tt; dp_wait := Ok tt;
     dp_h1 := Some (Ok "Trade Licence");
     dp_banners :=
       [Ok ("Ministry of X" +:+ String "010"
              ("Department of Y" +:+ String "010" "Ministry of Z"))];
     dp_heading := no_heading; dp_label := no_label;
     dp_elements := [];
     dp_close := Ok tt |}.

(** A page with two banner elements. *)
Definition two_banner_page : DetailPage :=
  {| dp_new_page := Ok tt; dp_goto := Ok tt; dp_wait := Ok tt;
     dp_h1 := Some (Ok "Trade Licence");
     dp_banners := [Ok "Ministry of X"; Ok "Department of Y"];
     dp_heading := no_heading; dp_label := no_label;
     dp_elements := [];
     dp_close := Ok tt |}.

(** A page with one heading, "Brief", that is followed by a block but
    has no sibling block and no readable block in its parent. *)
Definition brief_heading : Heading :=
  {| hd_following_div := Ok "A licence  to trade";
     hd_sibling := None;
     hd_parent_last_div := Err |}.

Definition sections_page : DetailPage :=
  {| dp_new_page := Ok tt; dp_goto := Ok tt; dp_wait := Ok tt;
     dp_h1 := Some (Ok "Trade Licence");
     dp_banners := [];
     dp_heading := fun keyword =>
       if String.eqb keyword "Brief" then Some brief_heading else None;
     dp_label := no_label;
     dp_elements := [];
     dp_close := Ok tt |}.

(** A page where "Fee" stands alone beside a sibling that cannot be
    read, and "Payment" stands beside the amount. *)
Definition lone_fee_label : Label :=
  {| lb_parent := Ok "Fee: "; lb_next_sibling := Some Err |}.

Definition unreadable_sibling_page : DetailPage :=
  {| dp_new_page := Ok tt; dp_goto := Ok tt; dp_wait := Ok tt;
     dp_h1 := Some (Ok "Trade Licence");
     dp_banners := [];
     dp_heading := no_heading;
     dp_label := fun pattern =>
       if String.eqb pattern "Fee" then Some lone_fee_label
       else if String.eqb pattern "Payment"
       then Some {| lb_parent := Ok "Payment: Rs 500"; lb_next_sibling := None |}
       else None;
     dp_elements := [];
     dp_close := Ok tt |}.

(** A page where "Fee:" is all its container holds, the amount standing
    in the next sibling. *)
Definition bare_fee_label : Label :=
  {| lb_parent := Ok "Fee:"; lb_next_sibling := Some (Ok "Rs 500") |}.

Definition bare_fee_page : DetailPage :=
  {| dp_new_page := Ok tt; dp_goto := Ok tt; dp_wait := Ok tt;
     dp_h1 := Some (Ok "Trade Licence");
     dp_banners := [];
     dp_heading := no_heading;
     dp_label := fun pattern =>
       if String.eqb pattern "Fee" then Some bare_fee_label else None;
     dp_elements := [];
     dp_close := Ok tt |}.

(** A page of results whose "next" item does not give its class. *)
Definition stuck_page : ResultsPage :=
  {| rp_wait_cards := Ok tt; rp_cards := [card_to "/approval/1"];
     rp_next := Some {| li_class := Err; li_button := NoButton |} |}.

Definition working_box (id : nat) (text : string) : Checkbox :=
  {| cb_id := id; cb_text := Ok text; cb_scroll := Ok tt;
     cb_check := Ok tt; cb_uncheck := Ok tt |}.

(** A catalog with one ministry and one department; every listing has
    the same two pages. *)
Definition healthy_site : Site :=
  {| s_launch := Ok tt; s_goto := Ok tt; s_reload := Ok tt; s_close := Ok tt;
     s_filter_section := Ok tt;
     s_filter_headers := [ (Ok "Ministries", [working_box 1 "Ministry of A (3)"]);
                           (Ok "Departments", [working_box 2 "Department of X (3)"]) ];
     s_filter_types := [ [working_box 1 "Ministry of A (3)"];
                         [working_box 2 "Department of X (3)"] ];
     s_listing := fun _ => two_full_pages;
     s_detail := fun _ => plain_page |}.

(** The same catalog when the filter sidebar never shows up. *)
Definition no_sidebar_site : Site :=
  {| s_launch := Ok tt; s_goto := Ok tt; s_reload := Ok tt; s_close := Ok tt;
     s_filter_section := Err;
     s_filter_headers := [];
     s_filter_types := [];
     s_listing := fun _ => two_full_pages;
     s_detail := fun _ => plain_page |}.

(** * Lemmas *)

(** ** Text normalization *)

Lemma has_gt_sub_tags inside s :
  Py.has_gt s = false -> Py.has_gt (Py.sub_tags_from inside s) = false.
Proof.
  revert inside. induction s as [|c r IH]; intros inside H; simpl in *; [done|].
  apply orb_false_iff in H as [Hc Hr].
  destruct inside; simpl.
  - rewrite Hc. simpl. auto.
  - destruct (Ascii.eqb c "<" && Py.opens_tag r); simpl; [auto|].
    rewrite Hc. simpl. auto.
Qed.

Lemma opens_tag_sub_tags r :
  Py.opens_tag r = false -> Py.opens_tag (Py.sub_tags_from false r) = false.
Proof.
  destruct r as [|c r]; simpl; [done|]. intros H.
  destruct (Ascii.eqb c ">") eqn:Hc; simpl in *.
  - assert (Ascii.eqb c "<" = false) as ->.
    { apply Ascii.eqb_eq in Hc. by subst c. }
    simpl. by rewrite Hc.
  - assert (Hopen : Py.opens_tag r = false).
    { destruct r as [|c' r']; simpl in *; [done|].
      apply orb_false_iff in H as [_ H]. rewrite H. apply andb_false_r. }
    rewrite Hopen, andb_false_r. simpl. rewrite Hc. simpl.
    by apply has_gt_sub_tags.
Qed.

Lemma no_tag_sub_tags inside s : no_tag (Py.sub_tags_from inside s) = true.
Proof.
  revert inside. induction s as [|c r IH]; intros inside; simpl; [done|].
  destruct inside; [apply IH|].
  destruct (Ascii.eqb c "<" && Py.opens_tag r) eqn:Hm; [apply IH|].
  simpl. rewrite IH, andb_true_r. apply negb_true_iff.
  apply andb_false_iff in Hm as [Hc|Ho].
  - by rewrite Hc.
  - by rewrite opens_tag_sub_tags, andb_false_r.
Qed.

Lemma no_tag_fixed t : no_tag t = true -> Py.sub_tags_from false t = t.
Proof.
  induction t as [|c r IH]; simpl; [done|].
  intros [Hc Hr]%andb_true_iff. apply negb_true_iff in Hc.
  rewrite Hc. by rewrite IH.
Qed.

Lemma has_gt_sub_spaces in_run s :
  Py.has_gt s = false -> Py.has_gt (Py.sub_spaces_from in_run s) = false.
Proof.
  revert in_run. induction s as [|c r IH]; intros in_run H; simpl in *; [done|].
  apply orb_false_iff in H as [Hc Hr].
  destruct (Py.is_space c), in_run; simpl; rewrite ?Hc; simpl; auto.
Qed.

Lemma opens_tag_sub_spaces r :
  Py.opens_tag r = false -> Py.opens_tag (Py.sub_spaces_from false r) = false.
Proof.
  destruct r as [|c r]; simpl; [done|]. intros H.
  destruct (Ascii.eqb c ">") eqn:Hc; simpl in *.
  - assert (Py.is_space c = false) as ->.
    { apply Ascii.eqb_eq in Hc. by subst c. }
    simpl. by rewrite Hc.
  - destruct (Py.is_space c); simpl; rewrite ?Hc; simpl; by apply has_gt_sub_spaces.
Qed.

Lemma no_tag_sub_spaces in_run t :
  no_tag t = true -> no_tag (Py.sub_spaces_from in_run t) = true.
Proof.
  revert in_run. induction t as [|c r IH]; intros in_run; simpl; [done|].
  intros [Hc Hr]%andb_true_iff.
  destruct (Py.is_space c) eqn:Hs.
  - destruct in_run; simpl; auto.
  - simpl. rewrite IH by done. rewrite andb_true_r.
    apply negb_true_iff. apply negb_true_iff in Hc.
    apply andb_false_iff in Hc as [Hc|Ho]; [by rewrite Hc|].
    by rewrite opens_tag_sub_spaces, andb_false_r.
Qed.

Lemma no_tag_lstrip t : no_tag t = true -> no_tag (Py.lstrip t) = true.
Proof.
  induction t as [|c r IH]; simpl; [done|].
  intros H. destruct (Py.is_space c); [|done].
  apply andb_true_iff in H as [_ H]. auto.
Qed.

Lemma has_gt_rstrip t : Py.has_gt t = false -> Py.has_gt (Py.rstrip t) = false.
Proof.
  induction t as [|c r IH]; simpl; [done|].
  intros [Hc Hr]%orb_false_iff. specialize (IH Hr).
  destruct (Py.rstrip r) as [|c' r'].
  - destruct (Py.is_space c); simpl; [done|]. by rewrite Hc.
  - simpl in *. by rewrite Hc.
Qed.

Lemma opens_tag_rstrip r :
  Py.opens_tag r = false -> Py.opens_tag (Py.rstrip r) = false.
Proof.
  destruct r as [|c r]; simpl; [done|]. intros H.
  destruct (Py.rstrip r) as [|c' r'] eqn:Hr.
  - destruct (Py.is_space c); simpl; [done|]. apply andb_false_r.
  - simpl. apply andb_false_iff in H as [H|H]; [by rewrite H|].
    apply has_gt_rstrip in H. rewrite Hr in H. simpl in H. rewrite H.
    apply andb_false_r.
Qed.

Lemma no_tag_rstrip t : no_tag t = true -> no_tag (Py.rstrip t) = true.
Proof.
  induction t as [|c r IH]; simpl; [done|].
  intros [Hc Hr]%andb_true_iff. specialize (IH Hr).
  apply negb_true_iff in Hc.
  assert (Hopen : Ascii.eqb c "<" && Py.opens_tag (Py.rstrip r) = false).
  { apply andb_false_iff in Hc as [Hc|Ho]; [by rewrite Hc|].
    by rewrite opens_tag_rstrip, andb_false_r. }
  destruct (Py.rstrip r) as [|c' r'] eqn:Er.
  - destruct (Py.is_space c); simpl; [done|].
    by rewrite andb_false_r.
  - cbn [no_tag] in *. by rewrite Hopen, IH.
Qed.

Lemma single_spaced_sub_spaces in_run s :
  single_spaced in_run (Py.sub_spaces_from in_run s) = true.
Proof.
  revert in_run. induction s as [|c r IH]; intros in_run; simpl; [done|].
  destruct (Py.is_space c) eqn:Hs.
  - destruct in_run; [apply IH|]. simpl. apply IH.
  - simpl. rewrite Hs. apply IH.
Qed.

Lemma single_spaced_fixed after_space t :
  single_spaced after_space t = true -> Py.sub_spaces_from after_space t = t.
Proof.
  revert after_space. induction t as [|c r IH]; intros after_space; simpl; [done|].
  destruct (Py.is_space c).
  - intros [[Hc Hp]%andb_true_iff Hr]%andb_true_iff.
    apply Ascii.eqb_eq in Hc. subst c.
    destruct after_space; [done|]. by rewrite IH.
  - intros Hr. by rewrite IH.
Qed.

Lemma single_spaced_weaken t :
  single_spaced true t = true -> single_spaced false t = true.
Proof.
  destruct t as [|c r]; simpl; [done|].
  destruct (Py.is_space c); [|done]. by rewrite andb_false_r.
Qed.

Lemma single_spaced_lstrip t :
  single_spaced false t = true -> single_spaced false (Py.lstrip t) = true.
Proof.
  induction t as [|c r IH]; [done|]. intros H. simpl in *.
  destruct (Py.is_space c) eqn:Hs.
  - apply andb_true_iff in H as [_ H]. by apply IH, single_spaced_weaken.
  - simpl. by rewrite Hs.
Qed.

Lemma single_spaced_rstrip after_space t :
  single_spaced after_space t = true ->
  single_spaced after_space (Py.rstrip t) = true.
Proof.
  revert after_space. induction t as [|c r IH]; intros after_space; [done|].
  simpl. destruct (Py.is_space c) eqn:Hs.
  - intros [Hc Hr]%andb_true_iff. specialize (IH _ Hr).
    destruct (Py.rstrip r) as [|c' r']; [done|].
    cbn [single_spaced] in *. rewrite Hs. by rewrite Hc, IH.
  - intros Hr. specialize (IH _ Hr).
    destruct (Py.rstrip r) as [|c' r']; cbn [single_spaced] in *; by rewrite Hs.
Qed.

Lemma starts_clean_lstrip s : starts_clean (Py.lstrip s) = true.
Proof.
  induction s as [|c r IH]; simpl; [done|].
  destruct (Py.is_space c) eqn:Hs; [done|]. simpl. by rewrite Hs.
Qed.

Lemma starts_clean_fixed t : starts_clean t = true -> Py.lstrip t = t.
Proof.
  destruct t as [|c r]; simpl; [done|].
  intros H. apply negb_true_iff in H. by rewrite H.
Qed.

Lemma starts_clean_rstrip t :
  starts_clean t = true -> starts_clean (Py.rstrip t) = true.
Proof.
  destruct t as [|c r]; simpl; [done|]. intros H.
  apply negb_true_iff in H. rewrite H.
  destruct (Py.rstrip r); simpl; by rewrite H.
Qed.

Lemma rstrip_idempotent t : Py.rstrip (Py.rstrip t) = Py.rstrip t.
Proof.
  induction t as [|c r IH]; simpl; [done|].
  destruct (Py.rstrip r) as [|c' r'] eqn:Hr.
  - destruct (Py.is_space c) eqn:Hs; simpl; [done|]. by rewrite Hs.
  - cbn [Py.rstrip]. cbn [Py.rstrip] in IH. rewrite IH. done.
Qed.

Lemma strip_idempotent s : Py.strip (Py.strip s) = Py.strip s.
Proof.
  unfold Py.strip.
  rewrite (starts_clean_fixed (Py.rstrip (Py.lstrip s))).
  - apply rstrip_idempotent.
  - apply starts_clean_rstrip, starts_clean_lstrip.
Qed.

(** What [clean_text] returns: the sentinel, the empty string, or a
    normalized text.  The empty string is returned for a text that is
    not empty but holds whitespace and tags only. *)
Lemma clean_text_shape text :
  clean_text text = "N/A" \/ clean_text text = "" \/ normalized (clean_text text).
Proof.
  unfold clean_text. destruct text as [|c r]; [by left|]. cbn [Py.truthy negb].
  set (t := Py.strip (Py.sub_spaces (Py.sub_tags (String c r)))).
  destruct t as [|c' r'] eqn:Ht; [right; by left|].
  right; right. rewrite <- Ht. split; [by rewrite Ht|]. subst t. split; [|split].
  - apply no_tag_fixed. unfold Py.strip.
    apply no_tag_rstrip, no_tag_lstrip, no_tag_sub_spaces, no_tag_sub_tags.
  - apply single_spaced_fixed. unfold Py.strip.
    apply single_spaced_rstrip, single_spaced_lstrip, single_spaced_sub_spaces.
  - apply strip_idempotent.
Qed.

(** On a result that is not empty, normalizing again changes nothing. *)
Lemma clean_text_idempotent text :
  clean_text text <> "" -> clean_text (clean_text text) = clean_text text.
Proof.
  intros Hne.
  destruct (clean_text_shape text) as [H|[H|(Hn & Htags & Hspaces & Hstrip)]].
  - rewrite H. reflexivity.
  - done.
  - unfold clean_text at 1.
    destruct (clean_text text) as [|c r]; [done|]. cbn [Py.truthy negb].
    by rewrite Htags, Hspaces, Hstrip.
Qed.

(** ** The sink *)

Section Sink.
Implicit Types (fs : gmap string (list Line)) (row_data : gmap string string).
Implicit Types (headers : list string).

Lemma safe_row_lookup headers row_data k :
  safe_row headers row_data !! k =
    if bool_decide (k ∈ headers) then Some (default "N/A" (row_data !! k)) else None.
Proof.
  unfold safe_row. induction headers as [|h hs IH].
  - done.
  - cbn [map list_to_map foldr]. destruct (decide (h = k)) as [->|Hne].
    + rewrite lookup_insert_eq. rewrite bool_decide_eq_true_2; [done|].
      apply list_elem_of_here.
    + rewrite lookup_insert_ne by done. rewrite IH.
      case_bool_decide as Hk.
      * rewrite bool_decide_eq_true_2; [done|]. by apply list_elem_of_further.
      * rewrite bool_decide_eq_false_2; [done|].
        intros [?|?]%elem_of_cons; [congruence | done].
Qed.

Lemma safe_row_keys headers row_data :
  forallb (fun k => bool_decide (k ∈ headers))
    (map fst (map_to_list (safe_row headers row_data))) = true.
Proof.
  apply forallb_forall. intros k Hin.
  apply in_map_iff in Hin as [[k' v] [Hk Hkv]]. simpl in Hk. subst k'.
  apply list_elem_of_In, elem_of_map_to_list in Hkv.
  rewrite safe_row_lookup in Hkv.
  case_bool_decide; done.
Qed.

Lemma dict_to_list_safe_row headers row_data :
  dict_to_list headers (safe_row headers row_data) = Ok (columns_of headers row_data).
Proof.
  unfold dict_to_list. rewrite safe_row_keys. f_equal.
  unfold columns_of. apply map_ext_in. intros k Hk.
  rewrite safe_row_lookup, bool_decide_eq_true_2; [done|].
  by apply list_elem_of_In.
Qed.

Lemma write_to_csv_safe_row filepath headers row_data fs :
  write_to_csv filepath headers (safe_row headers row_data) fs =
    (<[filepath := default [] (fs !! filepath)
                   ++ header_if_new fs filepath headers
                   ++ [Row (columns_of headers row_data)]]> fs,
     Returns tt).
Proof.
  unfold write_to_csv, header_if_new, append_line, bind, modify, get, ret, call. 
  rewrite dict_to_list_safe_row.
  case_bool_decide as Hex; cbn [negb].
  - rewrite !lookup_insert_eq. cbn [default]. rewrite insert_insert_eq. done.
  - rewrite !lookup_insert_eq. cbn [default]. rewrite !insert_insert_eq.
    unfold id. by rewrite <- app_assoc.
Qed.
End Sink.

Section Extends.
Implicit Types (fs : gmap string (list Line)).

Lemma count_headers_app (a b : list Line) :
  count_headers (a ++ b) = count_headers a + count_headers b.
Proof. unfold count_headers. by rewrite filter_app, length_app. Qed.

(** Every call extends the file it names and touches no other. *)
Lemma write_to_csv_effect filepath headers row_data fs :
  fst (write_to_csv filepath headers row_data fs) =
    <[filepath := default [] (fs !! filepath)
                  ++ header_if_new fs filepath headers
                  ++ match dict_to_list headers row_data with
                     | Ok vals => [Row vals]
                     | Err => []
                     end]> fs.
Proof.
  unfold write_to_csv, header_if_new, append_line, bind, modify, get, ret, call.
  destruct (dict_to_list headers row_data) as [vals|];
    case_bool_decide as Hex; cbn [negb fst];
    rewrite ?lookup_insert_eq; cbn [default]; unfold id;
    rewrite ?insert_insert_eq, ?app_nil_r; try done.
  by rewrite <- app_assoc.
Qed.

Lemma extends_refl fs : extends fs fs.
Proof.
  intros p. exists []. rewrite app_nil_r. split; [done|]. split; [done|].
  unfold count_headers. simpl. lia.
Qed.

Lemma extends_trans fs1 fs2 fs3 :
  extends fs1 fs2 -> extends fs2 fs3 -> extends fs1 fs3.
Proof.
  intros H12 H23 p.
  destruct (H12 p) as (a1 & E1 & S1 & C1), (H23 p) as (a2 & E2 & S2 & C2).
  exists (a1 ++ a2). split; [by rewrite E2, E1, app_assoc|].
  split; [tauto|].
  rewrite count_headers_app.
  destruct (fs1 !! p) as [old|] eqn:Hold.
  - assert (Hs : is_Some (fs2 !! p)) by (apply S1; eauto).
    rewrite bool_decide_eq_true_2 in C1 by eauto.
    rewrite bool_decide_eq_true_2 in C2 by done.
    rewrite bool_decide_eq_true_2 by eauto. lia.
  - rewrite bool_decide_eq_false_2 in C1 by (intros [? ?]; done).
    rewrite bool_decide_eq_false_2 by (intros [? ?]; done).
    destruct (fs2 !! p) as [mid|] eqn:Hmid.
    + rewrite bool_decide_eq_true_2 in C2 by eauto. lia.
    + simpl in E1. destruct a1; [|done].
      unfold count_headers at 1. simpl.
      rewrite bool_decide_eq_false_2 in C2 by (intros [? ?]; done). lia.
Qed.

Lemma write_to_csv_extends filepath headers row_data fs :
  extends fs (fst (write_to_csv filepath headers row_data fs)).
Proof.
  rewrite write_to_csv_effect. intros p.
  destruct (decide (filepath = p)) as [<-|Hne].
  - rewrite lookup_insert_eq. cbn [default]. unfold id.
    eexists. split; [reflexivity|]. split; [eauto|].
    rewrite count_headers_app. unfold header_if_new.
    case_bool_decide.
    + destruct (dict_to_list headers row_data); unfold count_headers; simpl; lia.
    + destruct (dict_to_list headers row_data); unfold count_headers; simpl; lia.
  - rewrite lookup_insert_ne by done. exists [].
    rewrite app_nil_r. split; [done|]. split; [done|].
    unfold count_headers. simpl. lia.
Qed.
End Extends.

(** ** What the engine does to the sink files

    The engine touches the files through [write_to_csv] only, so a
    reflexive and transitive relation that holds across every such call
    holds across every engine function, whatever the outcome. *)

Section Preserves.
Context (R : relation (gmap string (list Line))) `{!PreOrder R}.

Lemma preserves_ret {A} (a : A) : preserves R (ret a).
Proof. intros w. reflexivity. Qed.

Lemma preserves_call {A} (r : result A) : preserves R (call r).
Proof. intros w. reflexivity. Qed.

Lemma preserves_get : preserves R get.
Proof. intros w. reflexivity. Qed.

Lemma preserves_raise {A} : preserves R (@raise World A).
Proof. intros w. reflexivity. Qed.

Lemma preserves_diverge {A} : preserves R (@diverge World A).
Proof. intros w. reflexivity. Qed.

Lemma preserves_modify (f : World -> World) :
  (forall w, w_fs (f w) = w_fs w) -> preserves R (modify f).
Proof. intros Hf w. simpl. rewrite Hf. reflexivity. Qed.

Lemma preserves_bind {A B} (m : Try World A) (k : A -> Try World B) :
  preserves R m -> (forall a, preserves R (k a)) -> preserves R (bind m k).
Proof.
  intros Hm Hk w. unfold bind. specialize (Hm w).
  destruct (m w) as [w' [a| |]]; simpl in *; try done.
  etrans; [exact Hm | apply Hk].
Qed.

Lemma preserves_try_except {A} (body handler : Try World A) :
  preserves R body -> preserves R handler -> preserves R (try_except body handler).
Proof.
  intros Hb Hh w. unfold try_except. specialize (Hb w).
  destruct (body w) as [w' [a| |]]; simpl in *; try done.
  etrans; [exact Hb | apply Hh].
Qed.

Lemma preserves_for_each {A} (body : A -> Try World unit) (xs : list A) :
  (forall x, preserves R (body x)) -> preserves R (for_each body xs).
Proof.
  intros Hb. induction xs as [|x xs IH]; simpl.
  - apply preserves_ret.
  - apply preserves_bind; [apply Hb | intros _; exact IH].
Qed.

Lemma preserves_on_fs {A} (m : Try (gmap string (list Line)) A) :
  (forall fs, R fs (fst (m fs))) -> preserves R (on_fs m).
Proof.
  intros Hm w. unfold on_fs. specialize (Hm (w_fs w)).
  by destruct (m (w_fs w)) as [fs o].
Qed.

Lemma preserves_click_checkbox cb : preserves R (click_checkbox cb).
Proof.
  unfold click_checkbox.
  apply preserves_bind; [apply preserves_get | intros w].
  apply preserves_bind; [case_bool_decide; apply preserves_call | intros _].
  by apply preserves_modify.
Qed.

Lemma preserves_reload site : preserves R (reload site).
Proof.
  unfold reload. apply preserves_bind; [apply preserves_call | intros _].
  by apply preserves_modify.
Qed.

Lemma preserves_bind_call {A B} (r : result A) (k : A -> Try World B) :
  (forall a, r = Ok a -> preserves R (k a)) -> preserves R (bind (call r) k).
Proof.
  intros Hk w. unfold bind, call. destruct r as [a|]; [|reflexivity].
  by apply Hk.
Qed.

(** The card loop writes one projected record at most, an extracted
    one. *)
Lemma preserves_process_card urljoin extract site csv_path headers extra card :
  (forall row_data fs,
      extracted urljoin extract site row_data ->
      R fs (fst (write_to_csv csv_path headers
                   (safe_row headers (overlay extra row_data)) fs))) ->
  preserves R (process_card urljoin extract site csv_path headers extra card).
Proof.
  intros Hw. unfold process_card.
  apply preserves_try_except; [|apply preserves_ret].
  apply preserves_bind; [apply preserves_call | intros [href|]].
  - destruct (Py.truthy href); [|apply preserves_ret].
    apply preserves_bind_call. intros row_data Hrow.
    apply preserves_on_fs. intros fs. apply Hw. by exists href.
  - apply preserves_ret.
Qed.
End Preserves.

Ltac preserves_step :=
  lazymatch goal with
  | |- preserves _ (bind _ _) => apply preserves_bind; try exact _; [|intros ?]
  | |- preserves _ (try_except _ _) => apply preserves_try_except; try exact _
  | |- preserves _ (for_each _ _) => apply preserves_for_each; try exact _; intros ?
  | |- preserves _ (modify _) => apply preserves_modify; try exact _; done
  | |- preserves _ (match ?x with _ => _ end) => destruct x
  | |- preserves _ _ =>
      first [ assumption
            | apply preserves_ret | apply preserves_call | apply preserves_get
            | apply preserves_raise | apply preserves_diverge
            | apply preserves_click_checkbox | apply preserves_reload ];
      try exact _
  end.

Section PreservesEngine.
Context (R : relation (gmap string (list Line))) `{!PreOrder R}.
Variable urljoin : string -> string -> string.
Variable site : Site.

Lemma preserves_walker_v1 fuel csv_path headers extra :
  (forall row_data fs,
      extracted urljoin V1.extract_detail_page site row_data ->
      R fs (fst (write_to_csv csv_path headers
                   (safe_row headers (overlay extra row_data)) fs))) ->
  preserves R (V1.handle_pagination_and_extraction urljoin site fuel csv_path headers extra).
Proof.
  intros Hw. induction fuel as [|fuel IH]; simpl.
  - preserves_step.
  - repeat preserves_step.
    all: apply preserves_process_card; done.
Qed.

Lemma preserves_walker_v2 fuel csv_path headers extra :
  (forall row_data fs,
      extracted urljoin V2.extract_detail_page site row_data ->
      R fs (fst (write_to_csv csv_path headers
                   (safe_row headers (overlay extra row_data)) fs))) ->
  preserves R (V2.handle_pagination_and_extraction urljoin site fuel csv_path headers extra).
Proof.
  intros Hw. induction fuel as [|fuel IH]; simpl.
  - preserves_step.
  - repeat preserves_step.
    all: apply preserves_process_card; done.
Qed.

(** Across a phase the filter label varies, across a run the file and
    the schema vary too. *)
Lemma preserves_filter_v1 fuel section_name csv_path headers key :
  writes_ok R urljoin V1.extract_detail_page site csv_path headers ->
  preserves R (V1.click_filter_and_process urljoin site fuel section_name
                 csv_path headers key).
Proof.
  intros Hw. unfold V1.click_filter_and_process.
  assert (Hloop : forall range checkboxes,
             preserves R (V1.filter_loop urljoin site fuel section_name csv_path
                            headers key checkboxes range)).
  { induction range as [|i range IH]; intros checkboxes; simpl.
    - preserves_step.
    - unfold V1.filter_turn. repeat preserves_step.
      + apply preserves_walker_v1. intros. by apply Hw.
      + apply IH. }
  preserves_step; [preserves_step|].
  preserves_step; [|apply Hloop].
  induction (s_filter_headers site) as [|[txt block] hs IH]; simpl;
    repeat preserves_step.
Qed.

Lemma preserves_filter_v2 fuel section_name csv_path headers key :
  writes_ok R urljoin V2.extract_detail_page site csv_path headers ->
  preserves R (V2.click_filter_and_process urljoin site fuel section_name
                 csv_path headers key).
Proof.
  intros Hw. unfold V2.click_filter_and_process.
  assert (Hloop : forall range target checkboxes,
             preserves R (V2.filter_loop urljoin site fuel csv_path
                            headers key target checkboxes range)).
  { induction range as [|i range IH]; intros target checkboxes; simpl.
    - preserves_step.
    - unfold V2.filter_turn. repeat preserves_step.
      + apply preserves_walker_v2. intros. by apply Hw.
      + apply IH. }
  preserves_step; [preserves_step|].
  preserves_step; [|apply Hloop].
  induction (s_filter_headers site) as [|[txt block] hs IH]; simpl;
    repeat preserves_step.
Qed.

Lemma preserves_main_v1 fuel :
  (forall filepath headers,
      schema_v1 filepath = Some headers ->
      writes_ok R urljoin V1.extract_detail_page site filepath headers) ->
  preserves R (V1.main urljoin site fuel).
Proof.
  intros Hw. unfold V1.main. repeat preserves_step.
  all: first [ apply preserves_filter_v1; try exact _; by apply Hw
             | apply preserves_walker_v1; try exact _; intros;
               unfold writes_ok in Hw; eapply Hw; [reflexivity | eassumption] ].
Qed.

Lemma preserves_main_v2 fuel :
  (forall filepath headers,
      schema_v2 filepath = Some headers ->
      writes_ok R urljoin V2.extract_detail_page site filepath headers) ->
  preserves R (V2.main urljoin site fuel).
Proof.
  intros Hw. unfold V2.main. repeat preserves_step.
  all: first [ apply preserves_filter_v2; try exact _; by apply Hw
             | apply preserves_walker_v2; try exact _; intros;
               unfold writes_ok in Hw; eapply Hw; [reflexivity | eassumption] ].
Qed.
End PreservesEngine.

#[export] Instance extends_preorder : PreOrder extends.
Proof. split; [exact extends_refl | exact extends_trans]. Qed.

(** ** The rows the walker appends *)

Section Appends.
Implicit Types (fs : gmap string (list Line)).

#[export] Instance appends_preorder filepath P : PreOrder (appends filepath P).
Proof.
  split.
  - intros fs. split; [done|]. exists []. by rewrite app_nil_r.
  - intros fs1 fs2 fs3 [O12 (a1 & E1 & F1)] [O23 (a2 & E2 & F2)]. split.
    + intros other Hne. by rewrite O23, O12.
    + exists (a1 ++ a2). split; [by rewrite E2, E1, app_assoc|].
      by apply Forall_app.
Qed.

Lemma appends_weaken filepath (P Q : Line -> Prop) fs fs' :
  (forall l, P l -> Q l) -> appends filepath P fs fs' -> appends filepath Q fs fs'.
Proof.
  intros HPQ [Ho (added & E & F)]. split; [done|].
  exists added. split; [done|]. eapply Forall_impl; eauto.
Qed.

Lemma write_safe_row_appends urljoin extract site filepath headers extra row_data fs :
  extracted urljoin extract site row_data ->
  appends filepath (walker_line urljoin extract site headers extra) fs
    (fst (write_to_csv filepath headers
            (safe_row headers (overlay extra row_data)) fs)).
Proof.
  intros Hrow. rewrite write_to_csv_safe_row. cbn [fst]. split.
  - intros other Hne. by rewrite lookup_insert_ne.
  - rewrite lookup_insert_eq. cbn [default]. unfold id.
    eexists. split; [reflexivity|].
    apply Forall_app. split.
    + unfold header_if_new. case_bool_decide; [constructor|].
      by repeat constructor.
    + repeat constructor. simpl. eauto.
Qed.

Lemma walker_appends_v1 urljoin site fuel csv_path headers extra w :
  appends csv_path (walker_line urljoin V1.extract_detail_page site headers extra)
    (w_fs w)
    (w_fs (fst (V1.handle_pagination_and_extraction urljoin site fuel
                  csv_path headers extra w))).
Proof.
  apply (preserves_walker_v1 (appends csv_path _)).
  intros. by apply write_safe_row_appends.
Qed.

Lemma walker_appends_v2 urljoin site fuel csv_path headers extra w :
  appends csv_path (walker_line urljoin V2.extract_detail_page site headers extra)
    (w_fs w)
    (w_fs (fst (V2.handle_pagination_and_extraction urljoin site fuel
                  csv_path headers extra w))).
Proof.
  apply (preserves_walker_v2 (appends csv_path _)).
  intros. by apply write_safe_row_appends.
Qed.

#[export] Instance run_appends_preorder schema P : PreOrder (run_appends schema P).
Proof.
  split.
  - intros fs filepath. exists []. rewrite app_nil_r. split; [done|].
    by destruct (schema filepath).
  - intros fs1 fs2 fs3 H12 H23 filepath.
    destruct (H12 filepath) as (a1 & E1 & F1), (H23 filepath) as (a2 & E2 & F2).
    exists (a1 ++ a2). split; [by rewrite E2, E1, app_assoc|].
    destruct (schema filepath); [by apply Forall_app | by subst].
Qed.

Lemma appends_run_appends schema (P : list string -> Line -> Prop)
    csv_path headers (Q : Line -> Prop) fs fs' :
  schema csv_path = Some headers ->
  (forall l, Q l -> P headers l) ->
  appends csv_path Q fs fs' -> run_appends schema P fs fs'.
Proof.
  intros Hs HQ [Ho (added & E & F)] filepath.
  destruct (decide (filepath = csv_path)) as [->|Hne].
  - exists added. split; [done|]. rewrite Hs. eapply Forall_impl; eauto.
  - exists []. rewrite app_nil_r, Ho by done. split; [done|].
    by destruct (schema filepath).
Qed.

(** A whole run appends walker lines only, each to the sink of its
    phase. *)
Lemma main_appends_v1 urljoin site fuel w :
  run_appends schema_v1
    (fun headers l =>
       exists extra, walker_line urljoin V1.extract_detail_page site headers extra l)
    (w_fs w) (w_fs (fst (V1.main urljoin site fuel w))).
Proof.
  apply preserves_main_v1; [exact _|].
  intros filepath headers Hs extra row_data fs Hrow.
  eapply appends_run_appends; [exact Hs| |by apply write_safe_row_appends].
  intros l Hl. by exists extra.
Qed.

Lemma main_appends_v2 urljoin site fuel w :
  run_appends schema_v2
    (fun headers l =>
       exists extra, walker_line urljoin V2.extract_detail_page site headers extra l)
    (w_fs w) (w_fs (fst (V2.main urljoin site fuel w))).
Proof.
  apply preserves_main_v2; [exact _|].
  intros filepath headers Hs extra row_data fs Hrow.
  eapply appends_run_appends; [exact Hs| |by apply write_safe_row_appends].
  intros l Hl. by exists extra.
Qed.

Lemma run_appends_weaken schema (P Q : list string -> Line -> Prop) fs fs' :
  (forall headers l, P headers l -> Q headers l) ->
  run_appends schema P fs fs' -> run_appends schema Q fs fs'.
Proof.
  intros HPQ H filepath. destruct (H filepath) as (added & E & F).
  exists added. split; [done|].
  destruct (schema filepath); [|done]. eapply Forall_impl; eauto.
Qed.
End Appends.

(** ** Columns of a written row *)

Lemma lookup_map {A B} (f : A -> B) (l : list A) (i : nat) :
  map f l !! i = f <$> (l !! i).
Proof. revert i. induction l as [|x l IH]; intros [|i]; simpl; auto. Qed.

Lemma columns_of_lookup headers row_data i k :
  headers !! i = Some k ->
  columns_of headers row_data !! i = Some (default "N/A" (row_data !! k)).
Proof. intros Hk. unfold columns_of. by rewrite lookup_map, Hk. Qed.

Lemma columns_of_length headers row_data :
  length (columns_of headers row_data) = length headers.
Proof. unfold columns_of. apply length_map. Qed.

Lemma columns_of_project headers row_data :
  columns_of headers (project headers row_data) = columns_of headers row_data.
Proof.
  unfold columns_of, project. apply map_ext_in. intros k Hk.
  apply list_elem_of_In in Hk. f_equal.
  destruct (row_data !! k) as [v|] eqn:Hv.
  - by apply map_lookup_filter_Some.
  - apply map_lookup_filter_None. left. done.
Qed.

Lemma overlay_forced (m row_data : gmap string string) key forced :
  m !! key = Some forced -> overlay (Some m) row_data !! key = Some forced.
Proof.
  intros Hm. unfold overlay. case_bool_decide as He.
  - subst m. by rewrite lookup_empty in Hm.
  - by apply lookup_union_Some_l.
Qed.


(** ** The detail fetcher *)

Lemma fill_from_lookup (keys : list string) (data : gmap string string) k :
  fold_left
    (fun d k => match d !! k with Some _ => d | None => <[k := "Error"]> d end)
    keys data !! k
  = match data !! k with
    | Some v => Some v
    | None => if bool_decide (k ∈ keys) then Some "Error" else None
    end.
Proof.
  revert data. induction keys as [|h keys IH]; intros data; simpl.
  - by destruct (data !! k).
  - rewrite IH. destruct (decide (h = k)) as [->|Hne].
    + destruct (data !! k) as [v|] eqn:Hv.
      * by rewrite Hv.
      * rewrite lookup_insert_eq. rewrite bool_decide_eq_true_2; [done|].
        apply list_elem_of_here.
    + assert (Hk : (match data !! h with
                    | Some _ => data
                    | None => <[h := "Error"]> data
                    end) !! k = data !! k).
      { destruct (data !! h); [done|]. by rewrite lookup_insert_ne. }
      rewrite Hk. destruct (data !! k); [done|].
      destruct (decide (k ∈ keys)) as [Hin|Hnin].
      * rewrite !bool_decide_eq_true_2; [done| |done]. by apply list_elem_of_further.
      * rewrite !bool_decide_eq_false_2; [done| |done].
        intros [?|?]%elem_of_cons; [congruence|done].
Qed.

Lemma fill_error_lookup (data : gmap string string) k :
  fill_error data !! k
  = match data !! k with
    | Some v => Some v
    | None => if bool_decide (k ∈ ALL_HEADERS) then Some "Error" else None
    end.
Proof. apply fill_from_lookup. Qed.

(** The record left by a failure before the first assignment. *)
Lemma fill_error_empty k :
  fill_error ∅ !! k = if bool_decide (k ∈ ALL_HEADERS) then Some "Error" else None.
Proof. by rewrite fill_error_lookup, lookup_empty. Qed.

Lemma fold_banner_line_keeps lines (data : gmap string string) k :
  is_Some (data !! k) -> is_Some (fold_left banner_line lines data !! k).
Proof.
  revert data. induction lines as [|l lines IH]; intros data H; simpl; [done|].
  apply IH. unfold banner_line.
  destruct (Py.contains "Ministry" l), (Py.contains "Department" l);
    rewrite ?lookup_insert; repeat case_decide; eauto.
Qed.

Lemma is_Some_insert_here (m : gmap string string) k v : is_Some (<[k := v]> m !! k).
Proof. rewrite lookup_insert_eq. eauto. Qed.

Lemma is_Some_insert_there (m : gmap string string) i k v :
  is_Some (m !! k) -> is_Some (<[i := v]> m !! k).
Proof. intros H. rewrite lookup_insert. case_decide; eauto. Qed.

(** All twelve fields are there once the body has run to its end. *)
Ltac find_field :=
  repeat lazymatch goal with
    | |- is_Some (<[?k := _]> _ !! ?k) => apply is_Some_insert_here
    | |- is_Some (<[_ := _]> _ !! _) => apply is_Some_insert_there
    | |- is_Some (fold_left banner_line _ _ !! _) => apply fold_banner_line_keeps
    end.

Ltac all_fields :=
  let k := fresh "k" in
  let Hk := fresh "Hk" in
  intros k Hk; unfold ALL_HEADERS in Hk;
  repeat (apply elem_of_cons in Hk as [->|Hk]);
  [ find_field .. | by apply elem_of_nil in Hk ].

Lemma wait_is_swallowed {S} (r : result unit) (s : S) :
  try_except (call r) (ret tt) s = (s, Returns tt).
Proof. by destruct r as [[]|]. Qed.

Ltac run_body :=
  unfold try_except, bind, call, modify, ret; cbn [fst snd].

Ltac end_body :=
  first
    [ left; eexists; split; [reflexivity|]; apply lookup_insert_eq
    | right; eexists; split; [reflexivity|];
      rewrite ?lookup_insert_ne by done; apply lookup_empty ].

Lemma v1_body_cases dp url :
  (exists d, V1.extract_body dp url ∅ = (d, Returns tt)
             /\ d !! "Can be applied through NSWS" = Some (nsws_applicability dp))
  \/ (exists d, V1.extract_body dp url ∅ = (d, Raises)
                /\ d !! "Can be applied through NSWS" = None).
Proof.
  unfold V1.extract_body.
  destruct (dp_goto dp) as [[]|], (dp_wait dp) as [[]|],
    (dp_h1 dp) as [[h1|]|], (dp_banners dp) as [|[b|] [|b' bs]];
    run_body; cbn [strict_inner_text]; try end_body.
  all: destruct (Py.truthy _); end_body.
Qed.

Lemma v2_body_cases dp url :
  (exists d, V2.extract_body dp url ∅ = (d, Returns tt)
             /\ d !! "Can be applied through NSWS" = Some (nsws_applicability dp))
  \/ (exists d, V2.extract_body dp url ∅ = (d, Raises)
                /\ d !! "Can be applied through NSWS" = None).
Proof.
  unfold V2.extract_body.
  destruct (dp_goto dp) as [[]|], (dp_wait dp) as [[]|], (dp_h1 dp) as [[h1|]|];
    run_body; try end_body.
  all: destruct (negb _); end_body.
Qed.

(** What either variant leaves in the applicability field. *)
Lemma extract_nsws_field dp url data :
  V1.extract_detail_page dp url = Ok data \/ V2.extract_detail_page dp url = Ok data ->
  data !! "Can be applied through NSWS" = Some (nsws_applicability dp)
  \/ data !! "Can be applied through NSWS" = Some "Error".
Proof.
  unfold V1.extract_detail_page, V2.extract_detail_page.
  destruct (dp_new_page dp) as [[]|]; [|by intros [?|?]].
  unfold try_finally, try_except, call, modify.
  intros [H|H].
  - destruct (v1_body_cases dp url) as [(d & Hb & Hd)|(d & Hb & Hd)];
      rewrite Hb in H;
      destruct (dp_close dp) as [[]|]; try done; injection H as <-.
    + by left.
    + right. rewrite fill_error_lookup, Hd. done.
  - destruct (v2_body_cases dp url) as [(d & Hb & Hd)|(d & Hb & Hd)];
      rewrite Hb in H;
      destruct (dp_close dp) as [[]|]; try done; injection H as <-.
    + by left.
    + right. rewrite fill_error_lookup, Hd. done.
Qed.

Lemma v1_body_complete dp url d :
  V1.extract_body dp url ∅ = (d, Returns tt) ->
  forall k, k ∈ ALL_HEADERS -> is_Some (d !! k).
Proof.
  unfold V1.extract_body.
  destruct (dp_goto dp) as [[]|]; [|done].
  unfold bind at 1, call at 1. unfold bind at 1. rewrite wait_is_swallowed.
  destruct (dp_h1 dp) as [[h1|]|], (dp_banners dp) as [|[b|] [|b' bs]];
    run_body; cbn [strict_inner_text]; try done.
  all: destruct (Py.truthy _); intros [= <-]; all_fields.
Qed.

Lemma v2_body_complete dp url d :
  V2.extract_body dp url ∅ = (d, Returns tt) ->
  forall k, k ∈ ALL_HEADERS -> is_Some (d !! k).
Proof.
  unfold V2.extract_body.
  destruct (dp_goto dp) as [[]|]; [|done].
  unfold bind at 1, call at 1. unfold bind at 1. rewrite wait_is_swallowed.
  destruct (dp_h1 dp) as [[h1|]|]; run_body; try done.
  all: destruct (negb _); intros [= <-]; all_fields.
Qed.

Lemma fill_error_complete (data : gmap string string) k :
  k ∈ ALL_HEADERS -> is_Some (fill_error data !! k).
Proof.
  intros Hk. rewrite fill_error_lookup.
  destruct (data !! k); [eauto|]. rewrite bool_decide_eq_true_2 by done. eauto.
Qed.

(** Whatever fails between opening and closing the page, the fetcher
    returns a record, and the record has all twelve fields. *)
Lemma fetch_never_propagates dp url :
  dp_new_page dp = Ok tt ->
  dp_close dp = Ok tt ->
  (exists data, V1.extract_detail_page dp url = Ok data
                /\ forall k, k ∈ ALL_HEADERS -> is_Some (data !! k))
  /\ (exists data, V2.extract_detail_page dp url = Ok data
                   /\ forall k, k ∈ ALL_HEADERS -> is_Some (data !! k)).
Proof.
  intros Hopen Hclose.
  unfold V1.extract_detail_page, V2.extract_detail_page. rewrite Hopen.
  unfold try_finally, try_except, call, modify. rewrite Hclose. split.
  - destruct (v1_body_cases dp url) as [(d & Hb & _)|(d & Hb & _)]; rewrite Hb.
    + exists d. split; [done|]. by apply (v1_body_complete dp url).
    + eexists. split; [done|]. intros k. apply fill_error_complete.
  - destruct (v2_body_cases dp url) as [(d & Hb & _)|(d & Hb & _)]; rewrite Hb.
    + exists d. split; [done|]. by apply (v2_body_complete dp url).
    + eexists. split; [done|]. intros k. apply fill_error_complete.
Qed.

Lemma nsws_applicability_yes dp :
  nsws_applicability dp = "Yes"
  <-> exists e, e ∈ dp_elements dp /\ apply_btn e = true.
Proof.
  unfold nsws_applicability.
  destruct (filter (fun e => apply_btn e = true) (dp_elements dp)) as [|e es] eqn:Hf;
    simpl.
  - split; [done|]. intros (e & He & Hb).
    assert (Hin : e ∈ filter (fun e => apply_btn e = true) (dp_elements dp))
      by (by apply list_elem_of_filter).
    rewrite Hf in Hin. by apply elem_of_nil in Hin.
  - split; [|done]. intros _. exists e.
    assert (Hin : e ∈ filter (fun e => apply_btn e = true) (dp_elements dp))
      by (rewrite Hf; apply list_elem_of_here).
    apply list_elem_of_filter in Hin. tauto.
Qed.

Lemma nsws_applicability_values dp :
  nsws_applicability dp = "Yes" \/ nsws_applicability dp = "No (Information Only)".
Proof. unfold nsws_applicability. destruct (0 <? _); auto. Qed.

Lemma apply_btn_true e :
  apply_btn e = true
  <-> ((el_tag e = "button" \/ el_tag e = "a") /\ has_text "Apply Now" e = true)
      \/ (el_tag e = "button" /\ has_text "Login to Apply" e = true).
Proof.
  unfold apply_btn.
  rewrite !orb_true_iff, !andb_true_iff, !String.eqb_eq. tauto.
Qed.

Lemma apply_button_record_fetched :
  V1.extract_detail_page apply_button_page "https://www.nsws.gov.in/approval/1"
  = Ok apply_button_record.
Proof.
  assert (H : field (V1.extract_detail_page apply_button_page
                       "https://www.nsws.gov.in/approval/1") "Approval Name"
              = Some "Trade Licence") by (vm_compute; reflexivity).
  unfold apply_button_record.
  by destruct (V1.extract_detail_page _ _).
Qed.

Lemma apply_button_record_field :
  apply_button_record !! "Can be applied through NSWS" = Some "Yes".
Proof. vm_compute. reflexivity. Qed.

Lemma passed_over_v1 dp before rest :
  Forall (passed_over dp) before ->
  V1.get_labeled_value dp (before ++ rest) = V1.get_labeled_value dp rest.
Proof.
  induction 1 as [|p before [Hp|(el & Hp & He)] _ IH]; simpl; [done| |].
  - by rewrite Hp.
  - by rewrite Hp, He.
Qed.

Lemma passed_over_v2 dp before rest :
  Forall (passed_over dp) before ->
  V2.get_labeled_value dp (before ++ rest) = V2.get_labeled_value dp rest.
Proof.
  induction 1 as [|p before [Hp|(el & Hp & He)] _ IH]; simpl; [done| |].
  - by rewrite Hp.
  - by rewrite Hp, He.
Qed.


(** A failure of the wait is swallowed: the fetch goes on as if the wait
    had succeeded. *)
Lemma wait_failure_is_swallowed dp url :
  V1.extract_detail_page (with_wait Err dp) url
  = V1.extract_detail_page (with_wait (Ok tt) dp) url
  /\ V2.extract_detail_page (with_wait Err dp) url
     = V2.extract_detail_page (with_wait (Ok tt) dp) url.
Proof. split; reflexivity. Qed.

(** A failure after the first assignment leaves the fields assigned so
    far and sets the others to [Error]. *)
Lemma later_failure_keeps_fields :
  field (V1.extract_detail_page broken_heading_page "https://www.nsws.gov.in/approval/1")
    "Approval Link" = Some "https://www.nsws.gov.in/approval/1"
  /\ field (V1.extract_detail_page broken_heading_page "https://www.nsws.gov.in/approval/1")
       "Approval Name" = Some "Error"
  /\ field (V2.extract_detail_page broken_heading_page "https://www.nsws.gov.in/approval/1")
       "Approval Link" = Some "https://www.nsws.gov.in/approval/1"
  /\ field (V2.extract_detail_page broken_heading_page "https://www.nsws.gov.in/approval/1")
       "Can be applied through NSWS" = Some "Error".
Proof. repeat split; vm_compute; reflexivity. Qed.


(** ** The pagination walker *)

Lemma bind_returns {S A B} (m : Try S A) (k : A -> Try S B) s s' a :
  m s = (s', Returns a) -> bind m k s = k a s'.
Proof. intros H. unfold bind. by rewrite H. Qed.

Lemma wait_for_cards {S} (r : result unit) (s : S) :
  try_except (call r;; ret true) (ret false) s
  = (s, Returns (match r with Ok _ => true | Err => false end)).
Proof. by destruct r as [[]|]. Qed.

Section Walk.
Variable urljoin : string -> string -> string.
Variable extract : DetailPage -> string -> result (gmap string string).
Variable site : Site.
Variables (csv_path : string) (headers : list string).
Variable extra : option (gmap string string).

(** A card never stops the loop, and leaves the view as it is. *)
Lemma process_card_steady card w :
  exists w',
    process_card urljoin extract site csv_path headers extra card w = (w', Returns tt)
    /\ same_view w w'.
Proof.
  unfold process_card, try_except, bind, call, ret.
  destruct (card_href card) as [[href|]|]; try (by eexists).
  destruct (Py.truthy href); try (by eexists).
  destruct (extract _ _) as [row_data|]; try (by eexists).
  unfold on_fs. rewrite write_to_csv_safe_row. by eexists.
Qed.

Lemma for_each_cards_steady cards w :
  exists w',
    for_each (process_card urljoin extract site csv_path headers extra) cards w
    = (w', Returns tt)
    /\ same_view w w'.
Proof.
  revert w. induction cards as [|card cards IH]; intros w; simpl.
  - by eexists.
  - destruct (process_card_steady card w) as (w1 & H1 & S1).
    destruct (IH w1) as (w2 & H2 & S2).
    exists w2. split.
    + by erewrite bind_returns.
    + destruct S1 as (?&?&?), S2 as (?&?&?). repeat split; congruence.
Qed.
End Walk.

Lemma nth_middle_page (done rest : list ResultsPage) p :
  nth (length done) (done ++ p :: rest) blank_page = p.
Proof. induction done; simpl; auto. Qed.

Section Terminates.
Variable urljoin : string -> string -> string.
Variable site : Site.
Variables (csv_path : string) (headers : list string).
Variable extra : option (gmap string string).

Lemma walker_v1_visits rest : forall done last fuel w,
  s_listing site (w_checked w) = done ++ rest ++ [last] ->
  w_page w = length done ->
  Forall (fun p => next_on p = true /\ click_answered p = true) rest ->
  next_off last = true ->
  length rest < fuel ->
  exists w',
    V1.handle_pagination_and_extraction urljoin site fuel csv_path headers extra w
    = (w', Returns tt)
    /\ w_checked w' = w_checked w
    /\ w_page w' = w_page w + length rest
    /\ w_visits w' = w_visits w + length rest + 1.
Proof.
  induction rest as [|p rest IH]; intros done last fuel w Hlist Hpage Hrest Hlast Hfuel;
    (destruct fuel as [|fuel]; [simpl in Hfuel; lia|]);
    cbn [app] in Hlist;
    cbn [V1.handle_pagination_and_extraction];
    unfold bind at 1; unfold modify at 1;
    unfold bind at 1; unfold bind at 1, get at 1, ret at 1;
    unfold current_page; cbn [w_page w_checked visit];
    rewrite Hlist, Hpage, nth_middle_page.
  - destruct (for_each_cards_steady urljoin V1.extract_detail_page site csv_path
                headers extra (rp_cards last) (visit w)) as (w1 & H1 & Sc & Sp & Sv).
    erewrite bind_returns by exact H1.
    unfold next_off in Hlast.
    destruct (rp_next last) as [next_li|].
    + destruct (li_class next_li) as [class|]; [|done].
      unfold bind, call. rewrite Hlast. unfold ret.
      eexists. split; [reflexivity|]. simpl in *. repeat split; lia || congruence.
    + eexists. split; [reflexivity|]. simpl in *. repeat split; lia || congruence.
  - apply Forall_cons in Hrest as [[Hon Hclick] Hrest].
    destruct (for_each_cards_steady urljoin V1.extract_detail_page site csv_path
                headers extra (rp_cards p) (visit w)) as (w1 & H1 & Sc & Sp & Sv).
    erewrite bind_returns by exact H1.
    unfold next_on in Hon. unfold click_answered in Hclick.
    destruct (rp_next p) as [next_li|]; [|done].
    destruct (li_class next_li) as [class|]; [|done].
    apply negb_true_iff in Hon.
    destruct (li_button next_li) as [|[[]|] response]; try done. subst response.
    unfold bind at 1, call at 1. rewrite Hon.
    unfold bind at 1, try_except, bind, call, modify, ret.
    destruct (IH (done ++ [p]) last fuel (next_page w1)) as (w2 & H2 & Tc & Tp & Tv).
    + rewrite <- app_assoc. simpl in *. by rewrite Sc.
    + rewrite length_app. simpl in *. lia.
    + done.
    + done.
    + simpl in Hfuel. lia.
    + exists w2. split; [exact H2|]. simpl in *. repeat split; lia || congruence.
Qed.
Lemma walker_v2_visits rest : forall done last fuel w,
  s_listing site (w_checked w) = done ++ rest ++ [last] ->
  w_page w = length done ->
  Forall (fun p => cards_show p = true /\ next_on p = true /\ click_succeeds p = true) rest ->
  next_off last = true ->
  length rest < fuel ->
  exists w',
    V2.handle_pagination_and_extraction urljoin site fuel csv_path headers extra w
    = (w', Returns tt)
    /\ w_checked w' = w_checked w
    /\ w_page w' = w_page w + length rest
    /\ w_visits w' = w_visits w + length rest + 1.
Proof.
  induction rest as [|p rest IH]; intros done last fuel w Hlist Hpage Hrest Hlast Hfuel;
    (destruct fuel as [|fuel]; [simpl in Hfuel; lia|]);
    cbn [app] in Hlist;
    cbn [V2.handle_pagination_and_extraction];
    unfold bind at 1; unfold modify at 1;
    unfold bind at 1; unfold bind at 1, get at 1, ret at 1;
    unfold current_page; cbn [w_page w_checked visit];
    rewrite Hlist, Hpage, nth_middle_page.
  - erewrite bind_returns by apply wait_for_cards.
    destruct (rp_wait_cards last) as [[]|]; cbn [negb];
      [|eexists; split; [reflexivity|]; simpl; repeat split; lia].
    destruct (for_each_cards_steady urljoin V2.extract_detail_page site csv_path
                headers extra (rp_cards last) (visit w)) as (w1 & H1 & Sc & Sp & Sv).
    erewrite bind_returns by exact H1.
    unfold next_off in Hlast.
    destruct (rp_next last) as [next_li|].
    + destruct (li_class next_li) as [class|]; [|done].
      unfold bind, call. rewrite Hlast. unfold ret.
      eexists. split; [reflexivity|]. simpl in *. repeat split; lia || congruence.
    + eexists. split; [reflexivity|]. simpl in *. repeat split; lia || congruence.
  - apply Forall_cons in Hrest as [(Hshow & Hon & Hclick) Hrest].
    unfold cards_show in Hshow.
    erewrite bind_returns by apply wait_for_cards.
    destruct (rp_wait_cards p) as [[]|]; [|done]. cbn [negb].
    destruct (for_each_cards_steady urljoin V2.extract_detail_page site csv_path
                headers extra (rp_cards p) (visit w)) as (w1 & H1 & Sc & Sp & Sv).
    erewrite bind_returns by exact H1.
    unfold next_on in Hon. unfold click_succeeds in Hclick.
    destruct (rp_next p) as [next_li|]; [|done].
    destruct (li_class next_li) as [class|]; [|done].
    apply negb_true_iff in Hon.
    destruct (li_button next_li) as [|[[]|] response]; try done.
    unfold bind at 1, call at 1. rewrite Hon.
    unfold bind at 1, try_except, bind, call, modify, ret.
    destruct (IH (done ++ [p]) last fuel (next_page w1)) as (w2 & H2 & Tc & Tp & Tv).
    + rewrite <- app_assoc. simpl in *. by rewrite Sc.
    + rewrite length_app. simpl in *. lia.
    + done.
    + done.
    + simpl in Hfuel. lia.
    + exists w2. split; [exact H2|]. simpl in *. repeat split; lia || congruence.
Qed.
End Terminates.

(** ** The filter iterator *)

(** What a turn of the filter loop does when the click on its option
    raises: the view is reloaded, nothing is written, and the next turn
    works on the block derived by position (first variant) or on the
    block found at the start (second variant). *)
Lemma failed_option_recovery urljoin site fuel section_name csv_path headers key
    target_block checkboxes i cb raw w :
  checkboxes !! i = Some cb ->
  cb_text cb = Ok raw ->
  cb_scroll cb = Ok tt ->
  cb_id cb ∉ w_checked w ->
  cb_check cb = Err ->
  s_reload site = Ok tt ->
  V1.filter_turn urljoin site fuel section_name csv_path headers key checkboxes i w
  = (reloaded w, Returns (V1.fallback_block site section_name))
  /\ V2.filter_turn urljoin site fuel csv_path headers key target_block checkboxes i w
     = (reloaded w, Returns target_block).
Proof.
  intros Hcb Htext Hscroll Hun Hcheck Hreload.
  unfold V1.filter_turn, V2.filter_turn, click_checkbox, reload.
  rewrite Hcb. unfold try_except, bind, call, get, modify, ret.
  rewrite Htext, Hscroll, bool_decide_eq_false_2 by done.
  rewrite Hcheck, Hreload. done.
Qed.

Lemma bind_returns_inv {S A B} (m : Try S A) (k : A -> Try S B) s s' b :
  bind m k s = (s', Returns b) ->
  exists s1 a, m s = (s1, Returns a) /\ k a s1 = (s', Returns b).
Proof.
  unfold bind. destruct (m s) as [s1 [a| |]]; intros H; try done. eauto.
Qed.

Lemma try_except_returns_inv {S A} (body handler : Try S A) s s' a :
  try_except body handler s = (s', Returns a) ->
  body s = (s', Returns a)
  \/ exists s1, body s = (s1, Raises) /\ handler s1 = (s', Returns a).
Proof.
  unfold try_except. destruct (body s) as [s1 [a1| |]]; intros H; try done; eauto.
Qed.

Section PreservesPost.
Context (R : relation (gmap string (list Line))) `{!PreOrder R}.

(** Sequencing when the continuation is safe only for the values the
    first computation can return. *)
Lemma preserves_bind_post {A B} (Q : A -> Prop) (m : Try World A)
    (k : A -> Try World B) :
  preserves R m ->
  (forall w w' a, m w = (w', Returns a) -> Q a) ->
  (forall a, Q a -> preserves R (k a)) ->
  preserves R (bind m k).
Proof.
  intros Hm HQ Hk w. unfold bind. specialize (Hm w). specialize (HQ w).
  destruct (m w) as [w' [a| |]]; simpl in *; try done.
  etrans; [exact Hm|]. apply Hk. by eapply HQ.
Qed.
End PreservesPost.

Lemma nth_block_boxes site idx cb :
  cb ∈ nth idx (s_filter_types site) [] -> site_box site cb.
Proof.
  intros Hcb. right. exists (nth idx (s_filter_types site) []). split; [|done].
  destruct (nth_in_or_default idx (s_filter_types site) []) as [Hin|Hd].
  - by apply list_elem_of_In.
  - rewrite Hd in Hcb. by apply elem_of_nil in Hcb.
Qed.

Section Phase.
Variable urljoin : string -> string -> string.
Variable site : Site.
Variables (csv_path : string) (headers : list string) (key : string).

Local Abbreviation R := (appends csv_path (carries_filter_label site headers key)).

Lemma walker_v1_carries fuel cb raw :
  site_box site cb -> cb_text cb = Ok raw ->
  preserves R (V1.handle_pagination_and_extraction urljoin site fuel csv_path headers
                 (Some {[key := filter_name_of raw]})).
Proof.
  intros Hbox Hraw. apply preserves_walker_v1; [apply _|].
  intros row_data fs Hrow.
  eapply appends_weaken; [|by apply write_safe_row_appends].
  intros l Hl vals i -> Hi. destruct Hl as (row & _ & ->).
  exists cb, raw. split; [done|]. split; [done|].
  erewrite columns_of_lookup by done.
  by rewrite (overlay_forced _ _ key (filter_name_of raw)) by apply lookup_singleton_eq.
Qed.

Lemma walker_v2_carries fuel cb raw :
  site_box site cb -> cb_text cb = Ok raw ->
  preserves R (V2.handle_pagination_and_extraction urljoin site fuel csv_path headers
                 (Some {[key := filter_name_of raw]})).
Proof.
  intros Hbox Hraw. apply preserves_walker_v2; [apply _|].
  intros row_data fs Hrow.
  eapply appends_weaken; [|by apply write_safe_row_appends].
  intros l Hl vals i -> Hi. destruct Hl as (row & _ & ->).
  exists cb, raw. split; [done|]. split; [done|].
  erewrite columns_of_lookup by done.
  by rewrite (overlay_forced _ _ key (filter_name_of raw)) by apply lookup_singleton_eq.
Qed.

Lemma filter_turn_v1_carries fuel section_name checkboxes i :
  (forall cb, cb ∈ checkboxes -> site_box site cb) ->
  preserves R (V1.filter_turn urljoin site fuel section_name csv_path headers key
                 checkboxes i).
Proof.
  intros Hboxes. unfold V1.filter_turn.
  apply preserves_try_except; [apply _| |repeat preserves_step].
  destruct (checkboxes !! i) as [cb|] eqn:Hi;
    (apply preserves_bind_call; [apply _|]; intros cb' [= <-]).
  apply preserves_bind_call; [apply _|]. intros raw Hraw.
  repeat preserves_step.
  apply walker_v1_carries with cb; [|done].
  apply Hboxes. by eapply list_elem_of_lookup_2.
Qed.

Lemma filter_turn_v1_returns fuel section_name checkboxes i w w' next :
  (forall cb, cb ∈ checkboxes -> site_box site cb) ->
  V1.filter_turn urljoin site fuel section_name csv_path headers key checkboxes i w
  = (w', Returns next) ->
  forall cb, cb ∈ next -> site_box site cb.
Proof.
  intros Hboxes Hturn. unfold V1.filter_turn in Hturn.
  apply try_except_returns_inv in Hturn as [Hbody|(w1 & _ & Hhandler)].
  - repeat (apply bind_returns_inv in Hbody as (? & ? & _ & Hbody)).
    injection Hbody as _ <-. done.
  - apply bind_returns_inv in Hhandler as (? & ? & _ & Hret).
    injection Hret as _ <-. intros cb. apply nth_block_boxes.
Qed.

Lemma filter_turn_v2_carries fuel target_block checkboxes i :
  (forall cb, cb ∈ checkboxes -> site_box site cb) ->
  preserves R (V2.filter_turn urljoin site fuel csv_path headers key
                 target_block checkboxes i).
Proof.
  intros Hboxes. unfold V2.filter_turn.
  apply preserves_try_except; [apply _| |repeat preserves_step].
  destruct (checkboxes !! i) as [cb|] eqn:Hi;
    (apply preserves_bind_call; [apply _|]; intros cb' [= <-]).
  apply preserves_bind_call; [apply _|]. intros raw Hraw.
  repeat preserves_step.
  apply walker_v2_carries with cb; [|done].
  apply Hboxes. by eapply list_elem_of_lookup_2.
Qed.

Lemma filter_turn_v2_returns fuel target_block checkboxes i w w' next :
  (forall cb, cb ∈ target_block -> site_box site cb) ->
  (forall cb, cb ∈ checkboxes -> site_box site cb) ->
  V2.filter_turn urljoin site fuel csv_path headers key target_block checkboxes i w
  = (w', Returns next) ->
  forall cb, cb ∈ next -> site_box site cb.
Proof.
  intros Htarget Hboxes Hturn. unfold V2.filter_turn in Hturn.
  apply try_except_returns_inv in Hturn as [Hbody|(w1 & _ & Hhandler)].
  - repeat (apply bind_returns_inv in Hbody as (? & ? & _ & Hbody)).
    injection Hbody as _ <-. done.
  - apply bind_returns_inv in Hhandler as (? & ? & _ & Hret).
    injection Hret as _ <-. done.
Qed.

Lemma filter_loop_v1_carries fuel section_name range : forall checkboxes,
  (forall cb, cb ∈ checkboxes -> site_box site cb) ->
  preserves R (V1.filter_loop urljoin site fuel section_name csv_path headers key
                 checkboxes range).
Proof.
  induction range as [|i range IH]; intros checkboxes Hboxes; simpl.
  - preserves_step.
  - apply (preserves_bind_post R (fun next => forall cb, cb ∈ next -> site_box site cb)).
    + by apply filter_turn_v1_carries.
    + intros w w' next Hturn. by eapply filter_turn_v1_returns.
    + intros next Hnext. by apply IH.
Qed.

Lemma filter_loop_v2_carries fuel target_block range : forall checkboxes,
  (forall cb, cb ∈ target_block -> site_box site cb) ->
  (forall cb, cb ∈ checkboxes -> site_box site cb) ->
  preserves R (V2.filter_loop urljoin site fuel csv_path headers key
                 target_block checkboxes range).
Proof.
  induction range as [|i range IH]; intros checkboxes Htarget Hboxes; simpl.
  - preserves_step.
  - apply (preserves_bind_post R (fun next => forall cb, cb ∈ next -> site_box site cb)).
    + by apply filter_turn_v2_carries.
    + intros w w' next Hturn.
      eapply filter_turn_v2_returns; [exact Htarget | exact Hboxes | exact Hturn].
    + intros next Hnext. by apply IH.
Qed.

Lemma find_block_v1_returns section_name hs : forall w w' block,
  (forall h, h ∈ hs -> h ∈ s_filter_headers site) ->
  V1.find_block section_name hs w = (w', Returns (Some block)) ->
  forall cb, cb ∈ block -> site_box site cb.
Proof.
  induction hs as [|[txt b] hs IH]; intros w w' block Hhs; simpl; [done|].
  intros Hfind. apply bind_returns_inv in Hfind as (w1 & t & _ & Hfind).
  destruct (Py.contains _ _).
  - injection Hfind as _ <-. intros cb Hcb. left. exists (txt, b).
    split; [apply Hhs, list_elem_of_here | done].
  - eapply IH; [|exact Hfind]. intros h Hh. by apply Hhs, list_elem_of_further.
Qed.

Lemma find_block_v2_returns section_name hs : forall w w' block,
  (forall h, h ∈ hs -> h ∈ s_filter_headers site) ->
  V2.find_block section_name hs w = (w', Returns (Some block)) ->
  forall cb, cb ∈ block -> site_box site cb.
Proof.
  induction hs as [|[txt b] hs IH]; intros w w' block Hhs; simpl; [done|].
  intros Hfind. apply bind_returns_inv in Hfind as (w1 & t & _ & Hfind).
  destruct (Py.contains _ _).
  - injection Hfind as _ <-. intros cb Hcb. left. exists (txt, b).
    split; [apply Hhs, list_elem_of_here | done].
  - eapply IH; [|exact Hfind]. intros h Hh. by apply Hhs, list_elem_of_further.
Qed.

Lemma find_block_v1_preserves section_name hs :
  preserves R (V1.find_block section_name hs).
Proof. induction hs as [|[txt b] hs IH]; simpl; repeat preserves_step. Qed.

Lemma find_block_v2_preserves section_name hs :
  preserves R (V2.find_block section_name hs).
Proof. induction hs as [|[txt b] hs IH]; simpl; repeat preserves_step. Qed.

(** Every row a filtered phase appends carries, in the column of the
    forced field, the canonical label of a checkbox of the catalog. *)
Lemma phase_rows_carry_filter_label fuel section_name w :
  appends csv_path (carries_filter_label site headers key) (w_fs w)
    (w_fs (fst (V1.click_filter_and_process urljoin site fuel section_name
                  csv_path headers key w)))
  /\ appends csv_path (carries_filter_label site headers key) (w_fs w)
       (w_fs (fst (V2.click_filter_and_process urljoin site fuel section_name
                     csv_path headers key w))).
Proof.
  split.
  - revert w. change (preserves R (V1.click_filter_and_process urljoin site fuel
                                    section_name csv_path headers key)).
    unfold V1.click_filter_and_process.
    apply preserves_bind; [apply _|preserves_step|intros _].
    apply (preserves_bind_post R
             (fun found => forall block, found = Some block ->
                           forall cb, cb ∈ block -> site_box site cb)).
    + apply find_block_v1_preserves.
    + intros w w' [block|] Hfind block' [= <-].
      by eapply find_block_v1_returns.
    + intros [block|] Hfound; apply filter_loop_v1_carries.
      * by apply Hfound.
      * intros cb. apply nth_block_boxes.
  - revert w. change (preserves R (V2.click_filter_and_process urljoin site fuel
                                    section_name csv_path headers key)).
    unfold V2.click_filter_and_process.
    apply preserves_bind; [apply _|preserves_step|intros _].
    apply (preserves_bind_post R
             (fun found => forall block, found = Some block ->
                           forall cb, cb ∈ block -> site_box site cb)).
    + apply find_block_v2_preserves.
    + intros w w' [block|] Hfind block' [= <-].
      by eapply find_block_v2_returns.
    + intros [block|] Hfound;
        (apply filter_loop_v2_carries; [|]);
        first [ by apply Hfound | intros cb; apply nth_block_boxes ].
Qed.
End Phase.

(** ** The ways through one fetch *)


Lemma heading_cases dp : dp_h1 dp = Some Err \/ dp_h1 dp <> Some Err.
Proof. destruct (dp_h1 dp) as [[?|]|]; auto. Qed.

Lemma banner_cases dp :
  (exists text, banner_reads dp text)
  \/ (dp_banners dp <> [] /\ strict_inner_text (dp_banners dp) = Err).
Proof.
  unfold banner_reads. destruct (dp_banners dp) as [|[t|] [|b bs]]; eauto; right; done.
Qed.

(** *** The four ways through the body of the [try] block *)

Lemma body_unreachable dp url :
  dp_goto dp = Err ->
  V1.extract_body dp url ∅ = (∅, Raises) /\ V2.extract_body dp url ∅ = (∅, Raises).
Proof.
  intros Hgoto. unfold V1.extract_body, V2.extract_body. by rewrite Hgoto.
Qed.

Lemma body_unreadable_heading dp url :
  dp_goto dp = Ok tt -> dp_h1 dp = Some Err ->
  V1.extract_body dp url ∅ = (<["Approval Link" := url]> ∅, Raises)
  /\ V2.extract_body dp url ∅ = (<["Approval Link" := url]> ∅, Raises).
Proof.
  intros Hgoto Hh1. unfold V1.extract_body, V2.extract_body. rewrite Hgoto, Hh1.
  by destruct (dp_wait dp) as [[]|].
Qed.

Lemma v1_body_strict_banner dp url :
  dp_goto dp = Ok tt -> dp_h1 dp <> Some Err ->
  dp_banners dp <> [] -> strict_inner_text (dp_banners dp) = Err ->
  V1.extract_body dp url ∅
  = (<["Approval Name" := heading_text dp]> (<["Approval Link" := url]> ∅), Raises).
Proof.
  intros Hgoto Hh1 Hne Hb. unfold V1.extract_body, heading_text. rewrite Hgoto.
  destruct (dp_wait dp) as [[]|], (dp_h1 dp) as [[h1|]|]; try done;
    destruct (dp_banners dp) as [|b bs] eqn:E; try done; run_body; by rewrite Hb.
Qed.

Lemma v1_body_returns dp url text :
  dp_goto dp = Ok tt -> dp_h1 dp <> Some Err -> banner_reads dp text ->
  V1.extract_body dp url ∅ = (v1_fields dp url (banner_lines text), Returns tt).
Proof.
  intros Hgoto Hh1 Hb. unfold V1.extract_body, v1_fields, heading_text. rewrite Hgoto.
  destruct (dp_wait dp) as [[]|], (dp_h1 dp) as [[h1|]|]; try done;
    destruct Hb as [[-> ->]| ->]; run_body; cbn [strict_inner_text Py.truthy];
    try reflexivity.
  all: destruct text; reflexivity.
Qed.

Lemma v2_body_returns dp url :
  dp_goto dp = Ok tt -> dp_h1 dp <> Some Err ->
  V2.extract_body dp url ∅
  = (v2_fields dp url
       (if String.eqb (V2.safe_extract_text (dp_banners dp)) "N/A" then []
        else banner_lines (V2.safe_extract_text (dp_banners dp))),
     Returns tt).
Proof.
  intros Hgoto Hh1. unfold V2.extract_body, v2_fields, heading_text. rewrite Hgoto.
  destruct (dp_wait dp) as [[]|], (dp_h1 dp) as [[h1|]|]; try done; run_body.
  all: by destruct (String.eqb _ _).
Qed.

Lemma v1_fetch dp url d :
  dp_new_page dp = Ok tt -> dp_close dp = Ok tt ->
  (V1.extract_body dp url ∅ = (d, Returns tt) -> V1.extract_detail_page dp url = Ok d)
  /\ (V1.extract_body dp url ∅ = (d, Raises) ->
      V1.extract_detail_page dp url = Ok (fill_error d)).
Proof.
  intros Hopen Hclose. unfold V1.extract_detail_page. rewrite Hopen.
  unfold try_finally, try_except, call, modify. rewrite Hclose.
  split; by intros ->.
Qed.

Lemma v2_fetch dp url d :
  dp_new_page dp = Ok tt -> dp_close dp = Ok tt ->
  (V2.extract_body dp url ∅ = (d, Returns tt) -> V2.extract_detail_page dp url = Ok d)
  /\ (V2.extract_body dp url ∅ = (d, Raises) ->
      V2.extract_detail_page dp url = Ok (fill_error d)).
Proof.
  intros Hopen Hclose. unfold V2.extract_detail_page. rewrite Hopen.
  unfold try_finally, try_except, call, modify. rewrite Hclose.
  split; by intros ->.
Qed.


(** The reply to the wait has no effect on the record. *)
Lemma wait_reply_is_irrelevant r dp url :
  V1.extract_detail_page (with_wait r dp) url = V1.extract_detail_page dp url
  /\ V2.extract_detail_page (with_wait r dp) url = V2.extract_detail_page dp url.
Proof.
  unfold V1.extract_detail_page, V2.extract_detail_page,
    V1.extract_body, V2.extract_body.
  split; destruct r as [[]|], (dp_wait dp) as [[]|]; reflexivity.
Qed.

(** The second variant goes on with the next pattern after one it gives up. *)
Lemma given_up_v2 dp before rest :
  Forall (given_up dp) before ->
  V2.get_labeled_value dp (before ++ rest) = V2.get_labeled_value dp rest.
Proof.
  induction 1 as [|p before Hp _ IH]; [done|].
  cbn [app V2.get_labeled_value].
  destruct Hp as [[Hp|(el & Hp & He)]|(el & full_text & Hp & He & Hlen & Hsib)];
    rewrite Hp; [done|by rewrite He|].
  rewrite He. cbv zeta. apply Nat.ltb_lt in Hlen. by rewrite Hlen, Hsib.
Qed.


(** * The claims *)

(** ** The rows of a sink: claims C6, C8 and C10 *)

(** C6: every row appended to a sink holds one value for every column of
    the sink's schema, the value the record has for that column or [N/A]
    where the record has none.  This holds for the rows the pagination
    walker appends, whatever the schema and the forced fields, and so for
    the rows a whole run appends to the sink of each phase; nothing else
    but the header is appended, and no other file is written. *)
Theorem appended_rows_cover_schema urljoin site fuel csv_path headers extra w :
  appends csv_path
    (complete_line urljoin V1.extract_detail_page site headers extra) (w_fs w)
    (w_fs (fst (V1.handle_pagination_and_extraction urljoin site fuel
                  csv_path headers extra w)))
  /\ appends csv_path
       (complete_line urljoin V2.extract_detail_page site headers extra) (w_fs w)
       (w_fs (fst (V2.handle_pagination_and_extraction urljoin site fuel
                     csv_path headers extra w)))
  /\ run_appends schema_v1
       (fun schema l =>
          exists forced, complete_line urljoin V1.extract_detail_page site schema forced l)
       (w_fs w) (w_fs (fst (V1.main urljoin site fuel w)))
  /\ run_appends schema_v2
       (fun schema l =>
          exists forced, complete_line urljoin V2.extract_detail_page site schema forced l)
       (w_fs w) (w_fs (fst (V2.main urljoin site fuel w))).
Proof.
  assert (Hline : forall extract schema forced l,
             walker_line urljoin extract site schema forced l ->
             complete_line urljoin extract site schema forced l).
  { intros extract schema forced [cols|vals]; simpl; [done|].
    intros (row_data & Hrow & ->). split; [apply columns_of_length|].
    exists row_data. split; [done|]. intros i k. apply columns_of_lookup. }
  split; [|split; [|split]].
  - eapply appends_weaken; [apply Hline|]. apply walker_appends_v1.
  - eapply appends_weaken; [apply Hline|]. apply walker_appends_v2.
  - eapply run_appends_weaken; [|apply main_appends_v1].
    intros schema l [forced Hl]. exists forced. by apply Hline.
  - eapply run_appends_weaken; [|apply main_appends_v2].
    intros schema l [forced Hl]. exists forced. by apply Hline.
Qed.



(** The page says "Ministry of X", the filter says "Ministry of Y": the
    row says "Ministry of Y". *)
Lemma forced_field_example :
  field (V1.extract_detail_page plain_page "https://www.nsws.gov.in/approval/3")
    "Ministry Name" = Some "Ministry of X"
  /\ w_fs (fst (V1.handle_pagination_and_extraction join_path
                  (site_listing (drop 1 two_full_pages)) 2 "Ministries.csv"
                  MINISTRY_HEADERS
                  (Some {["Ministry Name" := "Ministry of Y"]}) (fresh_world ∅)))
     !! "Ministries.csv"
     = Some [ Header MINISTRY_HEADERS;
              Row [ "https://www.nsws.gov.in/approval/3"; "Trade Licence";
                    "Ministry of Y"; "N/A"; "N/A"; "N/A"; "N/A"; "N/A"; "N/A"; "N/A";
                    "No (Information Only)" ] ].
Proof. split; vm_compute; reflexivity. Qed.

(** C10: every row appended to a sink is the record projected onto the
    sink's schema: one value per schema column and no other, so a field
    of the record outside the schema (the department name in the
    ministry phase, the ministry name in the department phase) reaches
    the file nowhere.  This holds for the rows the pagination walker
    appends and for the rows a whole run appends to the sink of each
    phase. *)
Theorem rows_projected_onto_schema urljoin site fuel csv_path headers extra w :
  appends csv_path
    (projected_line urljoin V1.extract_detail_page site headers extra) (w_fs w)
    (w_fs (fst (V1.handle_pagination_and_extraction urljoin site fuel
                  csv_path headers extra w)))
  /\ appends csv_path
       (projected_line urljoin V2.extract_detail_page site headers extra) (w_fs w)
       (w_fs (fst (V2.handle_pagination_and_extraction urljoin site fuel
                     csv_path headers extra w)))
  /\ run_appends schema_v1
       (fun schema l =>
          exists forced, projected_line urljoin V1.extract_detail_page site schema forced l)
       (w_fs w) (w_fs (fst (V1.main urljoin site fuel w)))
  /\ run_appends schema_v2
       (fun schema l =>
          exists forced, projected_line urljoin V2.extract_detail_page site schema forced l)
       (w_fs w) (w_fs (fst (V2.main urljoin site fuel w)))
  /\ (forall row_data k, k ∉ headers -> project headers row_data !! k = None)
  /\ ("Department Name" ∉ MINISTRY_HEADERS)
  /\ ("Ministry Name" ∉ DEPT_HEADERS).
Proof.
  assert (Hline : forall extract schema forced l,
             walker_line urljoin extract site schema forced l ->
             projected_line urljoin extract site schema forced l).
  { intros extract schema forced l Hl vals ->. destruct Hl as (row_data & Hrow & ->).
    split; [apply columns_of_length|]. exists row_data. split; [done|].
    by rewrite columns_of_project. }
  split; [|split; [|split; [|split; [|split; [|split]]]]].
  - eapply appends_weaken; [apply Hline|]. apply walker_appends_v1.
  - eapply appends_weaken; [apply Hline|]. apply walker_appends_v2.
  - eapply run_appends_weaken; [|apply main_appends_v1].
    intros schema l [forced Hl]. exists forced. by apply Hline.
  - eapply run_appends_weaken; [|apply main_appends_v2].
    intros schema l [forced Hl]. exists forced. by apply Hline.
  - intros row_data k Hk. unfold project.
    apply map_lookup_filter_None. right. intros v _. done.
  - rewrite list_elem_of_In. simpl. intuition discriminate.
  - rewrite list_elem_of_In. simpl. intuition discriminate.
Qed.

(** ** The header of a sink: claim C7 *)

Lemma run_v1_extends urljoin fs run : extends fs (run_v1 urljoin fs run).
Proof.
  unfold run_v1.
  refine (preserves_main_v1 extends urljoin run.1 run.2 _ (fresh_world fs)).
  intros filepath headers _ extra row_data fs' _. apply write_to_csv_extends.
Qed.

Lemma run_v2_extends urljoin fs run : extends fs (run_v2 urljoin fs run).
Proof.
  unfold run_v2.
  refine (preserves_main_v2 extends urljoin run.1 run.2 _ (fresh_world fs)).
  intros filepath headers _ extra row_data fs' _. apply write_to_csv_extends.
Qed.

Lemma fold_left_extends (run : gmap string (list Line) -> Site * nat -> gmap string (list Line))
    (runs : list (Site * nat)) fs :
  (forall fs r, extends fs (run fs r)) -> extends fs (fold_left run runs fs).
Proof.
  intros Hrun. revert fs. induction runs as [|r runs IH]; intros fs; simpl.
  - reflexivity.
  - etrans; [apply Hrun | apply IH].
Qed.

(** C7: a call of [write_to_csv] writes the header exactly when the file
    does not exist at that moment, and puts its lines after the lines the
    file already holds.  Hence over any series of runs of the orchestrator,
    each resuming on the files the one before has left, every file keeps
    its earlier lines as a prefix and receives at most one header, and
    none at all when it existed before the first run. *)
Theorem header_written_at_most_once :
  (forall filepath headers row_data fs,
      exists rows,
        fst (write_to_csv filepath headers row_data fs)
        = <[filepath := default [] (fs !! filepath)
                        ++ (if bool_decide (is_Some (fs !! filepath))
                            then [] else [Header headers])
                        ++ rows]> fs
        /\ count_headers rows = 0)
  /\ (forall urljoin (runs : list (Site * nat)) fs filepath,
        let written fs' :=
          exists added,
            default [] (fs' !! filepath) = default [] (fs !! filepath) ++ added
            /\ count_headers added <= 1
            /\ (is_Some (fs !! filepath) -> count_headers added = 0) in
        written (fold_left (run_v1 urljoin) runs fs)
        /\ written (fold_left (run_v2 urljoin) runs fs)).
Proof.
  split.
  - intros filepath headers row_data fs.
    exists (match dict_to_list headers row_data with
            | Ok vals => [Row vals]
            | Err => []
            end).
    split; [apply write_to_csv_effect|].
    by destruct (dict_to_list headers row_data).
  - intros urljoin runs fs filepath written.
    assert (Hext : forall fs', extends fs fs' -> written fs').
    { intros fs' Hfs. destruct (Hfs filepath) as (added & E & _ & C).
      exists added. split; [done|]. case_bool_decide; split; try lia; done. }
    split; apply Hext, fold_left_extends; intros.
    + apply run_v1_extends.
    + apply run_v2_extends.
Qed.

(** ** The detail fetcher: claims C1, C2, C3 and C5 *)

(** C1, as the code has it: a failure raised inside the fetch, once the
    tab is open, is not propagated, and the record returned holds every
    field of the output schema: the fields assigned before the failure
    keep their values and the others are [Error].  There are three points
    of failure.  When navigation fails nothing is assigned yet, and every
    field is [Error], in both variants.  When the text of the first [h1]
    cannot be read the link is assigned, and every other field is
    [Error], in both variants.  When, in the first variant, the banner
    cannot be read, the link and the name are assigned, and every other
    field is [Error].  When none of the three fails the fetch runs to its
    end and the handler is not reached; the reply to the extra wait
    changes nothing. *)
Theorem fetch_failure_fills_missing_fields dp url :
  dp_new_page dp = Ok tt ->
  dp_close dp = Ok tt ->
  (dp_goto dp = Err ->
   forall k, k ∈ ALL_HEADERS ->
     field (V1.extract_detail_page dp url) k = Some "Error"
     /\ field (V2.extract_detail_page dp url) k = Some "Error")
  /\ (dp_goto dp = Ok tt -> dp_h1 dp = Some Err ->
      forall k, k ∈ ALL_HEADERS ->
        field (V1.extract_detail_page dp url) k
        = Some (if String.eqb k "Approval Link" then url else "Error")
        /\ field (V2.extract_detail_page dp url) k
           = Some (if String.eqb k "Approval Link" then url else "Error"))
  /\ (dp_goto dp = Ok tt -> dp_h1 dp <> Some Err ->
      dp_banners dp <> [] -> strict_inner_text (dp_banners dp) = Err ->
      forall k, k ∈ ALL_HEADERS ->
        field (V1.extract_detail_page dp url) k
        = Some (if String.eqb k "Approval Link" then url
                else if String.eqb k "Approval Name" then heading_text dp
                else "Error"))
  /\ (dp_goto dp = Ok tt -> dp_h1 dp <> Some Err ->
      (forall text, banner_reads dp text ->
         V1.extract_detail_page dp url = Ok (v1_fields dp url (banner_lines text)))
      /\ V2.extract_detail_page dp url
         = Ok (v2_fields dp url
                 (if String.eqb (V2.safe_extract_text (dp_banners dp)) "N/A" then []
                  else banner_lines (V2.safe_extract_text (dp_banners dp)))))
  /\ (forall r,
        V1.extract_detail_page (with_wait r dp) url = V1.extract_detail_page dp url
        /\ V2.extract_detail_page (with_wait r dp) url = V2.extract_detail_page dp url).
Proof.
  intros Hopen Hclose.
  assert (Hlink : forall k v,
    fill_error (<["Approval Link" := v]> ∅) !! k
    = if String.eqb k "Approval Link" then Some v
      else if bool_decide (k ∈ ALL_HEADERS) then Some "Error" else None).
  { intros k v. rewrite fill_error_lookup.
    destruct (String.eqb_spec k "Approval Link") as [->|Hne].
    - by rewrite lookup_insert_eq.
    - by rewrite lookup_insert_ne, lookup_empty. }
  assert (Hname : forall k v n,
    fill_error (<["Approval Name" := n]> (<["Approval Link" := v]> ∅)) !! k
    = if String.eqb k "Approval Link" then Some v
      else if String.eqb k "Approval Name" then Some n
      else if bool_decide (k ∈ ALL_HEADERS) then Some "Error" else None).
  { intros k v n. rewrite fill_error_lookup.
    destruct (String.eqb_spec k "Approval Link") as [->|Hne].
    - by rewrite lookup_insert_ne, lookup_insert_eq.
    - destruct (String.eqb_spec k "Approval Name") as [->|Hne'].
      + by rewrite lookup_insert_eq.
      + by rewrite !lookup_insert_ne, lookup_empty. }
  split; [|split; [|split; [|split]]].
  - intros Hgoto k Hk.
    destruct (body_unreachable dp url Hgoto) as [H1 H2].
    destruct (v1_fetch dp url ∅ Hopen Hclose) as [_ ->]; [|exact H1].
    destruct (v2_fetch dp url ∅ Hopen Hclose) as [_ ->]; [|exact H2].
    cbn [field]. by rewrite fill_error_empty, bool_decide_eq_true_2.
  - intros Hgoto Hh1 k Hk.
    destruct (body_unreadable_heading dp url Hgoto Hh1) as [H1 H2].
    destruct (v1_fetch dp url (<["Approval Link" := url]> ∅) Hopen Hclose) as [_ ->];
      [|exact H1].
    destruct (v2_fetch dp url (<["Approval Link" := url]> ∅) Hopen Hclose) as [_ ->];
      [|exact H2].
    cbn [field]. rewrite Hlink, bool_decide_eq_true_2 by done.
    by destruct (String.eqb k "Approval Link").
  - intros Hgoto Hh1 Hne Hb k Hk.
    destruct (v1_fetch dp url
                (<["Approval Name" := heading_text dp]> (<["Approval Link" := url]> ∅))
                Hopen Hclose) as [_ ->];
      [|exact (v1_body_strict_banner dp url Hgoto Hh1 Hne Hb)].
    cbn [field]. rewrite Hname, bool_decide_eq_true_2 by done.
    by destruct (String.eqb k "Approval Link"), (String.eqb k "Approval Name").
  - intros Hgoto Hh1. split.
    + intros text Hb.
      destruct (v1_fetch dp url (v1_fields dp url (banner_lines text)) Hopen Hclose)
        as [H _].
      apply H. by apply v1_body_returns.
    + destruct (v2_fetch dp url
                  (v2_fields dp url
                     (if String.eqb (V2.safe_extract_text (dp_banners dp)) "N/A" then []
                      else banner_lines (V2.safe_extract_text (dp_banners dp))))
                  Hopen Hclose) as [H _].
      apply H. by apply v2_body_returns.
  - intros r. apply wait_reply_is_irrelevant.
Qed.

(** C1 on a page that cannot be reached, where every field is [Error],
    and on a page whose heading cannot be read, where the link is kept. *)
Lemma fetch_failure_witness :
  (field (V1.extract_detail_page unreachable_page "https://www.nsws.gov.in/approval/1")
     "Approval Link" = Some "Error"
   /\ field (V2.extract_detail_page unreachable_page "https://www.nsws.gov.in/approval/1")
        "Approval Link" = Some "Error")
  /\ (field (V1.extract_detail_page broken_heading_page "https://www.nsws.gov.in/approval/1")
        "Approval Name" = Some "Error"
      /\ field (V2.extract_detail_page broken_heading_page "https://www.nsws.gov.in/approval/1")
           "Approval Name" = Some "Error").
Proof.
  split.
  - destruct (fetch_failure_fills_missing_fields unreachable_page
                "https://www.nsws.gov.in/approval/1" eq_refl eq_refl) as (H & _).
    apply (H eq_refl "Approval Link"). apply list_elem_of_here.
  - destruct (fetch_failure_fills_missing_fields broken_heading_page
                "https://www.nsws.gov.in/approval/1" eq_refl eq_refl) as (_ & H & _).
    apply (H eq_refl eq_refl "Approval Name").
    apply list_elem_of_further, list_elem_of_here.
Defined.

(** C1, as the specification words it, fails at a later point of the
    fetch: navigation succeeds, the text of the first [h1] cannot be
    read, the failure reaches the handler, and the record holds the link,
    which was assigned before, where the specification has [Error]. *)
Lemma heading_failure_keeps_link :
  dp_goto broken_heading_page = Ok tt
  /\ dp_h1 broken_heading_page = Some Err
  /\ V1.extract_body broken_heading_page "https://www.nsws.gov.in/approval/1" ∅
     = (<["Approval Link" := "https://www.nsws.gov.in/approval/1"]> ∅, Raises)
  /\ V2.extract_body broken_heading_page "https://www.nsws.gov.in/approval/1" ∅
     = (<["Approval Link" := "https://www.nsws.gov.in/approval/1"]> ∅, Raises)
  /\ field (V1.extract_detail_page broken_heading_page "https://www.nsws.gov.in/approval/1")
       "Approval Link" = Some "https://www.nsws.gov.in/approval/1"
  /\ field (V2.extract_detail_page broken_heading_page "https://www.nsws.gov.in/approval/1")
       "Approval Link" = Some "https://www.nsws.gov.in/approval/1"
  /\ spec_error_record !! "Approval Link" = Some "Error".
Proof.
  split; [reflexivity|]. split; [reflexivity|].
  split; [by apply body_unreadable_heading|]. split; [by apply body_unreadable_heading|].
  repeat split; vm_compute; reflexivity.
Qed.

(** C5, as the code has it: in a record fetched without failure the
    applicability field is [Yes] exactly when the page holds a button or
    a link whose text contains "Apply Now", or a button whose text
    contains "Login to Apply" (without regard to case); otherwise it is
    [No (Information Only)]. *)
Theorem nsws_applicability_by_selector dp url data :
  V1.extract_detail_page dp url = Ok data \/ V2.extract_detail_page dp url = Ok data ->
  data !! "Can be applied through NSWS" ≠ Some "Error" ->
  (data !! "Can be applied through NSWS" = Some "Yes"
   <-> exists e, e ∈ dp_elements dp
         /\ (((el_tag e = "button" \/ el_tag e = "a") /\ has_text "Apply Now" e = true)
             \/ (el_tag e = "button" /\ has_text "Login to Apply" e = true)))
  /\ (data !! "Can be applied through NSWS" ≠ Some "Yes"
      -> data !! "Can be applied through NSWS" = Some "No (Information Only)").
Proof.
  intros Hdata Hok.
  destruct (extract_nsws_field dp url data Hdata) as [Hv|Hv]; [|done].
  rewrite Hv. split.
  - split.
    + intros [= Hy]. apply nsws_applicability_yes in Hy as (e & He & Hb).
      exists e. split; [done|]. by apply apply_btn_true.
    + intros (e & He & Hb). f_equal. apply nsws_applicability_yes.
      exists e. split; [done|]. by apply apply_btn_true.
  - intros Hn. destruct (nsws_applicability_values dp) as [Hy|Hy]; rewrite Hy in *; done.
Qed.

(** C5 on a page that holds an "Apply Now" button. *)
Lemma nsws_applicability_witness :
  (apply_button_record !! "Can be applied through NSWS" = Some "Yes"
   <-> exists e, e ∈ dp_elements apply_button_page
         /\ (((el_tag e = "button" \/ el_tag e = "a") /\ has_text "Apply Now" e = true)
             \/ (el_tag e = "button" /\ has_text "Login to Apply" e = true)))
  /\ (apply_button_record !! "Can be applied through NSWS" ≠ Some "Yes"
      -> apply_button_record !! "Can be applied through NSWS"
         = Some "No (Information Only)").
Proof.
  apply (nsws_applicability_by_selector apply_button_page
           "https://www.nsws.gov.in/approval/1" apply_button_record).
  - left. exact apply_button_record_fetched.
  - rewrite apply_button_record_field. discriminate.
Defined.

(** C5, as the specification words it, fails on a page whose only
    control is a link labelled "Login to Apply": the selector has no
    clause for it. *)
Lemma login_link_not_detected :
  spec_nsws_applicability login_link_page = "Yes"
  /\ field (V1.extract_detail_page login_link_page "https://www.nsws.gov.in/approval/1")
       "Can be applied through NSWS" = Some "No (Information Only)"
  /\ field (V2.extract_detail_page login_link_page "https://www.nsws.gov.in/approval/1")
       "Can be applied through NSWS" = Some "No (Information Only)".
Proof. repeat split; vm_compute; reflexivity. Qed.

(** C2: [clean_text] tests for emptiness before it normalizes, so a text
    of blanks or of markup alone comes out as the empty string, not as
    [N/A]; the approval name and the fee of a fetched record can then be
    empty. *)
Theorem clean_text_can_return_empty :
  clean_text " " = ""
  /\ clean_text "<br>" = ""
  /\ field (V1.extract_detail_page blank_heading_page "https://www.nsws.gov.in/approval/1")
       "Approval Name" = Some ""
  /\ field (V2.extract_detail_page blank_heading_page "https://www.nsws.gov.in/approval/1")
       "Approval Name" = Some ""
  /\ field (V1.extract_detail_page blank_heading_page "https://www.nsws.gov.in/approval/1")
       "Application Fee" = Some ""
  /\ field (V2.extract_detail_page blank_heading_page "https://www.nsws.gov.in/approval/1")
       "Application Fee" = Some "".
Proof. repeat split; vm_compute; reflexivity. Qed.

(** C3, as the code has it: the patterns are tried in order.  The first
    variant passes over a pattern that matches nothing or whose container
    cannot be read; for the first pattern that is left it takes the text
    of the container of the last match, removes every occurrence of the
    pattern from it and applies [clean_text].  The second variant removes
    every occurrence of the pattern and every colon and applies
    [clean_text]; when at least 2 characters are left, that is the value;
    when fewer are left, the value is the [clean_text] of the next
    sibling if there is one and it can be read, the short remainder if
    there is no sibling, and, if the sibling cannot be read, this pattern
    is given up as well and the value is that of the patterns after it.
    So in the second variant the patterns before the deciding one are
    those that match nothing, whose container cannot be read, or that
    leave fewer than 2 characters beside an unreadable sibling. *)
Theorem labeled_value_rule dp before pattern after el full_text :
  dp_label dp pattern = Some el ->
  lb_parent el = Ok full_text ->
  (Forall (passed_over dp) before ->
   V1.get_labeled_value dp (before ++ pattern :: after)
   = clean_text (Py.replace pattern "" full_text))
  /\ (Forall (given_up dp) before ->
      let cleaned := clean_text (Py.replace ":" "" (Py.replace pattern "" full_text)) in
      (2 <= String.length cleaned ->
       V2.get_labeled_value dp (before ++ pattern :: after) = cleaned)
      /\ (String.length cleaned < 2 -> lb_next_sibling el = None ->
          V2.get_labeled_value dp (before ++ pattern :: after) = cleaned)
      /\ (String.length cleaned < 2 ->
          forall next_sib, lb_next_sibling el = Some (Ok next_sib) ->
          V2.get_labeled_value dp (before ++ pattern :: after) = clean_text next_sib)
      /\ (String.length cleaned < 2 -> lb_next_sibling el = Some Err ->
          V2.get_labeled_value dp (before ++ pattern :: after)
          = V2.get_labeled_value dp after)).
Proof.
  intros Hel Htext. split.
  - intros Hbefore. rewrite passed_over_v1 by done.
    cbn [V1.get_labeled_value]. by rewrite Hel, Htext.
  - intros Hbefore. rewrite given_up_v2 by done.
    cbn [V2.get_labeled_value]. rewrite Hel, Htext. cbv zeta.
    split; [|split; [|split]].
    + intros Hlen. apply Nat.ltb_ge in Hlen. by rewrite Hlen.
    + intros Hlen Hsib. apply Nat.ltb_lt in Hlen. by rewrite Hlen, Hsib.
    + intros Hlen next_sib Hsib. apply Nat.ltb_lt in Hlen. by rewrite Hlen, Hsib.
    + intros Hlen Hsib. apply Nat.ltb_lt in Hlen. by rewrite Hlen, Hsib.
Qed.

(** C3 on a page where "Fee" matches nothing and the container of
    "Payment" holds the label and a colon only, beside a sibling that
    holds the amount; and on a page where "Fee" stands alone beside a
    sibling that cannot be read, so that "Payment" decides. *)
Lemma labeled_value_witness :
  V1.get_labeled_value sibling_fee_page (["Fee"] ++ "Payment" :: ["Cost"; "Price"]) = ":"
  /\ V2.get_labeled_value sibling_fee_page (["Fee"] ++ "Payment" :: ["Cost"; "Price"])
     = "Rs 500"
  /\ V2.get_labeled_value unreadable_sibling_page ([] ++ "Fee" :: ["Payment"; "Cost"; "Price"])
     = V2.get_labeled_value unreadable_sibling_page ["Payment"; "Cost"; "Price"]
  /\ V2.get_labeled_value unreadable_sibling_page (["Fee"] ++ "Payment" :: ["Cost"; "Price"])
     = "Rs 500".
Proof.
  assert (Hfee : String.length
                   (clean_text (Py.replace ":" "" (Py.replace "Fee" "" "Fee: "))) < 2)
    by (vm_compute; lia).
  assert (Hpay : String.length
                   (clean_text (Py.replace ":" "" (Py.replace "Payment" "" "Payment : ")))
                 < 2) by (vm_compute; lia).
  assert (Hamount : 2 <= String.length
                     (clean_text (Py.replace ":" ""
                        (Py.replace "Payment" "" "Payment: Rs 500"))))
    by (vm_compute; lia).
  destruct (labeled_value_rule sibling_fee_page ["Fee"] "Payment" ["Cost"; "Price"]
              {| lb_parent := Ok "Payment : "; lb_next_sibling := Some (Ok "Rs 500") |}
              "Payment : " eq_refl eq_refl) as [H1 H2].
  destruct (labeled_value_rule unreadable_sibling_page [] "Fee" ["Payment"; "Cost"; "Price"]
              lone_fee_label "Fee: " eq_refl eq_refl) as [_ H3].
  destruct (labeled_value_rule unreadable_sibling_page ["Fee"] "Payment" ["Cost"; "Price"]
              {| lb_parent := Ok "Payment: Rs 500"; lb_next_sibling := None |}
              "Payment: Rs 500" eq_refl eq_refl) as [_ H4].
  split; [|split; [|split]].
  - apply H1. constructor; [by left|constructor].
  - destruct H2 as (_ & _ & H2 & _).
    + constructor; [by left; left|constructor].
    + exact (H2 Hpay "Rs 500" eq_refl).
  - destruct H3 as (_ & _ & _ & H3); [constructor|].
    exact (H3 Hfee eq_refl).
  - destruct H4 as (H4 & _).
    + constructor; [|constructor]. right. exists lone_fee_label, "Fee: ".
      split; [reflexivity|]. split; [reflexivity|]. split; [exact Hfee|reflexivity].
    + rewrite (H4 Hamount). vm_compute. reflexivity.
Defined.

(** C3, as the specification words it, fails on a container that reads
    "Time: 10:30 hrs": stripping the label and its colon leaves the time
    of day, but the second variant removes every colon and the first
    removes none. *)
Lemma labeled_value_strips_every_colon :
  spec_labeled_value clock_page ["Time"; "Timeline"; "SLA"; "Duration"] = "10:30 hrs"
  /\ V2.get_labeled_value clock_page ["Time"; "Timeline"; "SLA"; "Duration"] = "1030 hrs"
  /\ V1.get_labeled_value clock_page ["Time"; "Timeline"; "SLA"] = ": 10:30 hrs".
Proof. repeat split; vm_compute; reflexivity. Qed.

(** ** Pagination: claim C9 *)





(** ** Recovery of the filter iterator: claim C4 *)

(** C4: after a failed option the first variant derives the container
    anew by position, and for the section "Ministries" the position is
    that of the second container: with the first ministry checkbox
    failing, the option processed next is the second department, and its
    label is written as the ministry name.  The second variant goes on
    with the second ministry. *)
Theorem recovery_switches_to_department_block :
  (forall site, V1.fallback_block site "Ministries" = nth 1 (s_filter_types site) [])
  /\ (forall site, V2.fallback_block site "Ministries" = nth 0 (s_filter_types site) [])
  /\ w_fs (fst (V1.click_filter_and_process join_path two_block_site 3 "Ministries"
                  "nsws_data_output/Ministries.csv" MINISTRY_HEADERS "Ministry Name"
                  (fresh_world ∅)))
     !! "nsws_data_output/Ministries.csv"
     = Some [ Header MINISTRY_HEADERS;
              Row [ "https://www.nsws.gov.in/approval/1"; "Trade Licence";
                    "Department of Y"; "N/A"; "N/A"; "N/A"; "N/A"; "N/A"; "N/A"; "N/A";
                    "No (Information Only)" ] ]
  /\ w_fs (fst (V2.click_filter_and_process join_path two_block_site 3 "Ministries"
                  "nsws_data_slowed/Ministries.csv" MINISTRY_HEADERS "Ministry Name"
                  (fresh_world ∅)))
     !! "nsws_data_slowed/Ministries.csv"
     = Some [ Header MINISTRY_HEADERS;
              Row [ "https://www.nsws.gov.in/approval/1"; "Trade Licence";
                    "Ministry of B"; "N/A"; "N/A"; "N/A"; "N/A"; "N/A"; "N/A"; "N/A";
                    "No (Information Only)" ] ].
Proof. repeat split; vm_compute; reflexivity. Qed.

(** * Further properties of the engine *)

(** ** Text normalization and filter labels *)

Lemma single_spaced_has_char after_space t c :
  single_spaced after_space t = true -> Py.is_space c = true -> c <> " "%char ->
  has_char c t = false.
Proof.
  intros Hs Hc Hn. revert after_space Hs.
  induction t as [|c' r IH]; intros b Hs; [done|]. simpl in *.
  destruct (Py.is_space c') eqn:Hc'.
  - apply andb_true_iff in Hs as [[Hsp _]%andb_true_iff Hr].
    apply Ascii.eqb_eq in Hsp. subst c'.
    destruct (Ascii.eqb_spec " " c) as [<-|_]; [done|]. simpl. by apply (IH true).
  - destruct (Ascii.eqb_spec c' c) as [->|_]; [congruence|]. simpl. by apply (IH false).
Qed.

Lemma clean_text_spaced text :
  single_spaced false (clean_text text) = true
  /\ no_tag (clean_text text) = true
  /\ Py.strip (clean_text text) = clean_text text.
Proof.
  unfold clean_text. destruct text as [|c r]; [by repeat split|].
  cbn [Py.truthy negb]. split; [|split].
  - apply single_spaced_rstrip, single_spaced_lstrip, single_spaced_sub_spaces.
  - apply no_tag_rstrip, no_tag_lstrip, no_tag_sub_spaces, no_tag_sub_tags.
  - apply strip_idempotent.
Qed.

(** X1: whatever the text, what [clean_text] returns is left unchanged by
    each of its three steps (tag removal, whitespace collapsing,
    trimming), and holds no whitespace character other than the plain
    space: no newline, no tab. *)
Theorem clean_text_normal_form text :
  let t := clean_text text in
  Py.sub_tags t = t /\ Py.sub_spaces t = t /\ Py.strip t = t
  /\ forall c, Py.is_space c = true -> c <> " "%char -> has_char c t = false.
Proof.
  intros t. destruct (clean_text_spaced text) as (Hs & Ht & Hstrip). fold t in Hs, Ht, Hstrip.
  split; [by apply no_tag_fixed|].
  split; [by apply (single_spaced_fixed false)|].
  split; [done|].
  intros c. by apply (single_spaced_has_char false).
Qed.

(** X2: normalizing twice gives the same as normalizing once, except
    that an empty result becomes [N/A]; a third pass changes nothing. *)
Theorem clean_text_twice text :
  clean_text (clean_text text)
  = (if String.eqb (clean_text text) "" then "N/A" else clean_text text)
  /\ clean_text (clean_text (clean_text text)) = clean_text (clean_text text).
Proof.
  assert (H2 : clean_text (clean_text text)
               = if String.eqb (clean_text text) "" then "N/A" else clean_text text).
  { destruct (String.eqb_spec (clean_text text) "") as [E|N].
    - by rewrite E.
    - by apply clean_text_idempotent. }
  split; [exact H2|].
  rewrite H2. destruct (String.eqb_spec (clean_text text) "") as [E|N]; [done|].
  by apply clean_text_idempotent.
Qed.

Lemma append_cons c (a b : string) : String c a +:+ b = String c (a +:+ b).
Proof. reflexivity. Qed.

Lemma append_empty (b : string) : "" +:+ b = b.
Proof. reflexivity. Qed.

Lemma append_assoc (a b c : string) : (a +:+ b) +:+ c = a +:+ (b +:+ c).
Proof.
  induction a as [|x a IH]; [done|]. rewrite !append_cons. by f_equal.
Qed.

Lemma digits_close_count n tail seen :
  all_digits n = true -> (n <> "" \/ seen = true) ->
  Py.digits_close seen (n +:+ String ")" tail) = Some tail.
Proof.
  revert seen. induction n as [|c r IH]; intros seen Hd Hn.
  - rewrite append_empty. simpl. destruct Hn as [? | ->]; done.
  - rewrite append_cons. simpl in *.
    apply andb_true_iff in Hd as [Hc Hr]. rewrite Hc. apply IH; auto.
Qed.

(** An opening parenthesis further on keeps [$] from matching here. *)
Lemma digits_close_before r s seen tail :
  s <> "" ->
  Py.digits_close seen (r +:+ String "(" s) = Some tail -> Py.at_end tail = false.
Proof.
  intros Hs. revert seen. induction r as [|c r IH]; intros seen.
  - rewrite append_empty. simpl. done.
  - rewrite append_cons. simpl.
    destruct (Py.is_digit c); [apply IH|].
    destruct (Ascii.eqb c ")" && seen); [|done].
    intros [= <-]. destruct r as [|c' r'].
    + rewrite append_empty. by destruct s.
    + rewrite append_cons. destruct r'; [rewrite append_empty|rewrite append_cons]; done.
Qed.

Lemma sub_count_suffix s n :
  all_digits n = true -> n <> "" ->
  Py.sub_count (s +:+ String "(" (n +:+ ")")) = s.
Proof.
  intros Hd Hn. induction s as [|c r IH].
  - rewrite append_empty. simpl. by rewrite (digits_close_count n "" false) by auto.
  - rewrite append_cons. simpl. rewrite IH.
    destruct (Ascii.eqb c "("); [|done].
    destruct (Py.digits_close false _) as [tail|] eqn:Ht; [|done].
    apply digits_close_before in Ht as ->; [done|]. by destruct n.
Qed.

Lemma lstrip_app a c b :
  Py.is_space c = false -> Py.lstrip (a +:+ String c b) = Py.lstrip a +:+ String c b.
Proof.
  intros Hc. induction a as [|c' r IH].
  - rewrite append_empty. simpl. by rewrite Hc.
  - rewrite append_cons. simpl. destruct (Py.is_space c'); [done|].
    by rewrite append_cons.
Qed.

Lemma rstrip_snoc a c :
  Py.is_space c = false -> Py.rstrip (a +:+ String c "") = a +:+ String c "".
Proof.
  intros Hc. induction a as [|c' r IH].
  - rewrite append_empty. simpl. by rewrite Hc.
  - rewrite append_cons. simpl. rewrite IH.
    destruct r; [rewrite append_empty|rewrite append_cons]; done.
Qed.

Lemma sub_count_no_close s : has_char ")" s = false -> Py.sub_count s = s.
Proof.
  assert (Hd : forall r seen, has_char ")" r = false -> Py.digits_close seen r = None).
  { induction r as [|c r IH]; intros seen; simpl; [done|].
    intros [Hc Hr]%orb_false_iff. rewrite Hc. simpl.
    destruct (Py.is_digit c); auto. }
  induction s as [|c r IH]; simpl; [done|].
  intros [Hc Hr]%orb_false_iff. rewrite IH by done.
  destruct (Ascii.eqb c "("); [|done]. by rewrite Hd.
Qed.

Lemma has_char_lstrip c s : has_char c s = false -> has_char c (Py.lstrip s) = false.
Proof.
  induction s as [|c' r IH]; simpl; [done|].
  intros [Hc Hr]%orb_false_iff. destruct (Py.is_space c'); [auto|].
  simpl. by rewrite Hc, Hr.
Qed.

Lemma has_char_rstrip c s : has_char c s = false -> has_char c (Py.rstrip s) = false.
Proof.
  induction s as [|c' r IH]; simpl; [done|].
  intros [Hc Hr]%orb_false_iff. specialize (IH Hr).
  destruct (Py.rstrip r) as [|c'' r'']; simpl in *.
  - destruct (Py.is_space c'); simpl; [done|]. by rewrite Hc.
  - by rewrite Hc, IH.
Qed.

(** X3: a filter label that ends in a count, "(" digits ")", loses the
    count and the whitespace around what is left, whatever stands before
    the count; a label without a closing parenthesis is only trimmed. *)
Theorem filter_name_drops_count :
  (forall name n,
      all_digits n = true -> n <> "" ->
      filter_name_of (name +:+ "(" +:+ n +:+ ")") = Py.strip name)
  /\ (forall raw, has_char ")" raw = false -> filter_name_of raw = Py.strip raw).
Proof.
  split.
  - intros name n Hd Hn. unfold filter_name_of, Py.strip at 2.
    change (name +:+ "(" +:+ n +:+ ")") with (name +:+ String "(" (n +:+ ")")).
    rewrite lstrip_app by done.
    replace (Py.lstrip name +:+ String "(" (n +:+ ")"))
      with ((Py.lstrip name +:+ String "(" n) +:+ ")")
      by (rewrite append_assoc; reflexivity).
    rewrite rstrip_snoc by done.
    replace ((Py.lstrip name +:+ String "(" n) +:+ ")")
      with (Py.lstrip name +:+ String "(" (n +:+ ")"))
      by (rewrite append_assoc; reflexivity).
    rewrite sub_count_suffix by done.
    unfold Py.strip. by rewrite (starts_clean_fixed _ (starts_clean_lstrip name)).
  - intros raw Hraw. unfold filter_name_of.
    rewrite sub_count_no_close.
    + apply strip_idempotent.
    + unfold Py.strip. by apply has_char_rstrip, has_char_lstrip.
Qed.

(** X3 on the label "Ministry of Coal (12)" and on a label without a
    count. *)
Lemma filter_name_witness :
  filter_name_of ("Ministry of Coal " +:+ "(" +:+ "12" +:+ ")") = Py.strip "Ministry of Coal "
  /\ filter_name_of " Ministry of Coal " = Py.strip " Ministry of Coal ".
Proof.
  destruct filter_name_drops_count as [H1 H2]. split.
  - apply H1; [reflexivity | discriminate].
  - apply H2. reflexivity.
Defined.

(** ** The sink *)

#[export] Instance untouched_preorder filepath : PreOrder (untouched filepath).
Proof.
  split.
  - by intros fs.
  - intros fs1 fs2 fs3 H1 H2. unfold untouched in *. congruence.
Qed.

Lemma dict_to_list_foreign_key headers (row_data : gmap string string) k v :
  row_data !! k = Some v -> k ∉ headers -> dict_to_list headers row_data = Err.
Proof.
  intros Hk Hn. unfold dict_to_list.
  destruct (forallb _ _) eqn:Hall; [|done].
  rewrite forallb_forall in Hall.
  assert (Hin : In k (map fst (map_to_list row_data))).
  { apply in_map_iff. exists (k, v). split; [done|].
    apply list_elem_of_In, elem_of_map_to_list, Hk. }
  apply Hall in Hin. by apply bool_decide_eq_true in Hin.
Qed.

(** X4: [write_to_csv] raises on a record that holds a key outside the
    headers; no row is written then, but the file has been made and, when
    it was new, holds the header.  On a record cut to the headers by the
    card loop it never raises, and appends the header when the file is
    new and then exactly one row. *)
Theorem write_to_csv_rejects_foreign_key filepath headers (row_data : gmap string string)
    k v fs :
  row_data !! k = Some v -> k ∉ headers ->
  write_to_csv filepath headers row_data fs
  = (<[filepath := default [] (fs !! filepath) ++ header_if_new fs filepath headers]> fs,
     Raises)
  /\ forall record,
       write_to_csv filepath headers (safe_row headers record) fs
       = (<[filepath := default [] (fs !! filepath)
                        ++ header_if_new fs filepath headers
                        ++ [Row (columns_of headers record)]]> fs,
          Returns tt).
Proof.
  intros Hk Hn. split; [|intros record; apply write_to_csv_safe_row].
  pose proof (write_to_csv_effect filepath headers row_data fs) as Hfs.
  rewrite (dict_to_list_foreign_key _ _ _ _ Hk Hn), app_nil_r in Hfs.
  rewrite <- Hfs.
  unfold write_to_csv, bind, get, modify, call, ret.
  rewrite (dict_to_list_foreign_key _ _ _ _ Hk Hn).
  by destruct (negb _).
Qed.

(** X4 on a record with a department name, written under the ministry
    headers to a file that does not exist. *)
Lemma write_to_csv_foreign_key_witness :
  write_to_csv "Ministries.csv" MINISTRY_HEADERS
    {["Department Name" := "Department of X"]} ∅
  = (<["Ministries.csv" := default [] ((∅ : gmap string (list Line)) !! "Ministries.csv")
                           ++ header_if_new ∅ "Ministries.csv" MINISTRY_HEADERS]> ∅,
     Raises)
  /\ forall record,
       write_to_csv "Ministries.csv" MINISTRY_HEADERS (safe_row MINISTRY_HEADERS record) ∅
       = (<["Ministries.csv" := default [] ((∅ : gmap string (list Line)) !! "Ministries.csv")
                        ++ header_if_new ∅ "Ministries.csv" MINISTRY_HEADERS
                        ++ [Row (columns_of MINISTRY_HEADERS record)]]> ∅,
          Returns tt).
Proof.
  apply (write_to_csv_rejects_foreign_key "Ministries.csv" MINISTRY_HEADERS
           {["Department Name" := "Department of X"]} "Department Name" "Department of X").
  - apply lookup_singleton_eq.
  - rewrite list_elem_of_In. simpl. intuition discriminate.
Defined.

Lemma write_to_csv_untouched filepath other headers row_data fs :
  other <> filepath -> untouched other fs (fst (write_to_csv filepath headers row_data fs)).
Proof.
  intros Hne. rewrite write_to_csv_effect. unfold untouched.
  by rewrite lookup_insert_ne.
Qed.

(** X5: a run of the orchestrator, however it ends, leaves every file
    other than its three sinks as it was: none is made, none is
    changed. *)
Theorem run_touches_only_sinks urljoin site fuel w filepath :
  (schema_v1 filepath = None ->
   w_fs (fst (V1.main urljoin site fuel w)) !! filepath = w_fs w !! filepath)
  /\ (schema_v2 filepath = None ->
      w_fs (fst (V2.main urljoin site fuel w)) !! filepath = w_fs w !! filepath).
Proof.
  split; intros Hnone.
  - refine (preserves_main_v1 (untouched filepath) urljoin site fuel _ w).
    intros sink headers Hsink extra row_data fs _.
    apply write_to_csv_untouched. intros ->. congruence.
  - refine (preserves_main_v2 (untouched filepath) urljoin site fuel _ w).
    intros sink headers Hsink extra row_data fs _.
    apply write_to_csv_untouched. intros ->. congruence.
Qed.

(** X5 on a run that finds an empty file of notes. *)
Lemma run_touches_only_sinks_witness :
  w_fs (fst (V1.main join_path two_block_site 3 (fresh_world {["notes.txt" := []]})))
    !! "notes.txt" = Some []
  /\ w_fs (fst (V2.main join_path two_block_site 3 (fresh_world {["notes.txt" := []]})))
       !! "notes.txt" = Some [].
Proof.
  destruct (run_touches_only_sinks join_path two_block_site 3
              (fresh_world {["notes.txt" := []]}) "notes.txt") as [H1 H2].
  split.
  - rewrite H1 by reflexivity. apply lookup_singleton_eq.
  - rewrite H2 by reflexivity. apply lookup_singleton_eq.
Defined.

(** ** The detail fetcher *)

(** *** The banner loop *)

Lemma last_default_irrelevant {A} (l : list A) d d' :
  l <> [] -> List.last l d = List.last l d'.
Proof.
  induction l as [|a [|b l] IH]; intros Hne; [done|done|]. apply IH. done.
Qed.

Lemma banner_line_other data line k :
  k <> "Ministry Name" -> k <> "Department Name" ->
  banner_line data line !! k = data !! k.
Proof.
  intros H1 H2. unfold banner_line.
  destruct (Py.contains "Department" line), (Py.contains "Ministry" line);
    rewrite ?lookup_insert_ne by done; done.
Qed.

Lemma fold_banner_line_other lines : forall data k,
  k <> "Ministry Name" -> k <> "Department Name" ->
  fold_left banner_line lines data !! k = data !! k.
Proof.
  induction lines as [|l lines IH]; intros data k H1 H2; simpl; [done|].
  rewrite IH by done. by apply banner_line_other.
Qed.

Lemma fold_banner_line_ministry lines : forall data v,
  data !! "Ministry Name" = Some v ->
  fold_left banner_line lines data !! "Ministry Name"
  = Some (List.last (naming "Ministry" lines) v).
Proof.
  unfold naming.
  induction lines as [|l lines IH]; intros data v Hv; [done|].
  cbn [fold_left]. rewrite filter_cons.
  destruct (decide (Py.contains "Ministry" l = true)) as [Hl|Hl].
  - rewrite (IH _ l).
    + destruct (filter _ lines) as [|l' ls] eqn:E; [done|].
      change (List.last (l :: l' :: ls) v) with (List.last (l' :: ls) v).
      f_equal. by apply last_default_irrelevant.
    + unfold banner_line. rewrite Hl.
      destruct (Py.contains "Department" l);
        rewrite ?lookup_insert_ne by done; apply lookup_insert_eq.
  - apply IH. unfold banner_line. apply not_true_is_false in Hl. rewrite Hl.
    destruct (Py.contains "Department" l); rewrite ?lookup_insert_ne by done; done.
Qed.

Lemma fold_banner_line_department lines : forall data v,
  data !! "Department Name" = Some v ->
  fold_left banner_line lines data !! "Department Name"
  = Some (List.last (naming "Department" lines) v).
Proof.
  unfold naming.
  induction lines as [|l lines IH]; intros data v Hv; [done|].
  cbn [fold_left]. rewrite filter_cons.
  destruct (decide (Py.contains "Department" l = true)) as [Hl|Hl].
  - rewrite (IH _ l).
    + destruct (filter _ lines) as [|l' ls] eqn:E; [done|].
      change (List.last (l :: l' :: ls) v) with (List.last (l' :: ls) v).
      f_equal. by apply last_default_irrelevant.
    + unfold banner_line. rewrite Hl. apply lookup_insert_eq.
  - apply IH. unfold banner_line. apply not_true_is_false in Hl. rewrite Hl.
    destruct (Py.contains "Ministry" l); rewrite ?lookup_insert_ne by done; done.
Qed.

Lemma split_no_separator sep t : has_char sep t = false -> Py.split sep t = [t].
Proof.
  induction t as [|c r IH]; simpl; [done|].
  intros [Hc Hr]%orb_false_iff. rewrite Hc, IH by done. done.
Qed.

(** A normalized text is one line. *)
Lemma banner_lines_clean_text text :
  banner_lines (clean_text text)
  = if String.eqb (clean_text text) "" then [] else [clean_text text].
Proof.
  destruct (clean_text_spaced text) as (Hs & _ & Hstrip).
  unfold banner_lines.
  rewrite split_no_separator by (by apply (single_spaced_has_char false)).
  rewrite filter_cons, filter_nil, Hstrip.
  destruct (clean_text text) as [|c r]; [done|]. simpl.
  by rewrite Hstrip.
Qed.

Lemma fold_one_banner_line b (data : gmap string string) :
  data !! "Ministry Name" = Some "N/A" -> data !! "Department Name" = Some "N/A" ->
  let lines := if String.eqb b "N/A" then [] else
               if String.eqb b "" then [] else [b] in
  fold_left banner_line lines data !! "Ministry Name"
  = Some (if Py.contains "Ministry" b then b else "N/A")
  /\ fold_left banner_line lines data !! "Department Name"
     = Some (if Py.contains "Department" b then b else "N/A").
Proof.
  intros Hm Hd lines. subst lines.
  destruct (String.eqb_spec b "N/A") as [->|_]; [done|].
  destruct (String.eqb_spec b "") as [->|_]; [done|].
  cbn [fold_left]. unfold banner_line.
  destruct (Py.contains "Ministry" b), (Py.contains "Department" b);
    rewrite ?lookup_insert_eq, ?lookup_insert_ne, ?lookup_insert_eq by done; done.
Qed.

(** *** The keys of a record *)

Ltac is_a_header :=
  apply list_elem_of_In; unfold ALL_HEADERS;
  repeat first [ left; reflexivity | right ].

Ltac not_a_header Hk :=
  let E := fresh in intros E; apply Hk; rewrite <- E; is_a_header.

Lemma fill_error_none (d : gmap string string) k :
  k ∉ ALL_HEADERS -> d !! k = None -> fill_error d !! k = None.
Proof.
  intros Hk Hd. rewrite fill_error_lookup, Hd. by rewrite bool_decide_eq_false_2.
Qed.

Lemma v1_body_keys dp url d o k :
  V1.extract_body dp url ∅ = (d, o) -> k ∉ ALL_HEADERS -> d !! k = None.
Proof.
  intros Hbody Hk.
  destruct (dp_goto dp) as [[]|] eqn:Hgoto.
  2:{ destruct (body_unreachable dp url Hgoto) as [E _]. rewrite E in Hbody.
      by injection Hbody as <- _. }
  destruct (heading_cases dp) as [Hh1|Hh1].
  { destruct (body_unreadable_heading dp url Hgoto Hh1) as [E _]. rewrite E in Hbody.
    injection Hbody as <- _. rewrite lookup_insert_ne by not_a_header Hk. done. }
  destruct (banner_cases dp) as [[text Hb]|[Hne Hb]].
  - rewrite (v1_body_returns dp url text Hgoto Hh1 Hb) in Hbody.
    injection Hbody as <- _. unfold v1_fields.
    rewrite !lookup_insert_ne by not_a_header Hk.
    rewrite fold_banner_line_other by (intros ->; apply Hk; is_a_header).
    rewrite !lookup_insert_ne by not_a_header Hk. done.
  - rewrite (v1_body_strict_banner dp url Hgoto Hh1 Hne Hb) in Hbody.
    injection Hbody as <- _. rewrite !lookup_insert_ne by not_a_header Hk. done.
Qed.

Lemma v2_body_keys dp url d o k :
  V2.extract_body dp url ∅ = (d, o) -> k ∉ ALL_HEADERS -> d !! k = None.
Proof.
  intros Hbody Hk.
  destruct (dp_goto dp) as [[]|] eqn:Hgoto.
  2:{ destruct (body_unreachable dp url Hgoto) as [_ E]. rewrite E in Hbody.
      by injection Hbody as <- _. }
  destruct (heading_cases dp) as [Hh1|Hh1].
  { destruct (body_unreadable_heading dp url Hgoto Hh1) as [_ E]. rewrite E in Hbody.
    injection Hbody as <- _. rewrite lookup_insert_ne by not_a_header Hk. done. }
  rewrite (v2_body_returns dp url Hgoto Hh1) in Hbody.
  injection Hbody as <- _. unfold v2_fields.
  rewrite !lookup_insert_ne by not_a_header Hk.
  rewrite fold_banner_line_other by (intros ->; apply Hk; is_a_header).
  rewrite !lookup_insert_ne by not_a_header Hk. done.
Qed.

(** X6: the detail fetcher raises exactly when the tab cannot be opened
    or cannot be closed; in every other case, whatever fails in between,
    it returns a record whose keys are the twelve fields of the full
    schema, no more and no less. *)
Theorem fetched_record_has_schema_keys dp url :
  (V1.extract_detail_page dp url = Err <-> dp_new_page dp = Err \/ dp_close dp = Err)
  /\ (V2.extract_detail_page dp url = Err <-> dp_new_page dp = Err \/ dp_close dp = Err)
  /\ (forall data,
        V1.extract_detail_page dp url = Ok data \/ V2.extract_detail_page dp url = Ok data ->
        forall k, is_Some (data !! k) <-> k ∈ ALL_HEADERS).
Proof.
  assert (Hraise : forall extract,
             extract = V1.extract_detail_page \/ extract = V2.extract_detail_page ->
             extract dp url = Err <-> dp_new_page dp = Err \/ dp_close dp = Err).
  { intros extract Hex.
    destruct (dp_new_page dp) as [[]|] eqn:Hopen, (dp_close dp) as [[]|] eqn:Hclose.
    - destruct (fetch_never_propagates dp url Hopen Hclose) as [[d1 [E1 _]] [d2 [E2 _]]].
      destruct Hex as [-> | ->]; rewrite ?E1, ?E2; split; try done; intros [?|?]; done.
    - split; [auto|intros _].
      destruct Hex as [-> | ->];
        unfold V1.extract_detail_page, V2.extract_detail_page; rewrite Hopen;
        unfold try_finally, try_except, call, modify; rewrite Hclose.
      + by destruct (V1.extract_body dp url ∅) as [? [| |]].
      + by destruct (V2.extract_body dp url ∅) as [? [| |]].
    - split; [auto|intros _].
      destruct Hex as [-> | ->];
        unfold V1.extract_detail_page, V2.extract_detail_page; by rewrite Hopen.
    - split; [auto|intros _].
      destruct Hex as [-> | ->];
        unfold V1.extract_detail_page, V2.extract_detail_page; by rewrite Hopen. }
  split; [apply Hraise; auto|]. split; [apply Hraise; auto|].
  intros data Hdata k.
  assert (Hopen : dp_new_page dp = Ok tt /\ dp_close dp = Ok tt).
  { destruct (dp_new_page dp) as [[]|] eqn:Hopen, (dp_close dp) as [[]|] eqn:Hclose;
      [done|exfalso..].
    all: destruct Hdata as [Hd|Hd];
      [ assert (E : V1.extract_detail_page dp url = Err) by (apply Hraise; auto)
      | assert (E : V2.extract_detail_page dp url = Err) by (apply Hraise; auto) ];
      congruence. }
  destruct Hopen as [Hopen Hclose].
  destruct (fetch_never_propagates dp url Hopen Hclose) as [[d1 [E1 H1]] [d2 [E2 H2]]].
  split.
  - intros Hsome. destruct (decide (k ∈ ALL_HEADERS)) as [|Hk]; [done|]. exfalso.
    destruct Hdata as [Hd|Hd].
    + destruct (V1.extract_body dp url ∅) as [d o] eqn:Hbody.
      pose proof (v1_body_keys dp url d o k Hbody Hk) as Hnone.
      destruct (v1_body_cases dp url) as [(d' & Hb & _)|(d' & Hb & _)];
        rewrite Hbody in Hb; injection Hb as -> ->.
      * destruct (v1_fetch dp url d' Hopen Hclose) as [E _]. rewrite E in Hd by done.
        injection Hd as <-. rewrite Hnone in Hsome. by destruct Hsome.
      * destruct (v1_fetch dp url d' Hopen Hclose) as [_ E]. rewrite E in Hd by done.
        injection Hd as <-. rewrite fill_error_none in Hsome by done. by destruct Hsome.
    + destruct (V2.extract_body dp url ∅) as [d o] eqn:Hbody.
      pose proof (v2_body_keys dp url d o k Hbody Hk) as Hnone.
      destruct (v2_body_cases dp url) as [(d' & Hb & _)|(d' & Hb & _)];
        rewrite Hbody in Hb; injection Hb as -> ->.
      * destruct (v2_fetch dp url d' Hopen Hclose) as [E _]. rewrite E in Hd by done.
        injection Hd as <-. rewrite Hnone in Hsome. by destruct Hsome.
      * destruct (v2_fetch dp url d' Hopen Hclose) as [_ E]. rewrite E in Hd by done.
        injection Hd as <-. rewrite fill_error_none in Hsome by done. by destruct Hsome.
  - intros Hk. destruct Hdata as [Hd|Hd].
    + rewrite E1 in Hd. injection Hd as <-. by apply H1.
    + rewrite E2 in Hd. injection Hd as <-. by apply H2.
Qed.

(** X7: the link field of a returned record tells whether navigation
    succeeded: it holds the URL when [page.goto] returned, whatever
    failed later, and [Error] when [page.goto] raised. *)
Theorem approval_link_tells_navigation dp url :
  dp_new_page dp = Ok tt -> dp_close dp = Ok tt ->
  let link := match dp_goto dp with Ok _ => url | Err => "Error" end in
  field (V1.extract_detail_page dp url) "Approval Link" = Some link
  /\ field (V2.extract_detail_page dp url) "Approval Link" = Some link.
Proof.
  intros Hopen Hclose link. subst link.
  destruct (dp_goto dp) as [[]|] eqn:Hgoto.
  2:{ destruct (body_unreachable dp url Hgoto) as [E1 E2].
      destruct (v1_fetch dp url ∅ Hopen Hclose) as [_ ->]; [|done].
      destruct (v2_fetch dp url ∅ Hopen Hclose) as [_ ->]; [|done].
      by split; unfold field; rewrite fill_error_empty. }
  destruct (heading_cases dp) as [Hh1|Hh1].
  { destruct (body_unreadable_heading dp url Hgoto Hh1) as [E1 E2].
    destruct (v1_fetch dp url (<["Approval Link" := url]> ∅) Hopen Hclose) as [_ ->]; [|done].
    destruct (v2_fetch dp url (<["Approval Link" := url]> ∅) Hopen Hclose) as [_ ->]; [|done].
    by split; unfold field; rewrite fill_error_lookup, lookup_insert_eq. }
  split.
  - destruct (banner_cases dp) as [[text Hb]|[Hne Hb]].
    + destruct (v1_fetch dp url (v1_fields dp url (banner_lines text)) Hopen Hclose)
        as [-> _]; [|by apply v1_body_returns].
      unfold field, v1_fields. rewrite !lookup_insert_ne by done.
      rewrite fold_banner_line_other by done.
      rewrite !lookup_insert_ne by done. apply lookup_insert_eq.
    + destruct (v1_fetch dp url
                  (<["Approval Name" := heading_text dp]> (<["Approval Link" := url]> ∅))
                  Hopen Hclose) as [_ ->]; [|by apply v1_body_strict_banner].
      unfold field. rewrite fill_error_lookup, lookup_insert_ne, lookup_insert_eq by done.
      done.
  - destruct (v2_fetch dp url
                (v2_fields dp url
                   (if String.eqb (V2.safe_extract_text (dp_banners dp)) "N/A" then []
                    else banner_lines (V2.safe_extract_text (dp_banners dp))))
                Hopen Hclose) as [-> _]; [|by apply v2_body_returns].
    unfold field, v2_fields. rewrite !lookup_insert_ne by done.
    rewrite fold_banner_line_other by done.
    rewrite !lookup_insert_ne by done. apply lookup_insert_eq.
Qed.

(** X7 on a page that cannot be reached and on one whose heading cannot
    be read. *)
Lemma approval_link_witness :
  (field (V1.extract_detail_page unreachable_page "https://www.nsws.gov.in/approval/1")
     "Approval Link" = Some "Error"
   /\ field (V2.extract_detail_page unreachable_page "https://www.nsws.gov.in/approval/1")
        "Approval Link" = Some "Error")
  /\ (field (V1.extract_detail_page broken_heading_page "https://www.nsws.gov.in/approval/1")
        "Approval Link" = Some "https://www.nsws.gov.in/approval/1"
      /\ field (V2.extract_detail_page broken_heading_page
                  "https://www.nsws.gov.in/approval/1")
           "Approval Link" = Some "https://www.nsws.gov.in/approval/1").
Proof.
  split.
  - apply (approval_link_tells_navigation unreachable_page); reflexivity.
  - apply (approval_link_tells_navigation broken_heading_page); reflexivity.
Defined.

(** X8: when navigation succeeds and the text of the first [h1] cannot
    be read, the record of either variant holds the URL in the link
    field and [Error] in the other eleven. *)
Theorem unreadable_heading_record dp url :
  dp_new_page dp = Ok tt -> dp_close dp = Ok tt ->
  dp_goto dp = Ok tt -> dp_h1 dp = Some Err ->
  forall k, k ∈ ALL_HEADERS ->
    field (V1.extract_detail_page dp url) k
    = Some (if String.eqb k "Approval Link" then url else "Error")
    /\ field (V2.extract_detail_page dp url) k
       = Some (if String.eqb k "Approval Link" then url else "Error").
Proof.
  intros Hopen Hclose Hgoto Hh1 k Hk.
  destruct (body_unreadable_heading dp url Hgoto Hh1) as [E1 E2].
  destruct (v1_fetch dp url (<["Approval Link" := url]> ∅) Hopen Hclose) as [_ ->]; [|done].
  destruct (v2_fetch dp url (<["Approval Link" := url]> ∅) Hopen Hclose) as [_ ->]; [|done].
  unfold field. rewrite fill_error_lookup.
  destruct (String.eqb_spec k "Approval Link") as [->|Hne].
  - by rewrite lookup_insert_eq.
  - rewrite lookup_insert_ne, lookup_empty, bool_decide_eq_true_2 by done. done.
Qed.

(** X8 on the validity field of a page whose heading cannot be read. *)
Lemma unreadable_heading_witness :
  field (V1.extract_detail_page broken_heading_page "https://www.nsws.gov.in/approval/1")
    "Validity" = Some "Error"
  /\ field (V2.extract_detail_page broken_heading_page "https://www.nsws.gov.in/approval/1")
       "Validity" = Some "Error".
Proof.
  apply (unreadable_heading_record broken_heading_page
           "https://www.nsws.gov.in/approval/1" eq_refl eq_refl eq_refl eq_refl "Validity").
  is_a_header.
Defined.

(** X9: on a page with two or more banner elements the first variant
    reads the banner through a locator that matches more than one
    element, which raises: its record holds the link and the name and
    [Error] in the other ten fields.  The second variant reads the first
    banner element only and completes the record. *)
Theorem second_banner_breaks_first_variant dp url :
  dp_new_page dp = Ok tt -> dp_close dp = Ok tt ->
  dp_goto dp = Ok tt -> dp_h1 dp <> Some Err ->
  2 <= length (dp_banners dp) ->
  (forall k, k ∈ ALL_HEADERS ->
     field (V1.extract_detail_page dp url) k
     = Some (if String.eqb k "Approval Link" then url
             else if String.eqb k "Approval Name" then heading_text dp
             else "Error"))
  /\ field (V2.extract_detail_page dp url) "Approval Name" = Some (heading_text dp)
  /\ field (V2.extract_detail_page dp url) "Can be applied through NSWS"
     = Some (nsws_applicability dp).
Proof.
  intros Hopen Hclose Hgoto Hh1 Hlen. split.
  - intros k Hk.
    destruct (v1_fetch dp url
                (<["Approval Name" := heading_text dp]> (<["Approval Link" := url]> ∅))
                Hopen Hclose) as [_ ->].
    + unfold field. rewrite fill_error_lookup.
      destruct (String.eqb_spec k "Approval Link") as [->|Hne1].
      { by rewrite lookup_insert_ne, lookup_insert_eq. }
      destruct (String.eqb_spec k "Approval Name") as [->|Hne2].
      { by rewrite lookup_insert_eq. }
      rewrite !lookup_insert_ne, lookup_empty, bool_decide_eq_true_2 by done. done.
    + apply v1_body_strict_banner; auto.
      * destruct (dp_banners dp); simpl in *; [lia|done].
      * destruct (dp_banners dp) as [|? [|? ?]]; simpl in *; [lia|lia|done].
  - destruct (v2_fetch dp url
                (v2_fields dp url
                   (if String.eqb (V2.safe_extract_text (dp_banners dp)) "N/A" then []
                    else banner_lines (V2.safe_extract_text (dp_banners dp))))
                Hopen Hclose) as [-> _]; [|by apply v2_body_returns].
    unfold field, v2_fields. split; [|apply lookup_insert_eq].
    rewrite !lookup_insert_ne by done.
    rewrite fold_banner_line_other by done.
    rewrite !lookup_insert_ne by done. apply lookup_insert_eq.
Qed.

(** X9 on a page with two banner elements. *)
Lemma second_banner_witness :
  field (V1.extract_detail_page two_banner_page "https://www.nsws.gov.in/approval/1")
    "Ministry Name" = Some "Error"
  /\ field (V2.extract_detail_page two_banner_page "https://www.nsws.gov.in/approval/1")
       "Approval Name" = Some "Trade Licence"
  /\ field (V2.extract_detail_page two_banner_page "https://www.nsws.gov.in/approval/1")
       "Can be applied through NSWS" = Some "No (Information Only)".
Proof.
  assert (Hh1 : dp_h1 two_banner_page <> Some Err) by discriminate.
  assert (Hlen : 2 <= length (dp_banners two_banner_page)) by (simpl; lia).
  destruct (second_banner_breaks_first_variant two_banner_page
              "https://www.nsws.gov.in/approval/1" eq_refl eq_refl eq_refl Hh1 Hlen)
    as (H1 & H2 & H3).
  split; [|split; [exact H2 | exact H3]].
  apply (H1 "Ministry Name"). is_a_header.
Defined.

(** X10: the first variant takes as ministry name the last stripped,
    non-blank line of the banner that holds "Ministry", and as
    department name the last one that holds "Department"; where no line
    does, the field is [N/A]. *)
Theorem banner_last_line_wins dp url text :
  dp_new_page dp = Ok tt -> dp_close dp = Ok tt ->
  dp_goto dp = Ok tt -> dp_h1 dp <> Some Err ->
  banner_reads dp text ->
  field (V1.extract_detail_page dp url) "Ministry Name"
  = Some (List.last (naming "Ministry" (banner_lines text)) "N/A")
  /\ field (V1.extract_detail_page dp url) "Department Name"
     = Some (List.last (naming "Department" (banner_lines text)) "N/A").
Proof.
  intros Hopen Hclose Hgoto Hh1 Hb.
  destruct (v1_fetch dp url (v1_fields dp url (banner_lines text)) Hopen Hclose) as [-> _].
  - unfold field, v1_fields. rewrite !lookup_insert_ne by done. split.
    + apply fold_banner_line_ministry.
      rewrite lookup_insert_ne by done. apply lookup_insert_eq.
    + apply fold_banner_line_department. apply lookup_insert_eq.
  - by apply v1_body_returns.
Qed.

(** X10 on a banner of three lines, two of which hold "Ministry". *)
Lemma banner_last_line_witness :
  field (V1.extract_detail_page banner_page "https://www.nsws.gov.in/approval/1")
    "Ministry Name" = Some "Ministry of Z"
  /\ field (V1.extract_detail_page banner_page "https://www.nsws.gov.in/approval/1")
       "Department Name" = Some "Department of Y".
Proof.
  apply (banner_last_line_wins banner_page "https://www.nsws.gov.in/approval/1"
           ("Ministry of X" +:+ String "010"
              ("Department of Y" +:+ String "010" "Ministry of Z"))).
  - reflexivity.
  - reflexivity.
  - reflexivity.
  - discriminate.
  - right. reflexivity.
Defined.

(** X11: the second variant normalizes the banner before it splits it
    into lines, and a normalized text holds no line break: the banner is
    one line.  The ministry name is therefore the whole normalized
    banner when "Ministry" occurs in it and [N/A] otherwise, and the
    department name likewise; a banner that names both gives both fields
    the same text. *)
Theorem banner_is_one_line_in_second_variant dp url :
  dp_new_page dp = Ok tt -> dp_close dp = Ok tt ->
  dp_goto dp = Ok tt -> dp_h1 dp <> Some Err ->
  let banner_text := V2.safe_extract_text (dp_banners dp) in
  field (V2.extract_detail_page dp url) "Ministry Name"
  = Some (if Py.contains "Ministry" banner_text then banner_text else "N/A")
  /\ field (V2.extract_detail_page dp url) "Department Name"
     = Some (if Py.contains "Department" banner_text then banner_text else "N/A").
Proof.
  intros Hopen Hclose Hgoto Hh1 banner_text.
  destruct (v2_fetch dp url
              (v2_fields dp url
                 (if String.eqb banner_text "N/A" then [] else banner_lines banner_text))
              Hopen Hclose) as [-> _]; [|by apply v2_body_returns].
  unfold field, v2_fields. rewrite !lookup_insert_ne by done.
  assert (Hlines : (if String.eqb banner_text "N/A" then [] else banner_lines banner_text)
                   = if String.eqb banner_text "N/A" then []
                     else if String.eqb banner_text "" then [] else [banner_text]).
  { destruct (String.eqb banner_text "N/A"); [done|].
    subst banner_text. unfold V2.safe_extract_text.
    destruct (dp_banners dp) as [|[text|] ?]; try done.
    apply banner_lines_clean_text. }
  rewrite Hlines. apply fold_one_banner_line.
  - rewrite lookup_insert_ne by done. apply lookup_insert_eq.
  - apply lookup_insert_eq.
Qed.

(** X11 on the banner of three lines. *)
Lemma banner_one_line_witness :
  field (V2.extract_detail_page banner_page "https://www.nsws.gov.in/approval/1")
    "Ministry Name" = Some "Ministry of X Department of Y Ministry of Z"
  /\ field (V2.extract_detail_page banner_page "https://www.nsws.gov.in/approval/1")
       "Department Name" = Some "Ministry of X Department of Y Ministry of Z".
Proof.
  assert (Hh1 : dp_h1 banner_page <> Some Err) by discriminate.
  exact (banner_is_one_line_in_second_variant banner_page
           "https://www.nsws.gov.in/approval/1" eq_refl eq_refl eq_refl Hh1).
Defined.

(** X12: the keywords of a content section are tried in order, and the
    first one that some heading holds decides the field: the first
    variant takes the block that follows the heading, the second the
    sibling block or, without one, the last block of the parent; when
    that block cannot be read the field is [N/A], and no later keyword is
    tried.  Without any heading the field is [N/A]. *)
Theorem section_text_first_heading_decides dp before keyword after header :
  Forall (fun k => dp_heading dp k = None) before ->
  dp_heading dp keyword = Some header ->
  V1.get_section_text dp (before ++ keyword :: after)
  = match hd_following_div header with
    | Ok content => clean_text content
    | Err => "N/A"
    end
  /\ V2.get_section_text dp (before ++ keyword :: after)
     = match hd_sibling header with
       | Some (Ok content) => clean_text content
       | Some Err => "N/A"
       | None =>
           match hd_parent_last_div header with
           | Ok content_parent => clean_text content_parent
           | Err => "N/A"
           end
       end
  /\ V1.get_section_text dp before = "N/A"
  /\ V2.get_section_text dp before = "N/A".
Proof.
  intros Hbefore Hkey.
  induction Hbefore as [|k before Hk _ IH]; simpl.
  - by rewrite Hkey.
  - by rewrite Hk.
Qed.

(** X12 on a page whose only heading holds "Brief". *)
Lemma section_text_witness :
  V1.get_section_text sections_page (["About"] ++ "Brief" :: ["Description"])
  = "A licence to trade"
  /\ V2.get_section_text sections_page (["About"] ++ "Brief" :: ["Description"]) = "N/A"
  /\ V1.get_section_text sections_page ["About"] = "N/A"
  /\ V2.get_section_text sections_page ["About"] = "N/A".
Proof.
  apply (section_text_first_heading_decides sections_page ["About"] "Brief"
           ["Description"] brief_heading).
  - repeat constructor.
  - reflexivity.
Defined.

(** X13: a labeled value is [N/A] when every pattern fails.  In the
    first variant a pattern fails when it matches nothing or its
    container cannot be read; in the second also when fewer than 2
    characters are left beside the label and the next sibling cannot be
    read, and the search then goes on with the next pattern. *)
Theorem labeled_value_failures_move_on dp before rest :
  Forall (given_up dp) before ->
  V2.get_labeled_value dp (before ++ rest) = V2.get_labeled_value dp rest
  /\ V2.get_labeled_value dp before = "N/A"
  /\ (Forall (passed_over dp) before -> V1.get_labeled_value dp before = "N/A").
Proof.
  intros Hbefore.
  assert (Hskip : forall rest,
             V2.get_labeled_value dp (before ++ rest) = V2.get_labeled_value dp rest).
  { clear rest. intros rest.
    induction Hbefore as [|p before Hp _ IH]; [done|].
    cbn [app V2.get_labeled_value].
    destruct Hp as [[Hp|(el & Hp & He)]|(el & full_text & Hp & He & Hlen & Hsib)];
      rewrite Hp; [done|by rewrite He|].
    rewrite He. cbv zeta. apply Nat.ltb_lt in Hlen. by rewrite Hlen, Hsib. }
  split; [apply Hskip|]. split.
  - rewrite <- (app_nil_r before) at 1. by rewrite Hskip.
  - intros Hpassed. rewrite <- (app_nil_r before) at 1.
    by rewrite passed_over_v1.
Qed.

(** X13 on a page where "Fee" stands alone beside an unreadable sibling
    and "Payment" stands beside the amount. *)
Lemma labeled_value_failures_witness :
  V2.get_labeled_value unreadable_sibling_page (["Fee"] ++ ["Payment"; "Cost"; "Price"])
  = V2.get_labeled_value unreadable_sibling_page ["Payment"; "Cost"; "Price"]
  /\ V2.get_labeled_value unreadable_sibling_page ["Fee"] = "N/A".
Proof.
  destruct (labeled_value_failures_move_on unreadable_sibling_page ["Fee"]
              ["Payment"; "Cost"; "Price"]) as (H1 & H2 & _); [|by split].
  constructor; [|constructor]. right. exists lone_fee_label, "Fee: ".
  split; [reflexivity|]. split; [reflexivity|]. split; [|reflexivity].
  vm_compute. lia.
Defined.

(** X14: when removing the label (and, in the second variant, the
    colons) leaves nothing at all of the container's text, the value is
    [N/A]: [clean_text] turns the empty remainder into [N/A], which is
    not shorter than 2 characters, so the second variant does not look
    at the next sibling, whatever it holds. *)
Theorem empty_remainder_is_not_available dp pattern rest el full_text :
  dp_label dp pattern = Some el ->
  lb_parent el = Ok full_text ->
  (Py.replace pattern "" full_text = "" ->
   V1.get_labeled_value dp (pattern :: rest) = "N/A")
  /\ (Py.replace ":" "" (Py.replace pattern "" full_text) = "" ->
      V2.get_labeled_value dp (pattern :: rest) = "N/A").
Proof.
  intros Hel Hparent. split; intros Hempty.
  - cbn [V1.get_labeled_value]. by rewrite Hel, Hparent, Hempty.
  - cbn [V2.get_labeled_value]. rewrite Hel, Hparent. cbv zeta. by rewrite Hempty.
Qed.

(** X14 on a page where "Fee:" is followed by a sibling that holds the
    amount. *)
Lemma empty_remainder_witness :
  V2.get_labeled_value bare_fee_page ("Fee" :: ["Payment"; "Cost"; "Price"]) = "N/A".
Proof.
  destruct (empty_remainder_is_not_available bare_fee_page "Fee"
              ["Payment"; "Cost"; "Price"] bare_fee_label "Fee:" eq_refl eq_refl)
    as [_ H].
  apply H. reflexivity.
Defined.

(** X15: the name field of a returned record is [Error] when navigation
    fails or the text of the first [h1] cannot be read, [N/A] when the
    page has no [h1], and the normalized text of the first [h1]
    otherwise, whatever fails later in the fetch. *)
Theorem approval_name_rule dp url :
  dp_new_page dp = Ok tt -> dp_close dp = Ok tt ->
  let name := match dp_goto dp, dp_h1 dp with
              | Err, _ => "Error"
              | Ok _, Some Err => "Error"
              | Ok _, Some (Ok text) => clean_text text
              | Ok _, None => "N/A"
              end in
  field (V1.extract_detail_page dp url) "Approval Name" = Some name
  /\ field (V2.extract_detail_page dp url) "Approval Name" = Some name.
Proof.
  intros Hopen Hclose name. subst name.
  destruct (dp_goto dp) as [[]|] eqn:Hgoto.
  2:{ destruct (body_unreachable dp url Hgoto) as [E1 E2].
      destruct (v1_fetch dp url ∅ Hopen Hclose) as [_ ->]; [|done].
      destruct (v2_fetch dp url ∅ Hopen Hclose) as [_ ->]; [|done].
      by split; unfold field; rewrite fill_error_empty. }
  destruct (heading_cases dp) as [Hh1|Hh1].
  { destruct (body_unreadable_heading dp url Hgoto Hh1) as [E1 E2].
    destruct (v1_fetch dp url (<["Approval Link" := url]> ∅) Hopen Hclose) as [_ ->]; [|done].
    destruct (v2_fetch dp url (<["Approval Link" := url]> ∅) Hopen Hclose) as [_ ->]; [|done].
    rewrite Hh1.
    by split; unfold field; rewrite fill_error_lookup, lookup_insert_ne. }
  assert (Hname : match dp_h1 dp with
                  | Some (Ok text) => clean_text text
                  | Some Err => "Error"
                  | None => "N/A"
                  end = heading_text dp).
  { unfold heading_text. by destruct (dp_h1 dp) as [[?|]|]. }
  rewrite Hname. split.
  - destruct (banner_cases dp) as [[text Hb]|[Hne Hb]].
    + destruct (v1_fetch dp url (v1_fields dp url (banner_lines text)) Hopen Hclose)
        as [-> _]; [|by apply v1_body_returns].
      unfold field, v1_fields. rewrite !lookup_insert_ne by done.
      rewrite fold_banner_line_other by done.
      rewrite !lookup_insert_ne by done. apply lookup_insert_eq.
    + destruct (v1_fetch dp url
                  (<["Approval Name" := heading_text dp]> (<["Approval Link" := url]> ∅))
                  Hopen Hclose) as [_ ->]; [|by apply v1_body_strict_banner].
      unfold field. by rewrite fill_error_lookup, lookup_insert_eq.
  - destruct (v2_fetch dp url
                (v2_fields dp url
                   (if String.eqb (V2.safe_extract_text (dp_banners dp)) "N/A" then []
                    else banner_lines (V2.safe_extract_text (dp_banners dp))))
                Hopen Hclose) as [-> _]; [|by apply v2_body_returns].
    unfold field, v2_fields. rewrite !lookup_insert_ne by done.
    rewrite fold_banner_line_other by done.
    rewrite !lookup_insert_ne by done. apply lookup_insert_eq.
Qed.

(** X15 on a page with a heading and on a page whose heading cannot be
    read. *)
Lemma approval_name_witness :
  (field (V1.extract_detail_page plain_page "https://www.nsws.gov.in/approval/1")
     "Approval Name" = Some "Trade Licence"
   /\ field (V2.extract_detail_page plain_page "https://www.nsws.gov.in/approval/1")
        "Approval Name" = Some "Trade Licence")
  /\ (field (V1.extract_detail_page broken_heading_page "https://www.nsws.gov.in/approval/1")
        "Approval Name" = Some "Error"
      /\ field (V2.extract_detail_page broken_heading_page
                  "https://www.nsws.gov.in/approval/1")
           "Approval Name" = Some "Error").
Proof.
  split.
  - exact (approval_name_rule plain_page "https://www.nsws.gov.in/approval/1"
             eq_refl eq_refl).
  - exact (approval_name_rule broken_heading_page "https://www.nsws.gov.in/approval/1"
             eq_refl eq_refl).
Defined.

(** ** The card loop and the pagination walker *)

Lemma header_if_new_existing (fs : gmap string (list Line)) filepath headers lines :
  header_if_new (<[filepath := lines]> fs) filepath headers = [].
Proof.
  unfold header_if_new. rewrite lookup_insert_eq. by rewrite bool_decide_eq_true_2 by eauto.
Qed.

(** Rows written in two goes are the rows written in one. *)
Lemma write_rows_app filepath headers rows1 rows2 fs :
  write_rows filepath headers rows2 (write_rows filepath headers rows1 fs)
  = write_rows filepath headers (rows1 ++ rows2) fs.
Proof.
  destruct rows1 as [|r1 rows1]; [done|].
  destruct rows2 as [|r2 rows2]; [by rewrite app_nil_r|].
  unfold write_rows. cbn [app].
  rewrite insert_insert_eq. f_equal.
  rewrite lookup_insert_eq, header_if_new_existing. cbn [default app]. unfold id.
  rewrite <- !app_assoc. f_equal. f_equal.
  symmetry. apply (map_app Row (r1 :: rows1) (r2 :: rows2)).
Qed.

Section Rows.
Variable urljoin : string -> string -> string.
Variable extract : DetailPage -> string -> result (gmap string string).
Variable site : Site.
Variables (csv_path : string) (headers : list string).
Variable extra : option (gmap string string).

Lemma process_card_row card w :
  process_card urljoin extract site csv_path headers extra card w
  = (with_fs (write_rows csv_path headers
                (option_list (card_row urljoin extract site headers extra card)) (w_fs w)) w,
     Returns tt).
Proof.
  unfold process_card, card_row, try_except, bind, call, ret.
  destruct w as [fs checked page visits]. unfold with_fs. cbn [w_fs w_checked w_page w_visits].
  destruct (card_href card) as [[href|]|]; try done.
  destruct (Py.truthy href); try done.
  destruct (extract _ _) as [row_data|]; try done.
  unfold on_fs. cbn [w_fs w_checked w_page w_visits].
  by rewrite write_to_csv_safe_row.
Qed.

Lemma for_each_cards_rows cards : forall w,
  for_each (process_card urljoin extract site csv_path headers extra) cards w
  = (with_fs (write_rows csv_path headers
                (omap (card_row urljoin extract site headers extra) cards) (w_fs w)) w,
     Returns tt).
Proof.
  induction cards as [|card cards IH]; intros w.
  - by destruct w.
  - cbn [for_each]. erewrite bind_returns by apply process_card_row.
    rewrite IH. f_equal. cbn [omap list_omap].
    unfold with_fs. cbn [w_fs w_checked w_page w_visits].
    rewrite write_rows_app.
    by destruct (card_row urljoin extract site headers extra card).
Qed.
End Rows.

(** X16: the card loop never stops early and never raises: a card
    without a link, with an empty link, or whose record cannot be
    fetched is skipped, every other card adds one row, in the order of
    the cards, and the header goes first when the file is new and a row
    is written; the results view is left as it is. *)
Theorem card_loop_skips_failed_cards urljoin extract site csv_path headers extra cards w :
  let rows := omap (card_row urljoin extract site headers extra) cards in
  for_each (process_card urljoin extract site csv_path headers extra) cards w
  = (with_fs (write_rows csv_path headers rows (w_fs w)) w, Returns tt)
  /\ length rows <= length cards
  /\ (Forall (fun card => is_Some (card_row urljoin extract site headers extra card)) cards ->
      length rows = length cards).
Proof.
  intros rows. split; [apply for_each_cards_rows|]. subst rows.
  induction cards as [|card cards [IH1 IH2]]; [by split|].
  cbn [omap list_omap].
  destruct (card_row urljoin extract site headers extra card) as [row|] eqn:Hrow; simpl.
  - split; [lia|]. intros [_ Hall]%Forall_cons. by rewrite IH2.
  - split; [lia|]. intros [Hsome _]%Forall_cons.
    rewrite Hrow in Hsome. by apply is_Some_None in Hsome.
Qed.

Section WalkRows.
Variable urljoin : string -> string -> string.
Variable site : Site.
Variables (csv_path : string) (headers : list string).
Variable extra : option (gmap string string).

Lemma walker_v1_rows rest : forall done last fuel w,
  s_listing site (w_checked w) = done ++ rest ++ [last] ->
  w_page w = length done ->
  Forall (fun p => next_on p = true /\ click_answered p = true) rest ->
  next_off last = true ->
  length rest < fuel ->
  V1.handle_pagination_and_extraction urljoin site fuel csv_path headers extra w
  = ({| w_fs := write_rows csv_path headers
                  (concat (map (page_rows urljoin V1.extract_detail_page site headers extra)
                             (rest ++ [last])))
                  (w_fs w);
        w_checked := w_checked w;
        w_page := w_page w + length rest;
        w_visits := w_visits w + length rest + 1 |},
     Returns tt).
Proof.
  induction rest as [|p rest IH]; intros done last fuel w Hlist Hpage Hrest Hlast Hfuel;
    (destruct fuel as [|fuel]; [simpl in Hfuel; lia|]);
    cbn [app] in Hlist;
    cbn [V1.handle_pagination_and_extraction];
    unfold bind at 1; unfold modify at 1;
    unfold bind at 1; unfold bind at 1, get at 1, ret at 1;
    unfold current_page; cbn [w_page w_checked visit];
    rewrite Hlist, Hpage, nth_middle_page;
    erewrite bind_returns by apply for_each_cards_rows.
  - unfold next_off in Hlast.
    cbn [app map concat]. rewrite app_nil_r.
    fold (page_rows urljoin V1.extract_detail_page site headers extra last).
    destruct (rp_next last) as [next_li|].
    + destruct (li_class next_li) as [class|]; [|done].
      unfold bind, call. rewrite Hlast. unfold ret, with_fs. simpl.
      do 2 f_equal; lia.
    + unfold ret, with_fs. simpl. do 2 f_equal; lia.
  - apply Forall_cons in Hrest as [[Hon Hclick] Hrest].
    unfold next_on in Hon. unfold click_answered in Hclick.
    destruct (rp_next p) as [next_li|]; [|done].
    destruct (li_class next_li) as [class|]; [|done].
    apply negb_true_iff in Hon.
    destruct (li_button next_li) as [|[[]|] response]; try done. subst response.
    unfold bind at 1, call at 1. rewrite Hon.
    unfold bind at 1, try_except, bind, call, modify, ret.
    rewrite (IH (done ++ [p]) last fuel).
    + unfold with_fs. cbn [w_fs w_checked w_page w_visits next_page visit].
      cbn [app map concat]. rewrite <- write_rows_app.
      fold (page_rows urljoin V1.extract_detail_page site headers extra p).
      do 2 f_equal; simpl; lia.
    + rewrite <- app_assoc. simpl in *. done.
    + rewrite length_app. simpl in *. lia.
    + done.
    + done.
    + simpl in Hfuel. lia.
Qed.

Lemma walker_v2_rows rest : forall done last fuel w,
  s_listing site (w_checked w) = done ++ rest ++ [last] ->
  w_page w = length done ->
  Forall (fun p => cards_show p = true /\ next_on p = true /\ click_succeeds p = true) rest ->
  cards_show last = true ->
  next_off last = true ->
  length rest < fuel ->
  V2.handle_pagination_and_extraction urljoin site fuel csv_path headers extra w
  = ({| w_fs := write_rows csv_path headers
                  (concat (map (page_rows urljoin V2.extract_detail_page site headers extra)
                             (rest ++ [last])))
                  (w_fs w);
        w_checked := w_checked w;
        w_page := w_page w + length rest;
        w_visits := w_visits w + length rest + 1 |},
     Returns tt).
Proof.
  induction rest as [|p rest IH];
    intros done last fuel w Hlist Hpage Hrest Hshow Hlast Hfuel;
    (destruct fuel as [|fuel]; [simpl in Hfuel; lia|]);
    cbn [app] in Hlist;
    cbn [V2.handle_pagination_and_extraction];
    unfold bind at 1; unfold modify at 1;
    unfold bind at 1; unfold bind at 1, get at 1, ret at 1;
    unfold current_page; cbn [w_page w_checked visit];
    rewrite Hlist, Hpage, nth_middle_page;
    erewrite bind_returns by apply wait_for_cards.
  - unfold cards_show in Hshow.
    destruct (rp_wait_cards last) as [[]|]; [|done]. cbn [negb].
    erewrite bind_returns by apply for_each_cards_rows.
    unfold next_off in Hlast.
    cbn [app map concat]. rewrite app_nil_r.
    fold (page_rows urljoin V2.extract_detail_page site headers extra last).
    destruct (rp_next last) as [next_li|].
    + destruct (li_class next_li) as [class|]; [|done].
      unfold bind, call. rewrite Hlast. unfold ret, with_fs. simpl.
      do 2 f_equal; lia.
    + unfold ret, with_fs. simpl. do 2 f_equal; lia.
  - apply Forall_cons in Hrest as [(Hp & Hon & Hclick) Hrest].
    unfold cards_show in Hp.
    destruct (rp_wait_cards p) as [[]|]; [|done]. cbn [negb].
    erewrite bind_returns by apply for_each_cards_rows.
    unfold next_on in Hon. unfold click_succeeds in Hclick.
    destruct (rp_next p) as [next_li|]; [|done].
    destruct (li_class next_li) as [class|]; [|done].
    apply negb_true_iff in Hon.
    destruct (li_button next_li) as [|[[]|] response]; try done.
    unfold bind at 1, call at 1. rewrite Hon.
    unfold bind at 1, try_except, bind, call, modify, ret.
    rewrite (IH (done ++ [p]) last fuel).
    + unfold with_fs. cbn [w_fs w_checked w_page w_visits next_page visit].
      cbn [app map concat]. rewrite <- write_rows_app.
      fold (page_rows urljoin V2.extract_detail_page site headers extra p).
      do 2 f_equal; simpl; lia.
    + rewrite <- app_assoc. simpl in *. done.
    + rewrite length_app. simpl in *. lia.
    + done.
    + done.
    + done.
    + simpl in Hfuel. lia.
Qed.

Lemma walkable_v1_split pages :
  walkable_v1 pages = true ->
  exists earlier last,
    pages = earlier ++ [last]
    /\ Forall (fun p => next_on p = true /\ click_answered p = true) earlier
    /\ next_off last = true.
Proof.
  induction pages as [|p rest IH]; [done|]. cbn [walkable_v1].
  destruct rest as [|q rest].
  - intros H. exists [], p. by repeat split.
  - intros [[Hon Hclick]%andb_true_iff Hrest]%andb_true_iff.
    destruct (IH Hrest) as (earlier & last & -> & Hall & Hlast).
    exists (p :: earlier), last. split; [done|]. split; [|done].
    by constructor.
Qed.

Lemma walkable_v2_split pages :
  walkable_v2 pages = true ->
  exists earlier last,
    pages = earlier ++ [last]
    /\ Forall (fun p => cards_show p = true /\ next_on p = true /\ click_succeeds p = true)
         earlier
    /\ cards_show last = true /\ next_off last = true.
Proof.
  induction pages as [|p rest IH]; [done|]. cbn [walkable_v2].
  destruct rest as [|q rest].
  - intros [Hshow Hoff]%andb_true_iff. exists [], p. by repeat split.
  - intros [Hshow [[Hon Hclick]%andb_true_iff Hrest]%andb_true_iff]%andb_true_iff.
    destruct (IH Hrest) as (earlier & last & -> & Hall & Hlast).
    exists (p :: earlier), last. split; [done|]. split; [|done].
    by constructor.
Qed.

Lemma walk_v1 fuel w :
  w_page w = 0 ->
  walkable_v1 (s_listing site (w_checked w)) = true ->
  length (s_listing site (w_checked w)) <= fuel ->
  V1.handle_pagination_and_extraction urljoin site fuel csv_path headers extra w
  = (walked (write_rows csv_path headers
               (concat (map (page_rows urljoin V1.extract_detail_page site headers extra)
                          (s_listing site (w_checked w))))
               (w_fs w))
       (s_listing site (w_checked w)) w,
     Returns tt).
Proof.
  intros Hpage Hwalk Hfuel.
  destruct (walkable_v1_split _ Hwalk) as (earlier & last & Hlist & Hall & Hlast).
  rewrite Hlist in Hfuel |- *. rewrite length_app in Hfuel. simpl in Hfuel.
  rewrite (walker_v1_rows earlier [] last fuel w); try done; [|lia].
  unfold walked. rewrite length_app. simpl. do 2 f_equal; lia.
Qed.

Lemma walk_v2 fuel w :
  w_page w = 0 ->
  walkable_v2 (s_listing site (w_checked w)) = true ->
  length (s_listing site (w_checked w)) <= fuel ->
  V2.handle_pagination_and_extraction urljoin site fuel csv_path headers extra w
  = (walked (write_rows csv_path headers
               (concat (map (page_rows urljoin V2.extract_detail_page site headers extra)
                          (s_listing site (w_checked w))))
               (w_fs w))
       (s_listing site (w_checked w)) w,
     Returns tt).
Proof.
  intros Hpage Hwalk Hfuel.
  destruct (walkable_v2_split _ Hwalk) as (earlier & last & Hlist & Hall & Hshow & Hlast).
  rewrite Hlist in Hfuel |- *. rewrite length_app in Hfuel. simpl in Hfuel.
  rewrite (walker_v2_rows earlier [] last fuel w); try done; [|lia].
  unfold walked. rewrite length_app. simpl. do 2 f_equal; lia.
Qed.
End WalkRows.

(** X17: on a listing it can walk to the end, the walker returns after
    the last page and has then appended to the sink exactly the rows of
    the linked, fetchable cards of all pages, page by page and card by
    card, after the header when the file was new; it has touched no
    other file and changed no filter. *)
Theorem walker_writes_cards_in_order urljoin site fuel csv_path headers extra w :
  w_page w = 0 ->
  length (s_listing site (w_checked w)) <= fuel ->
  (walkable_v1 (s_listing site (w_checked w)) = true ->
   V1.handle_pagination_and_extraction urljoin site fuel csv_path headers extra w
   = (walked (write_rows csv_path headers
                (concat (map (page_rows urljoin V1.extract_detail_page site headers extra)
                           (s_listing site (w_checked w))))
                (w_fs w))
        (s_listing site (w_checked w)) w,
      Returns tt))
  /\ (walkable_v2 (s_listing site (w_checked w)) = true ->
      V2.handle_pagination_and_extraction urljoin site fuel csv_path headers extra w
      = (walked (write_rows csv_path headers
                   (concat (map (page_rows urljoin V2.extract_detail_page site headers extra)
                              (s_listing site (w_checked w))))
                   (w_fs w))
           (s_listing site (w_checked w)) w,
         Returns tt)).
Proof.
  intros Hpage Hfuel. split; intros Hwalk.
  - by apply walk_v1.
  - by apply walk_v2.
Qed.

(** X17 on a catalog of two pages with three cards. *)
Lemma walker_rows_witness :
  V1.handle_pagination_and_extraction join_path (site_listing two_full_pages) 2
    "All.csv" ALL_HEADERS None (fresh_world ∅)
  = (walked (write_rows "All.csv" ALL_HEADERS
               (concat (map (page_rows join_path V1.extract_detail_page
                               (site_listing two_full_pages) ALL_HEADERS None)
                          two_full_pages))
               ∅)
       two_full_pages (fresh_world ∅),
     Returns tt)
  /\ V2.handle_pagination_and_extraction join_path (site_listing two_full_pages) 2
       "All.csv" ALL_HEADERS None (fresh_world ∅)
     = (walked (write_rows "All.csv" ALL_HEADERS
                  (concat (map (page_rows join_path V2.extract_detail_page
                                  (site_listing two_full_pages) ALL_HEADERS None)
                             two_full_pages))
                  ∅)
          two_full_pages (fresh_world ∅),
        Returns tt).
Proof.
  assert (Hfuel : length (s_listing (site_listing two_full_pages)
                            (w_checked (fresh_world ∅))) <= 2) by (simpl; lia).
  destruct (walker_writes_cards_in_order join_path (site_listing two_full_pages) 2
              "All.csv" ALL_HEADERS None (fresh_world ∅) eq_refl Hfuel) as [H1 H2].
  split; [exact (H1 eq_refl) | exact (H2 eq_refl)].
Defined.

Section Raises.
Variable urljoin : string -> string -> string.
Variable site : Site.
Variables (csv_path : string) (headers : list string).
Variable extra : option (gmap string string).

Lemma current_page_readable w :
  Forall class_readable (s_listing site (w_checked w)) ->
  class_readable (current_page site w).
Proof.
  intros Hall. unfold current_page.
  destruct (nth_in_or_default (w_page w) (s_listing site (w_checked w)) blank_page)
    as [Hin | ->]; [|done].
  rewrite Forall_forall in Hall. apply Hall. by apply list_elem_of_In.
Qed.

(** The step to the next page never raises and sets no filter. *)
Lemma advance_v1 next_li w :
  exists w' b,
    try_except
      (match li_button next_li with
       | Button click response_200 =>
           call click;; modify next_page;;
           if response_200 then ret true else raise
       | NoButton => ret false
       end)
      (ret false) w = (w', Returns b)
    /\ w_checked w' = w_checked w.
Proof.
  unfold try_except, bind, call, modify, ret, raise.
  destruct (li_button next_li) as [|[[]|] [|]]; by eexists _, _.
Qed.

Lemma advance_v2 next_li w :
  exists w' b,
    try_except
      (match li_button next_li with
       | Button click _ => call click;; modify next_page;; ret true
       | NoButton => ret false
       end)
      (ret false) w = (w', Returns b)
    /\ w_checked w' = w_checked w.
Proof.
  unfold try_except, bind, call, modify, ret, raise.
  destruct (li_button next_li) as [|[[]|] ?]; by eexists _, _.
Qed.

Lemma walker_v1_no_raise fuel : forall w,
  Forall class_readable (s_listing site (w_checked w)) ->
  snd (V1.handle_pagination_and_extraction urljoin site fuel csv_path headers extra w)
  <> Raises.
Proof.
  induction fuel as [|fuel IH]; intros w Hall; [done|].
  cbn [V1.handle_pagination_and_extraction].
  unfold bind at 1, modify at 1. unfold bind at 1. unfold bind at 1, get at 1, ret at 1.
  pose proof (current_page_readable (visit w) Hall) as Hpage.
  destruct (for_each_cards_steady urljoin V1.extract_detail_page site csv_path headers
              extra (rp_cards (current_page site (visit w))) (visit w))
    as (w1 & H1 & Sc & _).
  erewrite bind_returns by exact H1.
  unfold class_readable in Hpage.
  destruct (rp_next (current_page site (visit w))) as [next_li|]; [|done].
  destruct (li_class next_li) as [class|]; [|done].
  unfold bind at 1, call at 1.
  destruct (Py.contains _ _); [done|].
  destruct (advance_v1 next_li w1) as (w2 & b & H2 & Hc).
  erewrite bind_returns by exact H2.
  destruct b; [|done].
  apply IH. rewrite Hc, Sc. exact Hall.
Qed.

Lemma walker_v2_no_raise fuel : forall w,
  Forall class_readable (s_listing site (w_checked w)) ->
  snd (V2.handle_pagination_and_extraction urljoin site fuel csv_path headers extra w)
  <> Raises.
Proof.
  induction fuel as [|fuel IH]; intros w Hall; [done|].
  cbn [V2.handle_pagination_and_extraction].
  unfold bind at 1, modify at 1. unfold bind at 1. unfold bind at 1, get at 1, ret at 1.
  pose proof (current_page_readable (visit w) Hall) as Hpage.
  erewrite bind_returns by apply wait_for_cards.
  destruct (rp_wait_cards (current_page site (visit w))) as [[]|]; [|done]. cbn [negb].
  destruct (for_each_cards_steady urljoin V2.extract_detail_page site csv_path headers
              extra (rp_cards (current_page site (visit w))) (visit w))
    as (w1 & H1 & Sc & _).
  erewrite bind_returns by exact H1.
  unfold class_readable in Hpage.
  destruct (rp_next (current_page site (visit w))) as [next_li|]; [|done].
  destruct (li_class next_li) as [class|]; [|done].
  unfold bind at 1, call at 1.
  destruct (Py.contains _ _); [done|].
  destruct (advance_v2 next_li w1) as (w2 & b & H2 & Hc).
  erewrite bind_returns by exact H2.
  destruct b; [|done].
  apply IH. rewrite Hc, Sc. exact Hall.
Qed.

Lemma walker_unreadable_class fuel w next_li :
  rp_next (current_page site w) = Some next_li -> li_class next_li = Err ->
  snd (V1.handle_pagination_and_extraction urljoin site (S fuel) csv_path headers extra w)
  = Raises
  /\ (cards_show (current_page site w) = true ->
      snd (V2.handle_pagination_and_extraction urljoin site (S fuel) csv_path headers
             extra w) = Raises).
Proof.
  intros Hnext Hclass.
  change (current_page site w) with (current_page site (visit w)) in Hnext |- *.
  split; [|intros Hshow; unfold cards_show in Hshow].
  - cbn [V1.handle_pagination_and_extraction].
    unfold bind at 1, modify at 1. unfold bind at 1. unfold bind at 1, get at 1, ret at 1.
    destruct (for_each_cards_steady urljoin V1.extract_detail_page site csv_path headers
                extra (rp_cards (current_page site (visit w))) (visit w))
      as (w1 & H1 & _).
    erewrite bind_returns by exact H1.
    rewrite Hnext. unfold bind, call. by rewrite Hclass.
  - cbn [V2.handle_pagination_and_extraction].
    unfold bind at 1, modify at 1. unfold bind at 1. unfold bind at 1, get at 1, ret at 1.
    erewrite bind_returns by apply wait_for_cards.
    destruct (rp_wait_cards (current_page site (visit w))) as [[]|]; [|done]. cbn [negb].
    destruct (for_each_cards_steady urljoin V2.extract_detail_page site csv_path headers
                extra (rp_cards (current_page site (visit w))) (visit w))
      as (w1 & H1 & _).
    erewrite bind_returns by exact H1.
    rewrite Hnext. unfold bind, call. by rewrite Hclass.
Qed.
End Raises.

(** X18: the walker lets an exception out only when the class attribute
    of a "next" item cannot be read (counting the matches of a locator
    is taken not to fail): a failing card, a failing click, a missing
    response end the card or the walk without an exception.  When the
    attribute of the page it is on cannot be read, the walker does
    raise, once the cards of that page have been handled. *)
Theorem walker_raises_only_on_unreadable_class urljoin site fuel csv_path headers extra w :
  (Forall class_readable (s_listing site (w_checked w)) ->
   snd (V1.handle_pagination_and_extraction urljoin site fuel csv_path headers extra w)
   <> Raises
   /\ snd (V2.handle_pagination_and_extraction urljoin site fuel csv_path headers extra w)
      <> Raises)
  /\ (forall next_li,
        rp_next (current_page site w) = Some next_li -> li_class next_li = Err ->
        snd (V1.handle_pagination_and_extraction urljoin site (S fuel) csv_path headers
               extra w) = Raises
        /\ (cards_show (current_page site w) = true ->
            snd (V2.handle_pagination_and_extraction urljoin site (S fuel) csv_path
                   headers extra w) = Raises)).
Proof.
  split.
  - intros Hall. split.
    + by apply walker_v1_no_raise.
    + by apply walker_v2_no_raise.
  - intros next_li Hnext Hclass. by apply walker_unreadable_class with (next_li := next_li).
Qed.

(** X18 on the catalog without cards on its first page, and on a page
    whose "next" item does not give its class. *)
Lemma walker_raises_witness :
  (snd (V1.handle_pagination_and_extraction join_path (site_listing empty_first_page) 5
          "All.csv" ALL_HEADERS None (fresh_world ∅)) <> Raises
   /\ snd (V2.handle_pagination_and_extraction join_path (site_listing empty_first_page) 5
             "All.csv" ALL_HEADERS None (fresh_world ∅)) <> Raises)
  /\ snd (V1.handle_pagination_and_extraction join_path (site_listing [stuck_page]) 1
            "All.csv" ALL_HEADERS None (fresh_world ∅)) = Raises.
Proof.
  split.
  - destruct (walker_raises_only_on_unreadable_class join_path
                (site_listing empty_first_page) 5 "All.csv" ALL_HEADERS None
                (fresh_world ∅)) as [H _].
    apply H. constructor; [discriminate|]. constructor; [discriminate|]. constructor.
  - destruct (walker_raises_only_on_unreadable_class join_path
                (site_listing [stuck_page]) 0 "All.csv" ALL_HEADERS None
                (fresh_world ∅)) as [_ H].
    destruct (H {| li_class := Err; li_button := NoButton |} eq_refl eq_refl) as [H1 _].
    exact H1.
Defined.

(** ** The filter iterator *)

Lemma filter_ne_notin (id : nat) (cs : list nat) :
  id ∉ cs -> filter (fun j => j ≠ id) cs = cs.
Proof.
  induction cs as [|c cs IH]; [done|].
  intros [Hne Hcs]%not_elem_of_cons. rewrite filter_cons.
  destruct (decide (c ≠ id)) as [_|Hn]; [by rewrite IH|].
  exfalso. apply Hn. congruence.
Qed.

Lemma toggle_on id w :
  id ∉ w_checked w ->
  toggle id w = {| w_fs := w_fs w; w_checked := w_checked w ++ [id];
                   w_page := 0; w_visits := w_visits w |}.
Proof. intros H. unfold toggle. by rewrite bool_decide_eq_false_2. Qed.

Lemma toggle_off id w cs :
  w_checked w = cs ++ [id] -> id ∉ cs ->
  toggle id w = {| w_fs := w_fs w; w_checked := cs; w_page := 0; w_visits := w_visits w |}.
Proof.
  intros E H. unfold toggle. rewrite E.
  rewrite bool_decide_eq_true_2 by (apply elem_of_app; right; constructor).
  rewrite filter_app, filter_ne_notin by done.
  rewrite filter_cons, filter_nil.
  destruct (decide (id ≠ id)) as [Hn|_]; [by destruct Hn|by rewrite app_nil_r].
Qed.

Section Turn.
Variable urljoin : string -> string -> string.
Variable site : Site.
Variables (csv_path : string) (headers : list string) (key : string).

Lemma filter_turn_v1_ok fuel section_name checkboxes i cb w :
  checkboxes !! i = Some cb ->
  w_checked w = [] ->
  filter_ok walkable_v1 site fuel cb ->
  V1.filter_turn urljoin site fuel section_name csv_path headers key checkboxes i w
  = ({| w_fs := write_rows csv_path headers
                  (filter_rows urljoin V1.extract_detail_page site headers key cb) (w_fs w);
        w_checked := []; w_page := 0;
        w_visits := w_visits w + length (s_listing site [cb_id cb]) |},
     Returns checkboxes).
Proof.
  intros Hcb Hnone (([raw Htext] & Hscroll & Hcheck & Huncheck) & Hwalk & Hfuel).
  unfold V1.filter_turn, click_checkbox. rewrite Hcb.
  unfold try_except at 1.
  unfold bind at 1, call at 1. unfold bind at 1, call at 1. rewrite Htext.
  unfold bind at 1, call at 1. rewrite Hscroll.
  unfold bind at 1. unfold bind at 1, get at 1. unfold bind at 1.
  rewrite bool_decide_eq_false_2 by (rewrite Hnone; apply not_elem_of_nil).
  unfold call at 1. rewrite Hcheck. unfold modify at 1.
  rewrite toggle_on by (rewrite Hnone; apply not_elem_of_nil).
  rewrite Hnone. cbn [app].
  unfold bind at 1. rewrite walk_v1; [|done|done|done].
  unfold walked. cbn [w_fs w_checked w_page w_visits].
  unfold bind at 1. unfold bind at 1, get at 1. unfold bind at 1.
  cbn [w_checked].
  rewrite bool_decide_eq_true_2 by constructor.
  unfold call at 1. rewrite Huncheck. unfold modify at 1.
  rewrite (toggle_off _ _ []) by (done || apply not_elem_of_nil).
  unfold ret. cbn [w_fs w_checked w_page w_visits].
  unfold filter_rows, box_label. by rewrite Htext.
Qed.

Lemma filter_turn_v2_ok fuel target_block checkboxes i cb w :
  checkboxes !! i = Some cb ->
  w_checked w = [] ->
  filter_ok walkable_v2 site fuel cb ->
  V2.filter_turn urljoin site fuel csv_path headers key target_block checkboxes i w
  = ({| w_fs := write_rows csv_path headers
                  (filter_rows urljoin V2.extract_detail_page site headers key cb) (w_fs w);
        w_checked := []; w_page := 0;
        w_visits := w_visits w + length (s_listing site [cb_id cb]) |},
     Returns checkboxes).
Proof.
  intros Hcb Hnone (([raw Htext] & Hscroll & Hcheck & Huncheck) & Hwalk & Hfuel).
  unfold V2.filter_turn, click_checkbox. rewrite Hcb.
  unfold try_except at 1.
  unfold bind at 1, call at 1. unfold bind at 1, call at 1. rewrite Htext.
  unfold bind at 1, call at 1. rewrite Hscroll.
  unfold bind at 1. unfold bind at 1, get at 1. unfold bind at 1.
  rewrite bool_decide_eq_false_2 by (rewrite Hnone; apply not_elem_of_nil).
  unfold call at 1. rewrite Hcheck. unfold modify at 1.
  rewrite toggle_on by (rewrite Hnone; apply not_elem_of_nil).
  rewrite Hnone. cbn [app].
  unfold bind at 1. rewrite walk_v2; [|done|done|done].
  unfold walked. cbn [w_fs w_checked w_page w_visits].
  unfold bind at 1. unfold bind at 1, get at 1. unfold bind at 1.
  cbn [w_checked].
  rewrite bool_decide_eq_true_2 by constructor.
  unfold call at 1. rewrite Huncheck. unfold modify at 1.
  rewrite (toggle_off _ _ []) by (done || apply not_elem_of_nil).
  unfold ret. cbn [w_fs w_checked w_page w_visits].
  unfold filter_rows, box_label. by rewrite Htext.
Qed.

Lemma find_block_first_match section_name before txt block after (w : World) :
  Forall (other_heading section_name) before ->
  heading_matches section_name txt = true ->
  V1.find_block section_name (before ++ (Ok txt, block) :: after) w
  = (w, Returns (Some block))
  /\ V2.find_block section_name (before ++ (Ok txt, block) :: after) w
     = (w, Returns (Some block)).
Proof.
  intros Hbefore Hmatch. unfold heading_matches in Hmatch.
  induction Hbefore as [|[t b] before (t' & Ht & Hno) _ IH]; cbn [app].
  - cbn [V1.find_block V2.find_block]. unfold bind, call, ret. by rewrite Hmatch.
  - simpl in Ht. subst t. unfold heading_matches in Hno.
    destruct IH as [IH1 IH2].
    split; [cbn [V1.find_block]|cbn [V2.find_block]];
      unfold bind at 1, call at 1; by rewrite Hno.
Qed.

Lemma find_block_no_match section_name hs (w : World) :
  Forall (other_heading section_name) hs ->
  V1.find_block section_name hs w = (w, Returns None)
  /\ V2.find_block section_name hs w = (w, Returns None).
Proof.
  induction 1 as [|[t b] hs (t' & Ht & Hno) _ IH]; [done|].
  simpl in Ht. subst t. unfold heading_matches in Hno.
  destruct IH as [IH1 IH2].
  split; [cbn [V1.find_block]|cbn [V2.find_block]];
    unfold bind at 1, call at 1; by rewrite Hno.
Qed.

Lemma find_block_unreadable section_name before block after (w : World) :
  Forall (other_heading section_name) before ->
  V1.find_block section_name (before ++ (Err, block) :: after) w = (w, Raises)
  /\ V2.find_block section_name (before ++ (Err, block) :: after) w = (w, Raises).
Proof.
  induction 1 as [|[t b] before (t' & Ht & Hno) _ IH]; [done|].
  simpl in Ht. subst t. unfold heading_matches in Hno.
  destruct IH as [IH1 IH2]. cbn [app].
  split; [cbn [V1.find_block]|cbn [V2.find_block]];
    unfold bind at 1, call at 1; by rewrite Hno.
Qed.

Lemma filter_loop_v1_ok fuel section_name checkboxes : forall rest before w,
  checkboxes = before ++ rest ->
  Forall (filter_ok walkable_v1 site fuel) rest ->
  w_checked w = [] ->
  exists w',
    V1.filter_loop urljoin site fuel section_name csv_path headers key checkboxes
      (seq (length before) (length rest)) w = (w', Returns tt)
    /\ w_fs w' = phase_files urljoin V1.extract_detail_page site csv_path headers key
                   rest (w_fs w)
    /\ w_checked w' = [].
Proof.
  induction rest as [|cb rest IH]; intros before w Hboxes Hall Hnone.
  - by exists w.
  - apply Forall_cons in Hall as [Hok Hall].
    cbn [length seq V1.filter_loop].
    erewrite bind_returns; last first.
    { apply filter_turn_v1_ok with (cb := cb); try done.
      rewrite Hboxes. by apply list_lookup_middle. }
    destruct (IH (before ++ [cb])
                {| w_fs := write_rows csv_path headers
                             (filter_rows urljoin V1.extract_detail_page site headers key cb)
                             (w_fs w);
                   w_checked := []; w_page := 0;
                   w_visits := w_visits w + length (s_listing site [cb_id cb]) |})
      as (w' & Hrun & Hfs & Hc); [by rewrite <- app_assoc|done|done|].
    rewrite length_app, Nat.add_1_r in Hrun.
    exists w'. by repeat split.
Qed.

Lemma filter_loop_v2_ok fuel target_block checkboxes : forall rest before w,
  checkboxes = before ++ rest ->
  Forall (filter_ok walkable_v2 site fuel) rest ->
  w_checked w = [] ->
  exists w',
    V2.filter_loop urljoin site fuel csv_path headers key target_block checkboxes
      (seq (length before) (length rest)) w = (w', Returns tt)
    /\ w_fs w' = phase_files urljoin V2.extract_detail_page site csv_path headers key
                   rest (w_fs w)
    /\ w_checked w' = [].
Proof.
  induction rest as [|cb rest IH]; intros before w Hboxes Hall Hnone.
  - by exists w.
  - apply Forall_cons in Hall as [Hok Hall].
    cbn [length seq V2.filter_loop].
    erewrite bind_returns; last first.
    { apply filter_turn_v2_ok with (cb := cb); try done.
      rewrite Hboxes. by apply list_lookup_middle. }
    destruct (IH (before ++ [cb])
                {| w_fs := write_rows csv_path headers
                             (filter_rows urljoin V2.extract_detail_page site headers key cb)
                             (w_fs w);
                   w_checked := []; w_page := 0;
                   w_visits := w_visits w + length (s_listing site [cb_id cb]) |})
      as (w' & Hrun & Hfs & Hc); [by rewrite <- app_assoc|done|done|].
    rewrite length_app, Nat.add_1_r in Hrun.
    exists w'. by repeat split.
Qed.

Lemma phase_v1_ok fuel section_name block w :
  s_filter_section site = Ok tt ->
  block_of section_name site block ->
  Forall (filter_ok walkable_v1 site fuel) block ->
  w_checked w = [] ->
  exists w',
    V1.click_filter_and_process urljoin site fuel section_name csv_path headers key w
    = (w', Returns tt)
    /\ w_fs w' = phase_files urljoin V1.extract_detail_page site csv_path headers key
                   block (w_fs w)
    /\ w_checked w' = [].
Proof.
  intros Hsection (before & txt & after & Hheads & Hbefore & Hmatch) Hall Hnone.
  destruct (find_block_first_match section_name before txt block after w Hbefore Hmatch)
    as [Hf _].
  unfold V1.click_filter_and_process. rewrite Hsection, Hheads.
  unfold bind at 1, call at 1. erewrite bind_returns by exact Hf.
  apply (filter_loop_v1_ok fuel section_name block block [] w); done.
Qed.

Lemma phase_v2_ok fuel section_name block w :
  s_filter_section site = Ok tt ->
  block_of section_name site block ->
  Forall (filter_ok walkable_v2 site fuel) block ->
  w_checked w = [] ->
  exists w',
    V2.click_filter_and_process urljoin site fuel section_name csv_path headers key w
    = (w', Returns tt)
    /\ w_fs w' = phase_files urljoin V2.extract_detail_page site csv_path headers key
                   block (w_fs w)
    /\ w_checked w' = [].
Proof.
  intros Hsection (before & txt & after & Hheads & Hbefore & Hmatch) Hall Hnone.
  destruct (find_block_first_match section_name before txt block after w Hbefore Hmatch)
    as [_ Hf].
  unfold V2.click_filter_and_process. rewrite Hsection, Hheads.
  unfold bind at 1, call at 1. erewrite bind_returns by exact Hf.
  apply (filter_loop_v2_ok fuel block block block [] w); done.
Qed.
End Turn.

(** X19: a turn of the filter loop whose option works, on a catalog with
    no filter set, applies that one filter, writes the rows of every
    linked, fetchable card of the filtered listing with the canonical
    label of the option in the forced column, and removes the filter
    again: the catalog is back on its first page with no filter set, and
    the next turn works on the same checkboxes. *)
Theorem successful_turn_restores_view urljoin site fuel section_name csv_path headers key
    target_block checkboxes i cb w :
  checkboxes !! i = Some cb ->
  w_checked w = [] ->
  (filter_ok walkable_v1 site fuel cb ->
   V1.filter_turn urljoin site fuel section_name csv_path headers key checkboxes i w
   = ({| w_fs := write_rows csv_path headers
                   (filter_rows urljoin V1.extract_detail_page site headers key cb) (w_fs w);
         w_checked := []; w_page := 0;
         w_visits := w_visits w + length (s_listing site [cb_id cb]) |},
      Returns checkboxes))
  /\ (filter_ok walkable_v2 site fuel cb ->
      V2.filter_turn urljoin site fuel csv_path headers key target_block checkboxes i w
      = ({| w_fs := write_rows csv_path headers
                      (filter_rows urljoin V2.extract_detail_page site headers key cb)
                      (w_fs w);
            w_checked := []; w_page := 0;
            w_visits := w_visits w + length (s_listing site [cb_id cb]) |},
         Returns checkboxes)).
Proof.
  intros Hcb Hnone. split; intros Hok.
  - by apply filter_turn_v1_ok.
  - by apply filter_turn_v2_ok.
Qed.

Lemma working_box_ok walkable id text fuel :
  walkable (s_listing healthy_site [id]) = true ->
  length (s_listing healthy_site [id]) <= fuel ->
  filter_ok walkable healthy_site fuel (working_box id text).
Proof.
  intros Hwalk Hfuel. split; [|by split].
  split; [by exists text|]. by repeat split.
Qed.

(** X19 on the ministry option of a catalog with one ministry and one
    department. *)
Lemma successful_turn_witness :
  V1.filter_turn join_path healthy_site 2 "Ministries" "Ministries.csv" MINISTRY_HEADERS
    "Ministry Name" [working_box 1 "Ministry of A (3)"] 0 (fresh_world ∅)
  = ({| w_fs := write_rows "Ministries.csv" MINISTRY_HEADERS
                  (filter_rows join_path V1.extract_detail_page healthy_site
                     MINISTRY_HEADERS "Ministry Name" (working_box 1 "Ministry of A (3)"))
                  (w_fs (fresh_world ∅));
        w_checked := []; w_page := 0;
        w_visits := w_visits (fresh_world ∅)
                    + length (s_listing healthy_site
                                [cb_id (working_box 1 "Ministry of A (3)")]) |},
     Returns [working_box 1 "Ministry of A (3)"]).
Proof.
  destruct (successful_turn_restores_view join_path healthy_site 2 "Ministries"
              "Ministries.csv" MINISTRY_HEADERS "Ministry Name"
              [working_box 1 "Ministry of A (3)"] [working_box 1 "Ministry of A (3)"]
              0 (working_box 1 "Ministry of A (3)") (fresh_world ∅) eq_refl eq_refl)
    as [H _].
  apply H. apply working_box_ok; [reflexivity | simpl; lia].
Defined.

(** X20: the block of a section is the one under the first filter
    heading whose text contains the section name, letter case apart;
    when no heading does, no block is found; a heading that cannot be
    read before any match makes the search raise.  The search changes
    nothing in the catalog. *)
Theorem filter_block_is_first_matching_heading section_name before block after w :
  Forall (other_heading section_name) before ->
  (forall txt, heading_matches section_name txt = true ->
     V1.find_block section_name (before ++ (Ok txt, block) :: after) w
     = (w, Returns (Some block))
     /\ V2.find_block section_name (before ++ (Ok txt, block) :: after) w
        = (w, Returns (Some block)))
  /\ (V1.find_block section_name before w = (w, Returns None)
      /\ V2.find_block section_name before w = (w, Returns None))
  /\ (V1.find_block section_name (before ++ (Err, block) :: after) w = (w, Raises)
      /\ V2.find_block section_name (before ++ (Err, block) :: after) w = (w, Raises)).
Proof.
  intros Hbefore. split; [|split].
  - intros txt Hmatch. by apply find_block_first_match.
  - by apply find_block_no_match.
  - by apply find_block_unreadable.
Qed.

(** X20 on the headings "Ministries" and "DEPARTMENTS", searched for
    the section "Departments". *)
Lemma filter_block_witness :
  V1.find_block "Departments"
    ([(Ok "Ministries", ministry_boxes)] ++ (Ok "DEPARTMENTS", department_boxes) :: [])
    (fresh_world ∅)
  = (fresh_world ∅, Returns (Some department_boxes))
  /\ V2.find_block "Departments"
       ([(Ok "Ministries", ministry_boxes)] ++ (Ok "DEPARTMENTS", department_boxes) :: [])
       (fresh_world ∅)
     = (fresh_world ∅, Returns (Some department_boxes)).
Proof.
  destruct (filter_block_is_first_matching_heading "Departments"
              [(Ok "Ministries", ministry_boxes)] department_boxes [] (fresh_world ∅))
    as [H _].
  - constructor; [|constructor]. exists "Ministries". by split.
  - apply (H "DEPARTMENTS"). reflexivity.
Defined.

(** X21: when the sidebar shows up, the block of the section is found
    under its heading and every option of the block works, a phase
    applies the options one after the other, each alone, and returns
    with no filter set; the sink then holds, after what it held, the
    rows of the first option's listing, then those of the second, and so
    on. *)
Theorem phase_applies_every_filter_in_turn urljoin site fuel section_name csv_path
    headers key block w :
  s_filter_section site = Ok tt ->
  block_of section_name site block ->
  w_checked w = [] ->
  (Forall (filter_ok walkable_v1 site fuel) block ->
   exists w',
     V1.click_filter_and_process urljoin site fuel section_name csv_path headers key w
     = (w', Returns tt)
     /\ w_fs w' = phase_files urljoin V1.extract_detail_page site csv_path headers key
                    block (w_fs w)
     /\ w_checked w' = [])
  /\ (Forall (filter_ok walkable_v2 site fuel) block ->
      exists w',
        V2.click_filter_and_process urljoin site fuel section_name csv_path headers key w
        = (w', Returns tt)
        /\ w_fs w' = phase_files urljoin V2.extract_detail_page site csv_path headers key
                       block (w_fs w)
        /\ w_checked w' = []).
Proof.
  intros Hsection Hblock Hnone. split; intros Hall.
  - by apply phase_v1_ok.
  - by apply phase_v2_ok.
Qed.

Lemma healthy_ministries : block_of "Ministries" healthy_site [working_box 1 "Ministry of A (3)"].
Proof.
  exists [], "Ministries", [(Ok "Departments", [working_box 2 "Department of X (3)"])].
  split; [reflexivity|]. split; [constructor|reflexivity].
Qed.

Lemma healthy_departments :
  block_of "Departments" healthy_site [working_box 2 "Department of X (3)"].
Proof.
  exists [(Ok "Ministries", [working_box 1 "Ministry of A (3)"])], "Departments", [].
  split; [reflexivity|]. split; [|reflexivity].
  constructor; [|constructor]. exists "Ministries". by split.
Qed.

(** X21 on the ministry phase of the catalog with one ministry. *)
Lemma phase_applies_witness :
  exists w',
    V1.click_filter_and_process join_path healthy_site 2 "Ministries"
      "nsws_data_output/Ministries.csv" MINISTRY_HEADERS "Ministry Name" (fresh_world ∅)
    = (w', Returns tt)
    /\ w_fs w' = phase_files join_path V1.extract_detail_page healthy_site
                   "nsws_data_output/Ministries.csv" MINISTRY_HEADERS "Ministry Name"
                   [working_box 1 "Ministry of A (3)"] (w_fs (fresh_world ∅))
    /\ w_checked w' = [].
Proof.
  destruct (phase_applies_every_filter_in_turn join_path healthy_site 2 "Ministries"
              "nsws_data_output/Ministries.csv" MINISTRY_HEADERS "Ministry Name"
              [working_box 1 "Ministry of A (3)"] (fresh_world ∅)
              eq_refl healthy_ministries eq_refl) as [H _].
  apply H. constructor; [|constructor].
  apply working_box_ok; [reflexivity | simpl; lia].
Defined.

Lemma bind_not_raises {S A B} (m : Try S A) (k : A -> Try S B) s :
  snd (m s) <> Raises -> (forall a s', snd (k a s') <> Raises) ->
  snd (bind m k s) <> Raises.
Proof.
  intros Hm Hk. unfold bind.
  destruct (m s) as [s' [a| |]]; simpl in *; [apply Hk|done..].
Qed.

Lemma recovered_not_raises {S A} (body handler : Try S A) s :
  (forall s', snd (handler s') <> Raises) ->
  snd (try_except body handler s) <> Raises.
Proof.
  intros Hh. unfold try_except.
  destruct (body s) as [s' [a| |]]; simpl; [done|apply Hh|done].
Qed.

Section Survives.
Variable urljoin : string -> string -> string.
Variable site : Site.
Variables (csv_path : string) (headers : list string) (key : string).
Hypothesis Hreload : s_reload site = Ok tt.

Lemma filter_turn_v1_survives fuel section_name checkboxes i w :
  snd (V1.filter_turn urljoin site fuel section_name csv_path headers key checkboxes i w)
  <> Raises.
Proof.
  apply recovered_not_raises. intros s'.
  unfold reload, bind, call, modify, ret. by rewrite Hreload.
Qed.

Lemma filter_turn_v2_survives fuel target_block checkboxes i w :
  snd (V2.filter_turn urljoin site fuel csv_path headers key target_block checkboxes i w)
  <> Raises.
Proof.
  apply recovered_not_raises. intros s'.
  unfold reload, bind, call, modify, ret. by rewrite Hreload.
Qed.

Lemma filter_loop_v1_survives fuel section_name range : forall checkboxes w,
  snd (V1.filter_loop urljoin site fuel section_name csv_path headers key
         checkboxes range w) <> Raises.
Proof.
  induction range as [|i range IH]; intros checkboxes w; [done|].
  cbn [V1.filter_loop]. apply bind_not_raises; [apply filter_turn_v1_survives|].
  intros next w'. apply IH.
Qed.

Lemma filter_loop_v2_survives fuel target_block range : forall checkboxes w,
  snd (V2.filter_loop urljoin site fuel csv_path headers key target_block
         checkboxes range w) <> Raises.
Proof.
  induction range as [|i range IH]; intros checkboxes w; [done|].
  cbn [V2.filter_loop]. apply bind_not_raises; [apply filter_turn_v2_survives|].
  intros next w'. apply IH.
Qed.

Lemma find_block_readable section_name hs (w : World) :
  Forall (fun h : result string * list Checkbox => h.1 <> Err) hs ->
  snd (V1.find_block section_name hs w) <> Raises
  /\ snd (V2.find_block section_name hs w) <> Raises.
Proof.
  induction 1 as [|[t b] hs Ht _ [IH1 IH2]]; [done|].
  destruct t as [txt|]; [|done].
  split; [cbn [V1.find_block]|cbn [V2.find_block]];
    unfold bind at 1, call at 1;
    by destruct (Py.contains _ _).
Qed.
End Survives.

(** X22: once the sidebar has shown up and the filter headings have been
    read, no failure inside a turn (a missing checkbox, a click that
    fails, an exception from the walker) makes a phase raise, as long as
    the page can be reloaded. *)
Theorem phase_survives_failing_options urljoin site fuel section_name csv_path
    headers key w :
  s_filter_section site = Ok tt ->
  Forall (fun h : result string * list Checkbox => h.1 <> Err) (s_filter_headers site) ->
  s_reload site = Ok tt ->
  snd (V1.click_filter_and_process urljoin site fuel section_name csv_path headers key w)
  <> Raises
  /\ snd (V2.click_filter_and_process urljoin site fuel section_name csv_path headers key w)
     <> Raises.
Proof.
  intros Hsection Hheads Hreload.
  unfold V1.click_filter_and_process, V2.click_filter_and_process. rewrite Hsection.
  destruct (find_block_readable section_name (s_filter_headers site) w Hheads) as [H1 H2].
  split; unfold bind at 1, call at 1.
  - apply bind_not_raises; [exact H1|]. intros block w'.
    by apply filter_loop_v1_survives.
  - apply bind_not_raises; [exact H2|]. intros block w'.
    by apply filter_loop_v2_survives.
Qed.

(** X22 on the catalog whose first ministry checkbox cannot be
    clicked. *)
Lemma phase_survives_witness :
  snd (V1.click_filter_and_process join_path two_block_site 3 "Ministries"
         "Ministries.csv" MINISTRY_HEADERS "Ministry Name" (fresh_world ∅))
  <> Raises
  /\ snd (V2.click_filter_and_process join_path two_block_site 3 "Ministries"
            "Ministries.csv" MINISTRY_HEADERS "Ministry Name" (fresh_world ∅))
     <> Raises.
Proof.
  assert (Hheads : Forall (fun h : result string * list Checkbox => h.1 <> Err)
                     (s_filter_headers two_block_site)).
  { constructor; [discriminate|]. constructor; [discriminate|]. constructor. }
  exact (phase_survives_failing_options join_path two_block_site 3 "Ministries"
           "Ministries.csv" MINISTRY_HEADERS "Ministry Name"
           (fresh_world ∅) eq_refl Hheads eq_refl).
Defined.

(** ** The orchestrator *)

(** X23: when the filter sidebar never shows up, the first variant's
    run ends with the exception of the first phase, having written
    nothing; the second variant catches the exception of either filtered
    phase, reloads, and still walks the unfiltered catalog into the sink
    of all approvals. *)
Theorem missing_sidebar_stops_first_variant_only urljoin site fuel w :
  s_launch site = Ok tt -> s_goto site = Ok tt ->
  s_filter_section site = Err -> s_reload site = Ok tt ->
  V1.main urljoin site fuel w = (w, Raises)
  /\ V2.main urljoin site fuel w
     = (V2.handle_pagination_and_extraction urljoin site fuel
          "nsws_data_slowed/All_Approvals.csv" ALL_HEADERS None;;
        call (s_close site)) (reloaded w).
Proof.
  intros Hlaunch Hgoto Hsection Hreload.
  unfold V1.main, V2.main, V1.click_filter_and_process, V2.click_filter_and_process, reload.
  rewrite Hlaunch, Hgoto, Hsection, Hreload. done.
Qed.

(** X23 on the catalog without sidebar. *)
Lemma missing_sidebar_witness :
  V1.main join_path no_sidebar_site 2 (fresh_world ∅) = (fresh_world ∅, Raises)
  /\ V2.main join_path no_sidebar_site 2 (fresh_world ∅)
     = (V2.handle_pagination_and_extraction join_path no_sidebar_site 2
          "nsws_data_slowed/All_Approvals.csv" ALL_HEADERS None;;
        call (s_close no_sidebar_site)) (reloaded (fresh_world ∅)).
Proof.
  exact (missing_sidebar_stops_first_variant_only join_path no_sidebar_site 2
           (fresh_world ∅) eq_refl eq_refl eq_refl eq_refl).
Defined.

(** X24: a run on a healthy catalog (every driver call of the run
    succeeds, both filter blocks are found under their headings, every
    option works, every listing can be walked within the loop budget)
    returns, and leaves in the three sinks, after what they held, the
    rows of the ministry options in order, the rows of the department
    options in order, and the rows of the unfiltered listing. *)
Theorem healthy_run_fills_three_sinks urljoin site fuel ministries departments w :
  s_launch site = Ok tt -> s_goto site = Ok tt -> s_filter_section site = Ok tt ->
  s_reload site = Ok tt -> s_close site = Ok tt ->
  block_of "Ministries" site ministries ->
  block_of "Departments" site departments ->
  length (s_listing site []) <= fuel ->
  w_checked w = [] ->
  (Forall (filter_ok walkable_v1 site fuel) (ministries ++ departments) ->
   walkable_v1 (s_listing site []) = true ->
   exists w',
     V1.main urljoin site fuel w = (w', Returns tt)
     /\ w_fs w'
        = write_rows "nsws_data_output/All_Approvals.csv" ALL_HEADERS
            (concat (map (page_rows urljoin V1.extract_detail_page site ALL_HEADERS None)
                       (s_listing site [])))
            (phase_files urljoin V1.extract_detail_page site
               "nsws_data_output/Departments.csv" DEPT_HEADERS "Department Name" departments
               (phase_files urljoin V1.extract_detail_page site
                  "nsws_data_output/Ministries.csv" MINISTRY_HEADERS "Ministry Name"
                  ministries (w_fs w))))
  /\ (Forall (filter_ok walkable_v2 site fuel) (ministries ++ departments) ->
      walkable_v2 (s_listing site []) = true ->
      exists w',
        V2.main urljoin site fuel w = (w', Returns tt)
        /\ w_fs w'
           = write_rows "nsws_data_slowed/All_Approvals.csv" ALL_HEADERS
               (concat (map (page_rows urljoin V2.extract_detail_page site ALL_HEADERS None)
                          (s_listing site [])))
               (phase_files urljoin V2.extract_detail_page site
                  "nsws_data_slowed/Departments.csv" DEPT_HEADERS "Department Name"
                  departments
                  (phase_files urljoin V2.extract_detail_page site
                     "nsws_data_slowed/Ministries.csv" MINISTRY_HEADERS "Ministry Name"
                     ministries (w_fs w)))).
Proof.
  intros Hlaunch Hgoto Hsection Hreload Hclose Hmin Hdept Hfuel Hnone.
  split; intros [Hm Hd]%Forall_app Hwalk.
  - destruct (phase_v1_ok urljoin site "nsws_data_output/Ministries.csv"
                MINISTRY_HEADERS "Ministry Name" fuel "Ministries" ministries w)
      as (w1 & Hrun1 & Hfs1 & Hc1); try done.
    destruct (phase_v1_ok urljoin site "nsws_data_output/Departments.csv"
                DEPT_HEADERS "Department Name" fuel "Departments" departments (reloaded w1))
      as (w2 & Hrun2 & Hfs2 & Hc2); try done.
    unfold V1.main. rewrite Hlaunch, Hgoto.
    unfold bind at 1, call at 1. unfold bind at 1, call at 1.
    erewrite bind_returns by exact Hrun1.
    unfold reload at 1. rewrite Hreload.
    unfold bind at 1. unfold bind at 1, call at 1. unfold modify at 1.
    erewrite bind_returns by exact Hrun2.
    unfold reload at 1. rewrite Hreload.
    unfold bind at 1. unfold bind at 1, call at 1. unfold modify at 1.
    erewrite bind_returns by (apply walk_v1; done).
    unfold call. rewrite Hclose. eexists. split; [reflexivity|].
    unfold walked, reloaded. cbn [w_fs w_checked]. rewrite Hfs2.
    unfold reloaded. cbn [w_fs]. by rewrite Hfs1.
  - destruct (phase_v2_ok urljoin site "nsws_data_slowed/Ministries.csv"
                MINISTRY_HEADERS "Ministry Name" fuel "Ministries" ministries w)
      as (w1 & Hrun1 & Hfs1 & Hc1); try done.
    destruct (phase_v2_ok urljoin site "nsws_data_slowed/Departments.csv"
                DEPT_HEADERS "Department Name" fuel "Departments" departments (reloaded w1))
      as (w2 & Hrun2 & Hfs2 & Hc2); try done.
    unfold V2.main. rewrite Hlaunch, Hgoto.
    unfold bind at 1, call at 1. unfold bind at 1, call at 1.
    unfold bind at 1, try_except at 1. rewrite Hrun1.
    unfold reload at 1. rewrite Hreload.
    unfold bind at 1. unfold bind at 1, call at 1. unfold modify at 1.
    unfold bind at 1, try_except at 1. rewrite Hrun2.
    unfold reload at 1. rewrite Hreload.
    unfold bind at 1. unfold bind at 1, call at 1. unfold modify at 1.
    erewrite bind_returns by (apply walk_v2; done).
    unfold call. rewrite Hclose. eexists. split; [reflexivity|].
    unfold walked, reloaded. cbn [w_fs w_checked]. rewrite Hfs2.
    unfold reloaded. cbn [w_fs]. by rewrite Hfs1.
Qed.

(** X24 on the catalog with one ministry and one department. *)
Lemma healthy_run_witness :
  exists w',
    V1.main join_path healthy_site 2 (fresh_world ∅) = (w', Returns tt)
    /\ w_fs w'
       = write_rows "nsws_data_output/All_Approvals.csv" ALL_HEADERS
           (concat (map (page_rows join_path V1.extract_detail_page healthy_site
                           ALL_HEADERS None)
                      (s_listing healthy_site [])))
           (phase_files join_path V1.extract_detail_page healthy_site
              "nsws_data_output/Departments.csv" DEPT_HEADERS "Department Name"
              [working_box 2 "Department of X (3)"]
              (phase_files join_path V1.extract_detail_page healthy_site
                 "nsws_data_output/Ministries.csv" MINISTRY_HEADERS "Ministry Name"
                 [working_box 1 "Ministry of A (3)"] (w_fs (fresh_world ∅)))).
Proof.
  assert (Hfuel : length (s_listing healthy_site []) <= 2) by (simpl; lia).
  destruct (healthy_run_fills_three_sinks join_path healthy_site 2
              [working_box 1 "Ministry of A (3)"] [working_box 2 "Department of X (3)"]
              (fresh_world ∅) eq_refl eq_refl eq_refl eq_refl eq_refl
              healthy_ministries healthy_departments Hfuel eq_refl) as [H _].
  apply H; [|reflexivity].
  constructor; [|constructor; [|constructor]];
    (apply working_box_ok; [reflexivity | simpl; lia]).
Defined.
